(** * Connect chat: the Sync Gateway and the Remote API it talks to

    A shallow embedding of
    - [src/services/api.ts] (the client's [ApiService]),
    - the backend models ([User.ts], [Message.ts], [Group.ts]),
    - the backend controllers (user, message and group controller) and
    - the requests [src/App.tsx] and [src/components/GroupCreationModal.tsx]
      build for the gateway,
    together with the properties the specification states about them.

    Modelling conventions.
    - A JSON field that holds a string is an [option string]: [None] is
      JavaScript's [undefined] (field absent).  Truthiness, [||] and [===]
      are written out in [Js].
    - A JavaScript number that holds a time stamp or a status code is a [Z].
    - A MongoDB collection is the list of its documents in natural
      (insertion) order.  Queries are boolean predicates on documents.
    - The store is the one [initializeCollection] sets up on a fresh
      database in production ([NODE_ENV] is 'production'): the users
      collection carries its [$jsonSchema] validator and the unique index
      on the e-mail address, the messages and groups collections carry no
      validator.  The server checks the users validator where a user name,
      an address, an avatar or a status is written ([createUser],
      [updateUser]); [banUser], [deleteUser] and [updateLastSeen] write
      only [isBanned] and a [lastSeen] read off the clock, and a document
      that passed passes again ([validator_set_isBanned],
      [validator_set_lastSeen]).
    - A string is the sequence of its characters, [ascii] being the
      alphabet; a pattern of the validator is a regular expression
      ([Regex]) matched the way PCRE does.
    - [Date.now()], [Math.random()] and the [ObjectId] the driver mints for
      an insert are explicit arguments.
    - [async] functions run to completion one at a time; a function that may
      throw returns a [Completion].
    - A route is a typed request ([Routes.Request]) rather than a method, a
      path and a JSON text; the router's 503 answer while the controllers
      are not yet built and the [/health] route are left out. *)

From Stdlib Require Import Ascii String ZArith.
From stdpp Require Import base strings list sorting pretty.

#[local] Open Scope string_scope.
#[local] Open Scope Z_scope.

(** ** JavaScript values *)

Module Js.

(** A string-valued JSON field; [None] is [undefined]. *)
Definition str := option string.

(** [!!v] for a string or [undefined]: the empty string is falsy. *)
Definition truthy (v : str) : bool :=
  match v with
  | Some s => negb (bool_decide (s = ""))
  | None => false
  end.

(** [!!n] for a number or [undefined]: zero is falsy. *)
Definition truthy_num (v : option Z) : bool :=
  match v with
  | Some n => negb (bool_decide (n = 0))
  | None => false
  end.

(** [!!b] for a boolean or [undefined]. *)
Definition truthy_bool (v : option bool) : bool :=
  match v with
  | Some b => b
  | None => false
  end.

(** [a || b] *)
Definition or (a b : str) : str := if truthy a then a else b.

(** [a === b] *)
Definition seq (a b : str) : bool := bool_decide (a = b).

(** The outcome of running a function body: a value, or an exception that
    carries MongoDB's error [code] when it has one. *)
Inductive Completion (A : Type) : Type :=
| Return (a : A)
| Throw (code : option Z).
Arguments Return {A} a.
Arguments Throw {A} code.

Definition bind {A B} (m : Completion A) (k : A → Completion B) : Completion B :=
  match m with
  | Return a => k a
  | Throw c => Throw c
  end.

End Js.

Notation "x ←! m ; k" := (Js.bind m (λ x, k))
(at level 20, m at level 100, k at level 200, only parsing).

(** ** The driver's ObjectId *)

Module ObjectId.

(** An ObjectId, by its canonical rendering ([toString()]): 24 lower-case
    hexadecimal digits. *)
Definition t := string.

Definition hex_digit (c : ascii) : option ascii :=
  let n := nat_of_ascii c in
  if ((48 <=? n) && (n <=? 57))%nat then Some c
  else if ((97 <=? n) && (n <=? 102))%nat then Some c
  else if ((65 <=? n) && (n <=? 70))%nat then Some (ascii_of_nat (n + 32))
  else None.

Fixpoint hex_string (s : string) : option string :=
  match s with
  | EmptyString => Some EmptyString
  | String c s' =>
      match hex_digit c, hex_string s' with
      | Some c', Some r => Some (String c' r)
      | _, _ => None
      end
  end.

(** [new ObjectId(s)]: throws unless [s] is 24 hexadecimal digits. *)
Definition new (s : string) : Js.Completion t :=
  if bool_decide (String.length s = 24%nat) then
    match hex_string s with
    | Some r => Js.Return r
    | None => Js.Throw None
    end
  else Js.Throw None.

(** [new ObjectId(v)] for a JSON field; [undefined] would make the driver
    mint a fresh id, which matches no stored document. *)
Definition new_str (v : Js.str) : Js.Completion (option t) :=
  match v with
  | Some s => o ←! new s; Js.Return (Some o)
  | None => Js.Return None
  end.

Definition toString (o : t) : string := o.

End ObjectId.

(** ** Collections *)

Module Collection.
Section ops.
Context {D : Type} `{EqDecision D}.
Implicit Types (q : D → bool) (upd : D → D) (c : list D).

Definition insertOne (d : D) c : list D := c ++ [d].

Definition find q c : list D := List.filter q c.

Definition findOne q c : option D := List.find q c.

(** [updateOne]: the first match is updated; the count is [modifiedCount],
    which is 0 when the update leaves the document as it was. *)
Fixpoint updateOne q upd c : list D * Z :=
  match c with
  | [] => ([], 0)
  | d :: c' =>
      if q d then (upd d :: c', if decide (upd d = d) then 0 else 1)
      else let '(r, n) := updateOne q upd c' in (d :: r, n)
  end.

(** [findOneAndUpdate] with [returnDocument: 'after']. *)
Fixpoint findOneAndUpdate q upd c : list D * option D :=
  match c with
  | [] => ([], None)
  | d :: c' =>
      if q d then (upd d :: c', Some (upd d))
      else let '(r, o) := findOneAndUpdate q upd c' in (d :: r, o)
  end.

Fixpoint updateMany q upd c : list D * Z :=
  match c with
  | [] => ([], 0)
  | d :: c' =>
      let '(r, n) := updateMany q upd c' in
      if q d then (upd d :: r, if decide (upd d = d) then n else n + 1)
      else (d :: r, n)
  end.

Fixpoint deleteOne q c : list D * Z :=
  match c with
  | [] => ([], 0)
  | d :: c' =>
      if q d then (c', 1)
      else let '(r, n) := deleteOne q c' in (d :: r, n)
  end.

Definition deleteMany q c : list D * Z :=
  (List.filter (λ d, negb (q d)) c, Z.of_nat (length (List.filter q c))).

End ops.
End Collection.

(** ** HTTP responses of the Remote API *)

Module Http.

(** [response.ok] *)
Definition ok (status : Z) : bool := (200 <=? status) && (status <=? 299).

End Http.

(** ** Regular expressions, for the patterns of the schema validator *)

Module Regex.

Inductive t : Type :=
| Never
| Empty
| Class (p : ascii → bool)
| Seq (r s : t)
| Alt (r s : t)
| Star (r : t).

Fixpoint nullable (r : t) : bool :=
  match r with
  | Never => false
  | Empty => true
  | Class _ => false
  | Seq r s => nullable r && nullable s
  | Alt r s => nullable r || nullable s
  | Star _ => true
  end.

(** The expression for what may follow [c]. *)
Fixpoint derive (c : ascii) (r : t) : t :=
  match r with
  | Never => Never
  | Empty => Never
  | Class p => if p c then Empty else Never
  | Seq r s =>
      if nullable r then Alt (Seq (derive c r) s) (derive c s)
      else Seq (derive c r) s
  | Alt r s => Alt (derive c r) (derive c s)
  | Star r => Seq (derive c r) (Star r)
  end.

(** The whole of [s] matches [r]. *)
Fixpoint matches (r : t) (s : string) : bool :=
  match s with
  | EmptyString => nullable r
  | String c s' => matches (derive c r) s'
  end.

Definition char (c : ascii) : t := Class (λ x, bool_decide (x = c)).

(** [r+] *)
Definition plus (r : t) : t := Seq r (Star r).

(** [$] at the end of a pattern: the end of the string, or the line feed
    that ends it. *)
Definition dollar : t := Alt Empty (char "010").

Definition between (lo hi : nat) (c : ascii) : bool :=
  ((lo <=? nat_of_ascii c) && (nat_of_ascii c <=? hi))%nat.

(** [a-zA-Z] *)
Definition alpha (c : ascii) : bool := between 97 122 c || between 65 90 c.

(** [0-9] *)
Definition digit (c : ascii) : bool := between 48 57 c.

Definition one_of (l : list ascii) (c : ascii) : bool := bool_decide (c ∈ l).

End Regex.

(** ** backend/src/models/User.ts *)

Module UserModel.

Definition ADMIN_EMAIL : string := "admin0909@gmail.com".

Record User := {
  id : string;
  username : Js.str;
  email : Js.str;
  avatar : Js.str;
  status : Js.str;
  lastSeen : option Z;
  isAI : option bool;
  isAdmin : option bool;
  isBanned : option bool
}.

Module Doc.
Record UserDocument := {
  _id : ObjectId.t;
  username : Js.str;
  email : Js.str;
  avatar : Js.str;
  status : Js.str;
  lastSeen : option Z;
  isAdmin : option bool;
  isBanned : option bool
}.
End Doc.
Abbreviation UserDocument := Doc.UserDocument.

#[global] Instance User_eq_dec : EqDecision User.
Proof. solve_decision. Defined.

#[global] Instance UserDocument_eq_dec : EqDecision UserDocument.
Proof. solve_decision. Defined.

(** What [createUser] is called with ([Omit<User, 'id'>]). *)
Record UserData := {
  ud_username : Js.str;
  ud_email : Js.str;
  ud_avatar : Js.str;
  ud_status : Js.str;
  ud_lastSeen : option Z
}.

Definition transformDocument (doc : UserDocument) : User :=
  {| id := ObjectId.toString (Doc._id doc);
     username := Doc.username doc;
     email := Doc.email doc;
     avatar := Doc.avatar doc;
     status := Doc.status doc;
     lastSeen := Doc.lastSeen doc;
     isAI := None;
     isAdmin := Some (Js.truthy_bool (Doc.isAdmin doc)
                      || Js.seq (Doc.email doc) (Some ADMIN_EMAIL));
     isBanned := Doc.isBanned doc |}.

Definition by_id (o : ObjectId.t) (doc : UserDocument) : bool :=
  bool_decide (Doc._id doc = o).

Definition by_email (e : Js.str) (doc : UserDocument) : bool :=
  bool_decide (Doc.email doc = e).

Definition set_isBanned (doc : UserDocument) : UserDocument :=
  {| Doc._id := Doc._id doc; Doc.username := Doc.username doc;
     Doc.email := Doc.email doc; Doc.avatar := Doc.avatar doc;
     Doc.status := Doc.status doc; Doc.lastSeen := Doc.lastSeen doc;
     Doc.isAdmin := Doc.isAdmin doc; Doc.isBanned := Some true |}.

Definition set_lastSeen (now : Z) (doc : UserDocument) : UserDocument :=
  {| Doc._id := Doc._id doc; Doc.username := Doc.username doc;
     Doc.email := Doc.email doc; Doc.avatar := Doc.avatar doc;
     Doc.status := Doc.status doc; Doc.lastSeen := Some now;
     Doc.isAdmin := Doc.isAdmin doc; Doc.isBanned := Doc.isBanned doc |}.

(** [^[a-zA-Z0-9._%+-]+@[a-zA-Z0-9.-]+\.[a-zA-Z]{2,}$] *)
Definition email_pattern : Regex.t :=
  let name c := Regex.alpha c || Regex.digit c
                || Regex.one_of ["."; "_"; "%"; "+"; "-"]%char c in
  let host c := Regex.alpha c || Regex.digit c || Regex.one_of ["."; "-"]%char c in
  Regex.Seq (Regex.plus (Regex.Class name))
    (Regex.Seq (Regex.char "@")
       (Regex.Seq (Regex.plus (Regex.Class host))
          (Regex.Seq (Regex.char ".")
             (Regex.Seq (Regex.Class Regex.alpha)
                (Regex.Seq (Regex.Class Regex.alpha)
                   (Regex.Seq (Regex.Star (Regex.Class Regex.alpha)) Regex.dollar)))))).

(** [^https?://]: what follows the match is free. *)
Definition avatar_pattern : Regex.t :=
  Regex.Seq (Regex.char "h") (Regex.Seq (Regex.char "t") (Regex.Seq (Regex.char "t")
    (Regex.Seq (Regex.char "p") (Regex.Seq (Regex.Alt (Regex.char "s") Regex.Empty)
      (Regex.Seq (Regex.char ":") (Regex.Seq (Regex.char "/") (Regex.Seq (Regex.char "/")
        (Regex.Star (Regex.Class (λ _, true)))))))))).

(** The [$jsonSchema] validator [initializeCollection] creates the
    collection with: the five required fields and their constraints. *)
Definition validator (doc : UserDocument) : bool :=
  match Doc.username doc, Doc.email doc, Doc.avatar doc, Doc.status doc,
        Doc.lastSeen doc with
  | Some username, Some email, Some avatar, Some status, Some lastSeen =>
      (3 <=? String.length username)%nat && (String.length username <=? 50)%nat
      && Regex.matches email_pattern email
      && Regex.matches avatar_pattern avatar
      && (String.length status <=? 200)%nat
      && (0 <=? lastSeen)
  | _, _, _, _, _ => false
  end.

(** [insertOne] on the users collection: the server refuses a document that
    fails the validator (error code 121), then one whose e-mail address is
    stored already (the unique index, error code 11000). *)
Definition insertOne (doc : UserDocument) (c : list UserDocument)
    : Js.Completion (list UserDocument) :=
  if negb (validator doc) then Js.Throw (Some 121)
  else
    match Collection.findOne (by_email (Doc.email doc)) c with
    | Some _ => Js.Throw (Some 11000)
    | None => Js.Return (Collection.insertOne doc c)
    end.

(** The document [createUser] inserts; [oid] is the [insertedId]. *)
Definition userDoc (oid : ObjectId.t) (userData : UserData) : UserDocument :=
  {| Doc._id := oid;
     Doc.username := ud_username userData;
     Doc.email := ud_email userData;
     Doc.avatar := ud_avatar userData;
     Doc.status := ud_status userData;
     Doc.lastSeen := ud_lastSeen userData;
     Doc.isAdmin := Some (Js.seq (ud_email userData) (Some ADMIN_EMAIL));
     Doc.isBanned := None |}.

Definition createUser (oid : ObjectId.t) (userData : UserData)
    (c : list UserDocument) : Js.Completion (list UserDocument * User) :=
  c' ←! insertOne (userDoc oid userData) c;
  Js.Return
    (c',
     {| id := ObjectId.toString oid;
        username := ud_username userData;
        email := ud_email userData;
        avatar := ud_avatar userData;
        status := ud_status userData;
        lastSeen := ud_lastSeen userData;
        isAI := None; isAdmin := None; isBanned := None |}).

Definition findUserByEmail (e : Js.str) (c : list UserDocument) : option User :=
  transformDocument <$> Collection.findOne (by_email e) c.

(** [findUserById]: the [catch] turns a malformed id into [null]. *)
Definition findUserById (userId : Js.str) (c : list UserDocument) : option User :=
  match ObjectId.new_str userId with
  | Js.Return (Some o) => transformDocument <$> Collection.findOne (by_id o) c
  | Js.Return None => None
  | Js.Throw _ => None
  end.

(** [getAllUsers]: [{ isBanned: { $ne: true } }]. *)
Definition getAllUsers (c : list UserDocument) : list User :=
  transformDocument <$>
    Collection.find (λ d, negb (bool_decide (Doc.isBanned d = Some true))) c.

Definition getAllUsersForAdmin (c : list UserDocument) : list User :=
  transformDocument <$> c.

(** The [$set] document [updateUser] is called with: a field that is
    [undefined] is left as it is. *)
Record UserUpdates := {
  up_username : Js.str;
  up_avatar : Js.str;
  up_status : Js.str;
  up_lastSeen : option Z
}.

Definition set_updates (updates : UserUpdates) (doc : UserDocument) : UserDocument :=
  {| Doc._id := Doc._id doc;
     Doc.username := from_option Some (Doc.username doc) (up_username updates);
     Doc.email := Doc.email doc;
     Doc.avatar := from_option Some (Doc.avatar doc) (up_avatar updates);
     Doc.status := from_option Some (Doc.status doc) (up_status updates);
     Doc.lastSeen := from_option Some (Doc.lastSeen doc) (up_lastSeen updates);
     Doc.isAdmin := Doc.isAdmin doc; Doc.isBanned := Doc.isBanned doc |}.

(** [updateUser]: the server refuses the update (error code 121) when the
    document it would leave fails the validator. *)
Definition updateUser (userId : string) (updates : UserUpdates) (c : list UserDocument)
    : Js.Completion (list UserDocument * option User) :=
  objectId ←! ObjectId.new userId;
  let '(c', result) := Collection.findOneAndUpdate (by_id objectId) (set_updates updates) c in
  match result with
  | Some doc =>
      if validator doc then Js.Return (c', Some (transformDocument doc))
      else Js.Throw (Some 121)
  | None => Js.Return (c', None)
  end.

(** [deleteUser] ("actually bans them"): success is [modifiedCount === 1]. *)
Definition deleteUser (userId : string) (c : list UserDocument)
    : Js.Completion (list UserDocument * bool) :=
  objectId ←! ObjectId.new userId;
  let '(c', modifiedCount) := Collection.updateOne (by_id objectId) set_isBanned c in
  Js.Return (c', bool_decide (modifiedCount = 1)).

Definition banUser (userId : string) (c : list UserDocument)
    : Js.Completion (list UserDocument * bool) :=
  objectId ←! ObjectId.new userId;
  let '(c', modifiedCount) := Collection.updateOne (by_id objectId) set_isBanned c in
  Js.Return (c', bool_decide (modifiedCount = 1)).

Definition permanentlyDeleteUser (userId : string) (c : list UserDocument)
    : Js.Completion (list UserDocument * bool) :=
  objectId ←! ObjectId.new userId;
  let '(c', deletedCount) := Collection.deleteOne (by_id objectId) c in
  Js.Return (c', bool_decide (deletedCount = 1)).

Definition deleteAllUsersExceptAdmin (c : list UserDocument) : list UserDocument * Z :=
  Collection.deleteMany (λ d, negb (bool_decide (Doc.email d = Some ADMIN_EMAIL))) c.

Definition updateLastSeen (now : Z) (userId : string) (c : list UserDocument)
    : Js.Completion (list UserDocument) :=
  objectId ←! ObjectId.new userId;
  Js.Return (Collection.updateOne (by_id objectId) (set_lastSeen now) c).1.

(** [isUserBanned]: [!!user?.isBanned], and [false] when the id is malformed. *)
Definition isUserBanned (userId : Js.str) (c : list UserDocument) : bool :=
  match ObjectId.new_str userId with
  | Js.Return (Some o) =>
      match Collection.findOne (by_id o) c with
      | Some user => Js.truthy_bool (Doc.isBanned user)
      | None => false
      end
  | Js.Return None => false
  | Js.Throw _ => false
  end.

End UserModel.

(** ** backend/src/models/Message.ts *)

Module MessageModel.

Record Message := {
  id : string;
  senderId : Js.str;
  receiverId : Js.str;
  text : Js.str;
  imageUrl : Js.str;
  audioUrl : Js.str;
  fileUrl : Js.str;
  fileName : Js.str;
  fileType : Js.str;
  type : Js.str;
  timestamp : option Z;
  status : Js.str;
  groupId : Js.str
}.

Module Doc.
Record MessageDocument := {
  _id : ObjectId.t;
  senderId : Js.str;
  receiverId : Js.str;
  text : Js.str;
  imageUrl : Js.str;
  audioUrl : Js.str;
  fileUrl : Js.str;
  fileName : Js.str;
  fileType : Js.str;
  type : Js.str;
  timestamp : option Z;
  status : Js.str;
  groupId : Js.str
}.
End Doc.
Abbreviation MessageDocument := Doc.MessageDocument.

#[global] Instance Message_eq_dec : EqDecision Message.
Proof. solve_decision. Defined.

#[global] Instance MessageDocument_eq_dec : EqDecision MessageDocument.
Proof. solve_decision. Defined.

Definition transformDocument (doc : MessageDocument) : Message :=
  {| id := ObjectId.toString (Doc._id doc);
     senderId := Doc.senderId doc;
     receiverId := Doc.receiverId doc;
     text := Doc.text doc;
     imageUrl := Doc.imageUrl doc;
     audioUrl := Doc.audioUrl doc;
     fileUrl := Doc.fileUrl doc;
     fileName := Doc.fileName doc;
     fileType := Doc.fileType doc;
     type := Doc.type doc;
     timestamp := Doc.timestamp doc;
     status := Doc.status doc;
     groupId := Doc.groupId doc |}.

(** [if (v) doc.field = v]: a falsy value is not stored. *)
Definition if_truthy (v : Js.str) : Js.str := if Js.truthy v then v else None.

(** [createMessage]; the [id] of [messageData] is not read ([Omit<Message, 'id'>])
    and [oid] is the [insertedId]. *)
Definition createMessage (oid : ObjectId.t) (messageData : Message)
    (c : list MessageDocument) : list MessageDocument * Message :=
  let messageDoc :=
    {| Doc._id := oid;
       Doc.senderId := senderId messageData;
       Doc.receiverId := receiverId messageData;
       Doc.type := type messageData;
       Doc.timestamp := timestamp messageData;
       Doc.status := status messageData;
       Doc.text := if_truthy (text messageData);
       Doc.imageUrl := if_truthy (imageUrl messageData);
       Doc.audioUrl := if_truthy (audioUrl messageData);
       Doc.fileUrl := if_truthy (fileUrl messageData);
       Doc.fileName := if_truthy (fileName messageData);
       Doc.fileType := if_truthy (fileType messageData);
       Doc.groupId := if_truthy (groupId messageData) |} in
  (Collection.insertOne messageDoc c,
   {| id := ObjectId.toString oid;
      senderId := senderId messageData;
      receiverId := receiverId messageData;
      text := text messageData;
      imageUrl := imageUrl messageData;
      audioUrl := audioUrl messageData;
      fileUrl := fileUrl messageData;
      fileName := fileName messageData;
      fileType := fileType messageData;
      type := type messageData;
      timestamp := timestamp messageData;
      status := status messageData;
      groupId := groupId messageData |}).

(** The order of [sort({ timestamp: 1 })]: a missing value sorts first. *)
Definition ts_le (a b : option Z) : Prop :=
  match a, b with
  | None, _ => True
  | Some _, None => False
  | Some x, Some y => x ≤ y
  end.

#[global] Instance ts_le_dec a b : Decision (ts_le a b).
Proof. destruct a, b; simpl; apply _. Defined.

Definition doc_le (a b : MessageDocument) : Prop :=
  ts_le (Doc.timestamp a) (Doc.timestamp b).

#[global] Instance doc_le_dec a b : Decision (doc_le a b).
Proof. unfold doc_le; apply _. Defined.

Definition between (user1Id user2Id : string) (d : MessageDocument) : bool :=
  (bool_decide (Doc.senderId d = Some user1Id) && bool_decide (Doc.receiverId d = Some user2Id))
  || (bool_decide (Doc.senderId d = Some user2Id) && bool_decide (Doc.receiverId d = Some user1Id)).

(** [find({$or: ...}).sort({ timestamp: 1 }).limit(500)] *)
Definition getMessagesBetweenUsers (user1Id user2Id : string)
    (c : list MessageDocument) : list Message :=
  transformDocument <$>
    take 500 (merge_sort doc_le (Collection.find (between user1Id user2Id) c)).

Definition getGroupMessages (groupId : string) (c : list MessageDocument) : list Message :=
  transformDocument <$>
    take 500 (merge_sort doc_le
      (Collection.find (λ d, bool_decide (Doc.groupId d = Some groupId)) c)).

Definition by_id (o : ObjectId.t) (doc : MessageDocument) : bool :=
  bool_decide (Doc._id doc = o).

Definition set_status (s : Js.str) (doc : MessageDocument) : MessageDocument :=
  {| Doc._id := Doc._id doc; Doc.senderId := Doc.senderId doc;
     Doc.receiverId := Doc.receiverId doc; Doc.text := Doc.text doc;
     Doc.imageUrl := Doc.imageUrl doc; Doc.audioUrl := Doc.audioUrl doc;
     Doc.fileUrl := Doc.fileUrl doc; Doc.fileName := Doc.fileName doc;
     Doc.fileType := Doc.fileType doc; Doc.type := Doc.type doc;
     Doc.timestamp := Doc.timestamp doc; Doc.status := s;
     Doc.groupId := Doc.groupId doc |}.

Definition set_text (t : Js.str) (doc : MessageDocument) : MessageDocument :=
  {| Doc._id := Doc._id doc; Doc.senderId := Doc.senderId doc;
     Doc.receiverId := Doc.receiverId doc; Doc.text := t;
     Doc.imageUrl := Doc.imageUrl doc; Doc.audioUrl := Doc.audioUrl doc;
     Doc.fileUrl := Doc.fileUrl doc; Doc.fileName := Doc.fileName doc;
     Doc.fileType := Doc.fileType doc; Doc.type := Doc.type doc;
     Doc.timestamp := Doc.timestamp doc; Doc.status := Doc.status doc;
     Doc.groupId := Doc.groupId doc |}.

(** [updateMessageStatus]: [$set: { status }], whatever the stored status is. *)
Definition updateMessageStatus (messageId : string) (status : Js.str)
    (c : list MessageDocument) : Js.Completion (list MessageDocument * option Message) :=
  objectId ←! ObjectId.new messageId;
  let '(c', result) := Collection.findOneAndUpdate (by_id objectId) (set_status status) c in
  Js.Return (c', transformDocument <$> result).

(** [updateMessageText]: [$set: { text: newText }]. *)
Definition updateMessageText (messageId : string) (newText : Js.str)
    (c : list MessageDocument) : Js.Completion (list MessageDocument * option Message) :=
  objectId ←! ObjectId.new messageId;
  let '(c', result) := Collection.findOneAndUpdate (by_id objectId) (set_text newText) c in
  Js.Return (c', transformDocument <$> result).

Definition deleteMessage (messageId : string) (c : list MessageDocument)
    : Js.Completion (list MessageDocument * bool) :=
  objectId ←! ObjectId.new messageId;
  let '(c', deletedCount) := Collection.deleteOne (by_id objectId) c in
  Js.Return (c', bool_decide (0 < deletedCount)).

Definition deleteAllMessagesFromUser (userId : string) (c : list MessageDocument)
    : list MessageDocument * Z :=
  Collection.deleteMany
    (λ d, bool_decide (Doc.senderId d = Some userId)
          || bool_decide (Doc.receiverId d = Some userId)) c.

Definition deleteAllMessagesInGroup (groupId : string) (c : list MessageDocument)
    : list MessageDocument * Z :=
  Collection.deleteMany (λ d, bool_decide (Doc.groupId d = Some groupId)) c.

Definition deleteAllMessages (c : list MessageDocument) : list MessageDocument * Z :=
  Collection.deleteMany (λ _, true) c.

(** The natural key the duplicate check looks for. *)
Definition same_key (senderId receiverId : Js.str) (timestamp : option Z)
    (d : MessageDocument) : bool :=
  bool_decide (Doc.senderId d = senderId)
  && bool_decide (Doc.receiverId d = receiverId)
  && bool_decide (Doc.timestamp d = timestamp).

(** [checkDuplicateMessage]: [findOne({ senderId, receiverId, timestamp }) !== null] *)
Definition checkDuplicateMessage (senderId receiverId : Js.str) (timestamp : option Z)
    (c : list MessageDocument) : bool :=
  bool_decide (Collection.findOne (same_key senderId receiverId timestamp) c ≠ None).

End MessageModel.

(** ** backend/src/models/Group.ts *)

Module GroupModel.

Record Group := {
  id : string;
  name : string;
  avatar : Js.str;
  adminId : string;
  memberIds : list string;
  createdAt : Z
}.

Module Doc.
Record GroupDocument := {
  _id : ObjectId.t;
  name : string;
  avatar : Js.str;
  adminId : string;
  memberIds : list string;
  createdAt : Z
}.
End Doc.
Abbreviation GroupDocument := Doc.GroupDocument.

#[global] Instance Group_eq_dec : EqDecision Group.
Proof. solve_decision. Defined.

#[global] Instance GroupDocument_eq_dec : EqDecision GroupDocument.
Proof. solve_decision. Defined.

Definition transformDocument (doc : GroupDocument) : Group :=
  {| id := ObjectId.toString (Doc._id doc);
     name := Doc.name doc;
     avatar := Doc.avatar doc;
     adminId := Doc.adminId doc;
     memberIds := Doc.memberIds doc;
     createdAt := Doc.createdAt doc |}.

(** [createGroup]; the [id] of [groupData] is not read and [oid] is the
    [insertedId]. *)
Definition createGroup (oid : ObjectId.t) (groupData : Group)
    (c : list GroupDocument) : list GroupDocument * Group :=
  let groupDoc :=
    {| Doc._id := oid;
       Doc.name := name groupData;
       Doc.avatar := avatar groupData;
       Doc.adminId := adminId groupData;
       Doc.memberIds := memberIds groupData;
       Doc.createdAt := createdAt groupData |} in
  (Collection.insertOne groupDoc c,
   {| id := ObjectId.toString oid;
      name := name groupData;
      avatar := avatar groupData;
      adminId := adminId groupData;
      memberIds := memberIds groupData;
      createdAt := createdAt groupData |}).

Definition by_id (o : ObjectId.t) (doc : GroupDocument) : bool :=
  bool_decide (Doc._id doc = o).

(** The query [{ memberIds: userId }]: the array holds [userId]. *)
Definition has_member (userId : string) (doc : GroupDocument) : bool :=
  bool_decide (userId ∈ Doc.memberIds doc).

Definition with_memberIds (f : list string → list string) (doc : GroupDocument)
    : GroupDocument :=
  {| Doc._id := Doc._id doc; Doc.name := Doc.name doc; Doc.avatar := Doc.avatar doc;
     Doc.adminId := Doc.adminId doc; Doc.memberIds := f (Doc.memberIds doc);
     Doc.createdAt := Doc.createdAt doc |}.

(** [$pull: { memberIds: userId }] removes every occurrence. *)
Definition pull (userId : string) (l : list string) : list string :=
  List.filter (λ m, negb (bool_decide (m = userId))) l.

(** [$addToSet: { memberIds: userId }] *)
Definition addToSet (userId : string) (l : list string) : list string :=
  if bool_decide (userId ∈ l) then l else l ++ [userId].

Definition getGroupsForUser (userId : string) (c : list GroupDocument) : list Group :=
  transformDocument <$> Collection.find (has_member userId) c.

(** [getGroup]: the [catch] turns a malformed id into [null]. *)
Definition getGroup (groupId : string) (c : list GroupDocument) : option Group :=
  match ObjectId.new groupId with
  | Js.Return o => transformDocument <$> Collection.findOne (by_id o) c
  | Js.Throw _ => None
  end.

Definition deleteGroup (groupId : string) (c : list GroupDocument)
    : Js.Completion (list GroupDocument * bool) :=
  objectId ←! ObjectId.new groupId;
  let '(c', deletedCount) := Collection.deleteOne (by_id objectId) c in
  Js.Return (c', bool_decide (deletedCount = 1)).

Definition removeUserFromAllGroups (userId : string) (c : list GroupDocument)
    : list GroupDocument * Z :=
  Collection.updateMany (has_member userId) (with_memberIds (pull userId)) c.

Definition getAllGroups (c : list GroupDocument) : list Group :=
  transformDocument <$> c.

Definition deleteAllGroups (c : list GroupDocument) : list GroupDocument * Z :=
  Collection.deleteMany (λ _, true) c.

Definition addMemberToGroup (groupId userId : string) (c : list GroupDocument)
    : Js.Completion (list GroupDocument * bool) :=
  objectId ←! ObjectId.new groupId;
  let '(c', modifiedCount) :=
    Collection.updateOne (by_id objectId) (with_memberIds (addToSet userId)) c in
  Js.Return (c', bool_decide (modifiedCount = 1)).

Definition removeMemberFromGroup (groupId userId : string) (c : list GroupDocument)
    : Js.Completion (list GroupDocument * bool) :=
  objectId ←! ObjectId.new groupId;
  let '(c', modifiedCount) :=
    Collection.updateOne (by_id objectId) (with_memberIds (pull userId)) c in
  Js.Return (c', bool_decide (modifiedCount = 1)).

End GroupModel.

(** ** The document store and the API's responses *)

Record Db := {
  users : list UserModel.UserDocument;
  messages : list MessageModel.MessageDocument;
  groups : list GroupModel.GroupDocument
}.

Definition with_users (c : list UserModel.UserDocument) (db : Db) : Db :=
  {| users := c; messages := messages db; groups := groups db |}.

Definition with_messages (c : list MessageModel.MessageDocument) (db : Db) : Db :=
  {| users := users db; messages := c; groups := groups db |}.

Definition with_groups (c : list GroupModel.GroupDocument) (db : Db) : Db :=
  {| users := users db; messages := messages db; groups := c |}.

(** The JSON bodies the API answers with ([details] of an error is left
    out), and the values other than [null] that JavaScript takes for false:
    no handler answers with one of these, a client may still be sent one. *)
Inductive Json : Type :=
| JFalse
| JZero
| JEmptyString
| JUser (user : UserModel.User)
| JUsers (users : list UserModel.User)
| JMessage (message : MessageModel.Message)
| JMessages (messages : list MessageModel.Message)
| JGroup (group : GroupModel.Group)
| JGroups (groups : list GroupModel.Group)
| JError (error : string)
| JInfo (message : string)
| JCleanup (usersDeleted messagesDeleted groupsDeleted : Z).

Record Response := { status : Z; json : Json }.

(** [res.status(code).json(body)] *)
Definition respond (code : Z) (body : Json) : Response :=
  {| status := code; json := body |}.

(** What a handler needs from its environment: the clock and the id the
    driver would give the next inserted document. *)
Record Env := { now : Z; insertedId : ObjectId.t }.

(** [if (!v) ...]: the string when [v] is truthy. *)
Definition nonempty (v : Js.str) : option string :=
  match v with
  | Some s => if Js.truthy v then Some s else None
  | None => None
  end.

(** ** backend/src/controllers/userController.ts *)

Module UserController.
Import UserModel.

Record RegisterBody := {
  rb_username : Js.str;
  rb_email : Js.str;
  rb_avatar : Js.str;
  rb_status : Js.str
}.

(** What [registerUser] calls [createUser] with. *)
Definition new_user (env : Env) (username email : string) (body : RegisterBody)
    : UserData :=
  {| ud_username := Some username;
     ud_email := Some email;
     ud_avatar := Js.or (rb_avatar body)
       (Some ("https://api.dicebear.com/7.x/avataaars/svg?seed=" +:+ email));
     ud_status := Js.or (rb_status body) (Some "Hey there! I am using Connect.");
     ud_lastSeen := Some (now env) |}.

(** POST /users *)
Definition registerUser (env : Env) (body : RegisterBody) (db : Db) : Db * Response :=
  match nonempty (rb_username body), nonempty (rb_email body) with
  | Some username, Some email =>
      match findUserByEmail (Some email) (users db) with
      | Some existingUser =>
          match updateLastSeen (now env) (id existingUser) (users db) with
          | Js.Return c => (with_users c db, respond 200 (JUser existingUser))
          | Js.Throw code =>
              if bool_decide (code = Some 121) then (db, respond 400 (JError "Validation error"))
              else (db, respond 500 (JError "Internal server error"))
          end
      | None =>
          match createUser (insertedId env) (new_user env username email body)
                  (users db) with
          | Js.Return (c, newUser) => (with_users c db, respond 201 (JUser newUser))
          | Js.Throw code =>
              if bool_decide (code = Some 121) then (db, respond 400 (JError "Validation error"))
              else (db, respond 500 (JError "Internal server error"))
          end
      end
  | _, _ => (db, respond 400 (JError "Missing required fields"))
  end.

(** GET /users *)
Definition getUsers (adminId : Js.str) (db : Db) : Db * Response :=
  let regular :=
    respond 200 (JUsers (List.filter (λ u, negb (Js.truthy_bool (isAdmin u)))
                                     (getAllUsers (users db)))) in
  if Js.truthy adminId then
    match findUserById adminId (users db) with
    | Some admin =>
        if Js.truthy_bool (isAdmin admin)
        then (db, respond 200 (JUsers (getAllUsersForAdmin (users db))))
        else (db, regular)
    | None => (db, regular)
    end
  else (db, regular).

Record UpdateBody := {
  ub_username : Js.str;
  ub_avatar : Js.str;
  ub_status : Js.str
}.

(** [if (v) updates.field = v] *)
Definition if_truthy (v : Js.str) : Js.str := if Js.truthy v then v else None.

(** PUT /users/:id *)
Definition updateUser (env : Env) (id : string) (body : UpdateBody) (db : Db) : Db * Response :=
  if negb (Js.truthy (ub_username body)) && negb (Js.truthy (ub_avatar body))
     && negb (Js.truthy (ub_status body))
  then (db, respond 400 (JError "Missing update fields"))
  else
    let updates :=
      {| up_username := if_truthy (ub_username body);
         up_avatar := if_truthy (ub_avatar body);
         up_status := if_truthy (ub_status body);
         up_lastSeen := Some (now env) |} in
    match UserModel.updateUser id updates (users db) with
    | Js.Return (c, Some updatedUser) => (with_users c db, respond 200 (JUser updatedUser))
    | Js.Return (c, None) => (with_users c db, respond 404 (JError "User not found"))
    | Js.Throw code =>
        if bool_decide (code = Some 121) then (db, respond 400 (JError "Validation error"))
        else (db, respond 500 (JError "Internal server error"))
    end.

(** DELETE /users/:id *)
Definition deleteUser (id : string) (db : Db) : Db * Response :=
  match UserModel.deleteUser id (users db) with
  | Js.Return (c, success) =>
      if negb success then (with_users c db, respond 404 (JError "User not found"))
      else (with_users c db, respond 200 (JInfo "User deleted successfully"))
  | Js.Throw _ => (db, respond 500 (JError "Internal server error"))
  end.

(** POST /users/:id/ban *)
Definition banUser (id : string) (adminId : Js.str) (db : Db) : Db * Response :=
  let unauthorized := (db, respond 403 (JError "Unauthorized")) in
  match findUserById adminId (users db) with
  | None => unauthorized
  | Some admin =>
      if negb (Js.truthy_bool (isAdmin admin)) then unauthorized
      else
        match UserModel.banUser id (users db) with
        | Js.Throw _ => (db, respond 500 (JError "Internal server error"))
        | Js.Return (c, success) =>
            let db1 := with_users c db in
            if negb success then (db1, respond 404 (JError "User not found"))
            else
              let db2 :=
                with_messages (MessageModel.deleteAllMessagesFromUser id (messages db1)).1 db1 in
              let db3 :=
                with_groups (GroupModel.removeUserFromAllGroups id (groups db2)).1 db2 in
              (db3, respond 200 (JInfo "User banned and all data removed successfully"))
        end
  end.

(** DELETE /users/:id/permanent *)
Definition permanentlyDeleteUser (id : string) (adminId : Js.str) (db : Db) : Db * Response :=
  let unauthorized := (db, respond 403 (JError "Unauthorized")) in
  match findUserById adminId (users db) with
  | None => unauthorized
  | Some admin =>
      if negb (Js.truthy_bool (isAdmin admin)) then unauthorized
      else
        match UserModel.permanentlyDeleteUser id (users db) with
        | Js.Throw _ => (db, respond 500 (JError "Internal server error"))
        | Js.Return (c, success) =>
            if negb success then (with_users c db, respond 404 (JError "User not found"))
            else (with_users c db, respond 200 (JInfo "User permanently deleted"))
        end
  end.

(** POST /users/cleanup *)
Definition cleanupTestData (adminId : Js.str) (db : Db) : Db * Response :=
  let unauthorized := (db, respond 403 (JError "Unauthorized")) in
  match findUserById adminId (users db) with
  | None => unauthorized
  | Some admin =>
      if negb (Js.truthy_bool (isAdmin admin)) then unauthorized
      else
        let '(us, usersDeleted) := deleteAllUsersExceptAdmin (users db) in
        let '(ms, messagesDeleted) := MessageModel.deleteAllMessages (messages db) in
        let '(gs, groupsDeleted) := GroupModel.deleteAllGroups (groups db) in
        ({| users := us; messages := ms; groups := gs |},
         respond 200 (JCleanup usersDeleted messagesDeleted groupsDeleted))
  end.

End UserController.

(** ** backend/src/controllers/messageController.ts *)

Module MessageController.
Import MessageModel.

Definition is_type (v : Js.str) (name : string) : bool := Js.seq v (Some name).

(** The checks [sendMessage] runs before it touches the store, in order:
    the [error] of the first 400 it would answer with. *)
Definition validation_error (body : Message) : option string :=
  if negb (Js.truthy (senderId body))
     || (negb (Js.truthy (receiverId body)) && negb (Js.truthy (groupId body)))
     || negb (Js.truthy (type body))
     || negb (Js.truthy_num (timestamp body))
  then Some "Missing required fields"
  else if negb (is_type (type body) "text") && negb (is_type (type body) "image")
          && negb (is_type (type body) "audio") && negb (is_type (type body) "file")
  then Some "Invalid type"
  else if is_type (type body) "text" && negb (Js.truthy (text body))
  then Some "Missing text content"
  else if is_type (type body) "image" && negb (Js.truthy (imageUrl body))
  then Some "Missing image URL"
  else if is_type (type body) "audio" && negb (Js.truthy (audioUrl body))
  then Some "Missing audio URL"
  else if is_type (type body) "file" && negb (Js.truthy (fileUrl body))
  then Some "Missing file URL"
  else None.

(** The record [sendMessage] hands to [createMessage]: for a group message
    the receiver is the group. *)
Definition message_data (body : Message) : Message :=
  {| id := "";
     senderId := senderId body;
     receiverId := Js.or (groupId body) (receiverId body);
     text := text body;
     imageUrl := imageUrl body;
     audioUrl := audioUrl body;
     fileUrl := fileUrl body;
     fileName := fileName body;
     fileType := fileType body;
     type := type body;
     timestamp := timestamp body;
     status := Js.or (status body) (Some "sent");
     groupId := groupId body |}.

(** POST /messages; [body] is the JSON the client sent (a [Message], whose
    [id] the handler does not read). *)
Definition sendMessage (env : Env) (body : Message) (db : Db) : Db * Response :=
  match validation_error body with
  | Some error => (db, respond 400 (JError error))
  | None =>
      if checkDuplicateMessage (senderId body) (receiverId body) (timestamp body)
           (messages db)
      then (db, respond 200 (JInfo "Duplicate message detected, skipping creation"))
      else if UserModel.isUserBanned (senderId body) (users db)
      then (db, respond 403 (JError "You are banned and cannot send messages"))
      else
        let '(c, newMessage) :=
          createMessage (insertedId env) (message_data body) (messages db) in
        (with_messages c db, respond 201 (JMessage newMessage))
  end.

(** GET /messages *)
Definition getMessages (u1 u2 groupId : Js.str) (db : Db) : Db * Response :=
  match nonempty groupId with
  | Some groupId => (db, respond 200 (JMessages (getGroupMessages groupId (messages db))))
  | None =>
      match nonempty u1, nonempty u2 with
      | Some u1, Some u2 =>
          (db, respond 200 (JMessages (getMessagesBetweenUsers u1 u2 (messages db))))
      | _, _ => (db, respond 400 (JError "Missing query parameters"))
      end
  end.

(** PUT /messages/:id *)
Definition updateMessageStatus (id : string) (status : Js.str) (db : Db) : Db * Response :=
  if negb (Js.truthy status)
  then (db, respond 400 (JError "Missing status field"))
  else if negb (Js.seq status (Some "sent")) && negb (Js.seq status (Some "delivered"))
          && negb (Js.seq status (Some "read"))
  then (db, respond 400 (JError "Invalid status"))
  else
    match MessageModel.updateMessageStatus id status (messages db) with
    | Js.Return (c, Some updatedMessage) =>
        (with_messages c db, respond 200 (JMessage updatedMessage))
    | Js.Return (c, None) => (with_messages c db, respond 404 (JError "Message not found"))
    | Js.Throw _ => (db, respond 500 (JError "Internal server error"))
    end.

(** PATCH /messages/:id: the text is written first, the sender is compared
    afterwards, and nothing is written back on the 403 branch. *)
Definition editMessage (id : string) (text userId : Js.str) (db : Db) : Db * Response :=
  if negb (Js.truthy text) || negb (Js.truthy userId)
  then (db, respond 400 (JError "Missing required fields"))
  else
    match updateMessageText id text (messages db) with
    | Js.Return (c, Some updatedMessage) =>
        if negb (Js.seq (senderId updatedMessage) userId)
        then (with_messages c db, respond 403 (JError "Unauthorized"))
        else (with_messages c db, respond 200 (JMessage updatedMessage))
    | Js.Return (c, None) => (with_messages c db, respond 404 (JError "Message not found"))
    | Js.Throw _ => (db, respond 500 (JError "Internal server error"))
    end.

(** DELETE /messages/:id *)
Definition deleteMessage (id : string) (userId : Js.str) (db : Db) : Db * Response :=
  if negb (Js.truthy userId)
  then (db, respond 400 (JError "Missing userId"))
  else
    match MessageModel.deleteMessage id (messages db) with
    | Js.Return (c, success) =>
        if negb success then (with_messages c db, respond 404 (JError "Message not found"))
        else (with_messages c db, respond 200 (JInfo "Message deleted successfully"))
    | Js.Throw _ => (db, respond 500 (JError "Internal server error"))
    end.

End MessageController.

(** ** backend/src/controllers/groupController.ts *)

Module GroupController.
Import GroupModel.

Record CreateBody := {
  cb_name : Js.str;
  cb_avatar : Js.str;
  cb_adminId : Js.str;
  (** [None]: absent, or not an array *)
  cb_memberIds : option (list string)
}.

(** POST /groups *)
Definition createGroup (env : Env) (body : CreateBody) (db : Db) : Db * Response :=
  match nonempty (cb_name body), nonempty (cb_adminId body), cb_memberIds body with
  | Some name, Some adminId, Some memberIds =>
      if bool_decide (length memberIds < 2)%nat
      then (db, respond 400 (JError "Group must have at least 2 members"))
      else
        let '(c, newGroup) :=
          GroupModel.createGroup (insertedId env)
            {| id := "";
               name := name;
               avatar := Js.or (cb_avatar body)
                 (Some ("https://api.dicebear.com/7.x/initials/svg?seed=" +:+ name));
               adminId := adminId;
               memberIds := memberIds;
               createdAt := now env |} (groups db) in
        (with_groups c db, respond 201 (JGroup newGroup))
  | _, _, _ => (db, respond 400 (JError "Missing required fields"))
  end.

(** GET /groups *)
Definition getUserGroups (userId : Js.str) (db : Db) : Db * Response :=
  match nonempty userId with
  | Some userId => (db, respond 200 (JGroups (getGroupsForUser userId (groups db))))
  | None => (db, respond 400 (JError "Invalid userId"))
  end.

(** DELETE /groups/:id *)
Definition deleteGroup (id : string) (userId : Js.str) (db : Db) : Db * Response :=
  match nonempty userId with
  | None => (db, respond 400 (JError "UserId required for verification"))
  | Some userId =>
      match getGroup id (groups db) with
      | None => (db, respond 404 (JError "Group not found"))
      | Some group =>
          let isGroupAdmin := bool_decide (adminId group = userId) in
          let isSuperAdmin :=
            match UserModel.findUserById (Some userId) (users db) with
            | Some requestingUser =>
                Js.truthy_bool (UserModel.isAdmin requestingUser)
                || Js.seq (UserModel.email requestingUser) (Some UserModel.ADMIN_EMAIL)
            | None => false
            end in
          if negb isGroupAdmin && negb isSuperAdmin
          then (db, respond 403 (JError "Not authorized to delete this group"))
          else
            match GroupModel.deleteGroup id (groups db) with
            | Js.Throw _ => (db, respond 500 (JError "Internal server error"))
            | Js.Return (c, _) =>
                let db1 := with_groups c db in
                let db2 :=
                  with_messages (MessageModel.deleteAllMessagesInGroup id (messages db1)).1 db1 in
                (db2, respond 200 (JInfo "Group and all messages deleted"))
            end
      end
  end.

(** GET /groups/all *)
Definition getAllGroups (adminId : Js.str) (db : Db) : Db * Response :=
  match UserModel.findUserById adminId (users db) with
  | Some admin =>
      if Js.truthy_bool (UserModel.isAdmin admin)
      then (db, respond 200 (JGroups (GroupModel.getAllGroups (groups db))))
      else (db, respond 403 (JError "Unauthorized"))
  | None => (db, respond 403 (JError "Unauthorized"))
  end.

(** POST /groups/:groupId/members *)
Definition addMember (groupId : string) (userId adminId : Js.str) (db : Db) : Db * Response :=
  match nonempty userId, nonempty adminId with
  | Some userId, Some adminId =>
      match getGroup groupId (groups db) with
      | None => (db, respond 404 (JError "Group not found"))
      | Some group =>
          if negb (bool_decide (GroupModel.adminId group = adminId))
          then (db, respond 403 (JError "Only group admin can add members"))
          else
            match addMemberToGroup groupId userId (groups db) with
            | Js.Throw _ => (db, respond 500 (JError "Internal server error"))
            | Js.Return (c, success) =>
                if negb success
                then (with_groups c db,
                      respond 400 (JError "User already in group or failed to add"))
                else (with_groups c db, respond 200 (JInfo "Member added successfully"))
            end
      end
  | _, _ => (db, respond 400 (JError "userId and adminId required"))
  end.

(** DELETE /groups/:groupId/members *)
Definition removeMember (groupId : string) (userId adminId : Js.str) (db : Db) : Db * Response :=
  match nonempty userId, nonempty adminId with
  | Some userId, Some adminId =>
      match getGroup groupId (groups db) with
      | None => (db, respond 404 (JError "Group not found"))
      | Some group =>
          if negb (bool_decide (GroupModel.adminId group = adminId))
          then (db, respond 403 (JError "Only group admin can remove members"))
          else if bool_decide (userId = GroupModel.adminId group)
          then (db, respond 400 (JError "Cannot remove group admin"))
          else
            match removeMemberFromGroup groupId userId (groups db) with
            | Js.Throw _ => (db, respond 500 (JError "Internal server error"))
            | Js.Return (c, success) =>
                if negb success
                then (with_groups c db, respond 400 (JError "Failed to remove member"))
                else (with_groups c db, respond 200 (JInfo "Member removed successfully"))
            end
      end
  | _, _ => (db, respond 400 (JError "userId and adminId required"))
  end.

End GroupController.

(** ** backend/src/routes: one typed request per route *)

Module Routes.

Inductive Request : Type :=
| POST_users (body : UserController.RegisterBody)
| GET_users (adminId : Js.str)
| PUT_users (id : string) (body : UserController.UpdateBody)
| DELETE_users (id : string)
| POST_users_ban (id : string) (adminId : Js.str)
| DELETE_users_permanent (id : string) (adminId : Js.str)
| POST_users_cleanup (adminId : Js.str)
| POST_messages (body : MessageModel.Message)
| GET_messages (u1 u2 groupId : Js.str)
| PUT_messages (id : string) (status : Js.str)
| PATCH_messages (id : string) (text userId : Js.str)
| DELETE_messages (id : string) (userId : Js.str)
| POST_groups (body : GroupController.CreateBody)
| GET_groups (userId : Js.str)
| GET_groups_all (adminId : Js.str)
| DELETE_groups (id : string) (userId : Js.str)
| POST_groups_members (groupId : string) (userId adminId : Js.str)
| DELETE_groups_members (groupId : string) (userId adminId : Js.str).

Definition handle (env : Env) (req : Request) (db : Db) : Db * Response :=
  match req with
  | POST_users body => UserController.registerUser env body db
  | GET_users adminId => UserController.getUsers adminId db
  | PUT_users id body => UserController.updateUser env id body db
  | DELETE_users id => UserController.deleteUser id db
  | POST_users_ban id adminId => UserController.banUser id adminId db
  | DELETE_users_permanent id adminId => UserController.permanentlyDeleteUser id adminId db
  | POST_users_cleanup adminId => UserController.cleanupTestData adminId db
  | POST_messages body => MessageController.sendMessage env body db
  | GET_messages u1 u2 groupId => MessageController.getMessages u1 u2 groupId db
  | PUT_messages id status => MessageController.updateMessageStatus id status db
  | PATCH_messages id text userId => MessageController.editMessage id text userId db
  | DELETE_messages id userId => MessageController.deleteMessage id userId db
  | POST_groups body => GroupController.createGroup env body db
  | GET_groups userId => GroupController.getUserGroups userId db
  | GET_groups_all adminId => GroupController.getAllGroups adminId db
  | DELETE_groups id userId => GroupController.deleteGroup id userId db
  | POST_groups_members groupId userId adminId =>
      GroupController.addMember groupId userId adminId db
  | DELETE_groups_members groupId userId adminId =>
      GroupController.removeMember groupId userId adminId db
  end.

(** The store after a sequence of requests, each with its environment. *)
Fixpoint run (trace : list (Env * Request)) (db : Db) : Db :=
  match trace with
  | [] => db
  | (env, req) :: trace' => run trace' (handle env req db).1
  end.

(** The responses to a sequence of requests, in their order. *)
Fixpoint responses (trace : list (Env * Request)) (db : Db) : list Response :=
  match trace with
  | [] => []
  | (env, req) :: trace' =>
      (handle env req db).2 :: responses trace' (handle env req db).1
  end.

Definition empty_db : Db := {| users := []; messages := []; groups := [] |}.

End Routes.

(** ** src/services/api.ts *)

Module ApiService.
Import Routes.

(** A JSON value as the client sees it: [None] is [null]. *)
Definition Value := option Json.

(** [!!v]: [null], [false], [0] and the empty string are falsy, objects and
    arrays are truthy. *)
Definition truthy (v : Value) : bool :=
  match v with
  | None | Some JFalse | Some JZero | Some JEmptyString => false
  | Some _ => true
  end.

(** What [fetch] does with a request. *)
Inductive Fetch : Type :=
| Rejected                                  (* network error, or abort by the 3 s timer *)
| Responded (status : Z) (body : option Value).  (* [None]: the body is not JSON *)

Definition Network := Request → Fetch.

Record Client := {
  BASE_URL : string;
  isConnected : bool;
  connectionAttempted : bool;
  connect_mock_users : list UserModel.User;
  connect_temp_msgs : list MessageModel.Message
}.

Definition attempted (connected : bool) (st : Client) : Client :=
  {| BASE_URL := BASE_URL st;
     isConnected := connected;
     connectionAttempted := true;
     connect_mock_users := connect_mock_users st;
     connect_temp_msgs := connect_temp_msgs st |}.

Definition with_mock_users (l : list UserModel.User) (st : Client) : Client :=
  {| BASE_URL := BASE_URL st;
     isConnected := isConnected st;
     connectionAttempted := connectionAttempted st;
     connect_mock_users := l;
     connect_temp_msgs := connect_temp_msgs st |}.

Definition with_temp_msgs (l : list MessageModel.Message) (st : Client) : Client :=
  {| BASE_URL := BASE_URL st;
     isConnected := isConnected st;
     connectionAttempted := connectionAttempted st;
     connect_mock_users := connect_mock_users st;
     connect_temp_msgs := l |}.

(** [request]: every exception raised inside its [try] is caught there, so
    it completes with a value: the parsed body, whatever it is, or [null]. *)
Definition request (net : Network) (req : Request) (st : Client)
    : Client * Js.Completion Value :=
  if bool_decide (BASE_URL st = "LOCAL_MOCK") then (st, Js.Return None)
  else
    match net req with
    | Responded status body =>
        if negb (Http.ok status) then (attempted false st, Js.Return None)
        else
          match body with
          | Some v => (attempted true st, Js.Return v)
          | None => (attempted false st, Js.Return None)
          end
    | Rejected => (attempted false st, Js.Return None)
    end.

(** [try { await this.request(...); return true } catch { return false }] *)
Definition succeeded (r : Client * Js.Completion Value) : Client * bool :=
  match r with
  | (st, Js.Return _) => (st, true)
  | (st, Js.Throw _) => (st, false)
  end.

(** [try { return await this.request(...) } catch { return fallback }] *)
Definition or_on_throw (fallback : Value) (r : Client * Js.Completion Value)
    : Client * Value :=
  match r with
  | (st, Js.Return v) => (st, v)
  | (st, Js.Throw _) => (st, fallback)
  end.

Definition is_space (c : ascii) : bool :=
  let n := nat_of_ascii c in
  bool_decide (n = 32 ∨ n = 9 ∨ n = 10 ∨ n = 11 ∨ n = 12 ∨ n = 13)%nat.

Fixpoint trim_start (s : string) : string :=
  match s with
  | String c s' => if is_space c then trim_start s' else s
  | EmptyString => EmptyString
  end.

Definition lower (c : ascii) : ascii :=
  let n := nat_of_ascii c in
  if ((65 <=? n) && (n <=? 90))%nat then ascii_of_nat (n + 32) else c.

Fixpoint toLowerCase (s : string) : string :=
  match s with
  | String c s' => String (lower c) (toLowerCase s')
  | EmptyString => EmptyString
  end.

(** [email.trim().toLowerCase()], on ASCII. *)
Definition clean (email : string) : string :=
  toLowerCase (String.rev (trim_start (String.rev (trim_start email)))).

Definition getGravatar (email : string) : string :=
  "https://api.dicebear.com/7.x/avataaars/svg?seed=" +:+ clean email.

(** The fields of the [Partial<User>] that survive into the payload. *)
Record PartialUser := {
  pu_username : Js.str;
  pu_email : Js.str;
  pu_avatar : Js.str;
  pu_isAI : option bool;
  pu_isAdmin : option bool
}.

(** [userData.avatar || this.getGravatar(userData.email || '')] *)
Definition avatar_of (userData : PartialUser) : Js.str :=
  Js.or (pu_avatar userData)
        (Some (getGravatar (default "" (Js.or (pu_email userData) (Some ""))))).

Definition initial_status : Js.str := Some "Hey there! I am using Connect.".

(** The fields of the payload of [registerUser] the backend reads. *)
Definition register_body (userData : PartialUser) : UserController.RegisterBody :=
  {| UserController.rb_username := pu_username userData;
     UserController.rb_email := pu_email userData;
     UserController.rb_avatar := avatar_of userData;
     UserController.rb_status := initial_status |}.

(** [registerUser]; [rnd] is [Math.random().toString(36).substr(2, 9)]. *)
Definition registerUser (net : Network) (time : Z) (rnd : string)
    (userData : PartialUser) (st : Client) : Client * Js.Completion Value :=
  let avatar := avatar_of userData in
  let status := initial_status in
  let '(st1, r) := request net (POST_users (register_body userData)) st in
  match r with
  | Js.Throw c => (st1, Js.Throw c)
  | Js.Return response =>
      if negb (truthy response) then
        let localUser :=
          {| UserModel.id := "u-" +:+ rnd;
             UserModel.username := pu_username userData;
             UserModel.email := pu_email userData;
             UserModel.avatar := avatar;
             UserModel.status := status;
             UserModel.lastSeen := Some time;
             UserModel.isAI := pu_isAI userData;
             UserModel.isAdmin := pu_isAdmin userData;
             UserModel.isBanned := None |} in
        let localUsers := connect_mock_users st1 in
        match List.find (λ u, Js.seq (UserModel.email u) (UserModel.email localUser))
                        localUsers with
        | None =>
            (with_mock_users (localUsers ++ [localUser]) st1,
             Js.Return (Some (JUser localUser)))
        | Some existing => (st1, Js.Return (Some (JUser existing)))
        end
      else (st1, Js.Return response)
  end.

Definition getUniverse (net : Network) (st : Client) : Client * Js.Completion Value :=
  let '(st1, r) := request net (GET_users None) st in
  match r with
  | Js.Throw c => (st1, Js.Throw c)
  | Js.Return users =>
      if negb (truthy users)
      then (st1, Js.Return (Some (JUsers (connect_mock_users st1))))
      else (st1, Js.Return users)
  end.

Definition getUniverseForAdmin (net : Network) (adminId : string) (st : Client)
    : Client * Js.Completion Value :=
  let '(st1, r) := request net (GET_users (Some adminId)) st in
  match r with
  | Js.Throw c => (st1, Js.Throw c)
  | Js.Return users =>
      if negb (truthy users)
      then (st1, Js.Return (Some (JUsers (connect_mock_users st1))))
      else (st1, Js.Return users)
  end.

Definition banUser (net : Network) (userId adminId : string) (st : Client) : Client * bool :=
  succeeded (request net (POST_users_ban userId (Some adminId)) st).

(** [return groups || []] inside the [try]. *)
Definition getAllGroupsForAdmin (net : Network) (adminId : string) (st : Client)
    : Client * Value :=
  match request net (GET_groups_all (Some adminId)) st with
  | (st1, Js.Return groups) => (st1, if truthy groups then groups else Some (JGroups []))
  | (st1, Js.Throw _) => (st1, Some (JGroups []))
  end.

Definition cleanupTestData (net : Network) (adminId : string) (st : Client) : Client * Value :=
  or_on_throw None (request net (POST_users_cleanup (Some adminId)) st).

Definition addMemberToGroup (net : Network) (groupId userId adminId : string) (st : Client)
    : Client * bool :=
  succeeded (request net (POST_groups_members groupId (Some userId) (Some adminId)) st).

Definition removeMemberFromGroup (net : Network) (groupId userId adminId : string)
    (st : Client) : Client * bool :=
  succeeded (request net (DELETE_groups_members groupId (Some userId) (Some adminId)) st).

(** [sendMessage]: without a response the message is appended to the local
    list; either way the result is [true]. *)
Definition sendMessage (net : Network) (message : MessageModel.Message) (st : Client)
    : Client * Js.Completion bool :=
  let '(st1, r) := request net (POST_messages message) st in
  match r with
  | Js.Throw c => (st1, Js.Throw c)
  | Js.Return response =>
      if negb (truthy response)
      then (with_temp_msgs (connect_temp_msgs st1 ++ [message]) st1, Js.Return true)
      else (st1, Js.Return (truthy response))
  end.

Definition local_between (user1Id user2Id : string) (m : MessageModel.Message) : bool :=
  (Js.seq (MessageModel.senderId m) (Some user1Id)
   && Js.seq (MessageModel.receiverId m) (Some user2Id))
  || (Js.seq (MessageModel.senderId m) (Some user2Id)
      && Js.seq (MessageModel.receiverId m) (Some user1Id)).

(** [getMessages]: the local branch filters the stored list and returns it in
    the order it is stored in. *)
Definition getMessages (net : Network) (user1Id user2Id : string) (st : Client)
    : Client * Js.Completion Value :=
  let '(st1, r) := request net (GET_messages (Some user1Id) (Some user2Id) None) st in
  match r with
  | Js.Throw c => (st1, Js.Throw c)
  | Js.Return all =>
      if negb (truthy all)
      then (st1, Js.Return (Some (JMessages
              (List.filter (local_between user1Id user2Id) (connect_temp_msgs st1)))))
      else (st1, Js.Return all)
  end.

Definition deleteUser (net : Network) (userId : string) (st : Client) : Client * bool :=
  succeeded (request net (DELETE_users userId) st).

Definition createGroup (net : Network) (data : GroupController.CreateBody) (st : Client)
    : Client * Value :=
  or_on_throw None (request net (POST_groups data) st).

Definition getUserGroups (net : Network) (userId : string) (st : Client) : Client * Value :=
  or_on_throw (Some (JGroups [])) (request net (GET_groups (Some userId)) st).

Definition deleteGroup (net : Network) (groupId userId : string) (st : Client) : Client * bool :=
  succeeded (request net (DELETE_groups groupId (Some userId)) st).

Definition getGroupMessages (net : Network) (groupId : string) (st : Client) : Client * Value :=
  or_on_throw (Some (JMessages [])) (request net (GET_messages None None (Some groupId)) st).

Definition editMessage (net : Network) (messageId newText userId : string) (st : Client)
    : Client * bool :=
  succeeded (request net (PATCH_messages messageId (Some newText) (Some userId)) st).

Definition deleteMessage (net : Network) (messageId userId : string) (st : Client)
    : Client * bool :=
  succeeded (request net (DELETE_messages messageId (Some userId)) st).

Definition getBaseUrl (st : Client) : string := BASE_URL st.

Definition checkConnection (st : Client) : bool := isConnected st.

(** The network in front of a running backend: the request is handled and the
    response comes back whole. *)
Definition live (env : Env) (db : Db) : Network :=
  λ req, let r := (handle env req db).2 in Responded (status r) (Some (Some (json r))).

(** A remote call fails: the fetch is rejected (network error, timeout), the
    status is not 2xx, or the body does not parse. *)
Definition fails (f : Fetch) : Prop :=
  match f with
  | Rejected => True
  | Responded status body => Http.ok status = false ∨ body = None
  end.

End ApiService.

(** ** src/App.tsx: what the handlers hand to the gateway

    The React view state ([setMessages], [setGroups], the alerts) is not part
    of the model; a handler is the request it makes. *)

Module App.

(** The part of the view state [handleSendMessage] reads. *)
Record Session := {
  currentUser : option UserModel.User;
  selectedUser : option UserModel.User;
  selectedGroup : option GroupModel.Group
}.

(** [fileUrl ? 'file' : audioUrl ? 'audio' : imageUrl ? 'image' : 'text'] *)
Definition type_of (imageUrl audioUrl fileUrl : Js.str) : string :=
  if Js.truthy fileUrl then "file"
  else if Js.truthy audioUrl then "audio"
  else if Js.truthy imageUrl then "image"
  else "text".

(** The message [handleSendMessage] builds, [None] when it returns before
    building one; [t_id] and [t_stamp] are its two readings of [Date.now()]. *)
Definition newMessage (s : Session)
    (text imageUrl audioUrl fileUrl fileName fileType : Js.str) (t_id t_stamp : Z)
    : option MessageModel.Message :=
  match currentUser s with
  | None => None
  | Some currentUser =>
      let build (receiverId : string) :=
        Some {| MessageModel.id := pretty t_id;
                MessageModel.senderId := Some (UserModel.id currentUser);
                MessageModel.receiverId := Some receiverId;
                MessageModel.text := text;
                MessageModel.imageUrl := imageUrl;
                MessageModel.audioUrl := audioUrl;
                MessageModel.fileUrl := fileUrl;
                MessageModel.fileName := fileName;
                MessageModel.fileType := fileType;
                MessageModel.type := Some (type_of imageUrl audioUrl fileUrl);
                MessageModel.timestamp := Some t_stamp;
                MessageModel.status := Some "sent";
                MessageModel.groupId := GroupModel.id <$> selectedGroup s |} in
      match selectedUser s, selectedGroup s with
      | None, None => None
      | _, Some group => build (GroupModel.id group)
      | Some user, None => build (UserModel.id user)
      end
  end.

(** [handleSendMessage]: the message built, if any, goes to the gateway. *)
Definition handleSendMessage (net : ApiService.Network) (s : Session)
    (text imageUrl audioUrl fileUrl fileName fileType : Js.str) (t_id t_stamp : Z)
    (st : ApiService.Client) : ApiService.Client * option MessageModel.Message :=
  match newMessage s text imageUrl audioUrl fileUrl fileName fileType t_id t_stamp with
  | None => (st, None)
  | Some message => ((ApiService.sendMessage net message st).1, Some message)
  end.

(** [handleCreateGroup]: the body handed to [ApiService.createGroup], [None]
    when nobody is signed in. *)
Definition handleCreateGroup (s : Session) (name : string) (avatar : Js.str)
    (adminId : string) (memberIds : list string) : option GroupController.CreateBody :=
  match currentUser s with
  | None => None
  | Some _ =>
      Some {| GroupController.cb_name := Some name;
              GroupController.cb_avatar := avatar;
              GroupController.cb_adminId := Some adminId;
              GroupController.cb_memberIds := Some memberIds |}
  end.

End App.

(** ** src/components/GroupCreationModal.tsx *)

Module GroupCreationModal.

Record State := {
  name : string;
  avatar : string;
  selectedMemberIds : list string;
  groupAdminId : string
}.

(** The state the modal opens in: the current user selected, and admin. *)
Definition initial (currentUser : UserModel.User) : State :=
  {| name := ""; avatar := "";
     selectedMemberIds := [UserModel.id currentUser];
     groupAdminId := UserModel.id currentUser |}.

Definition handleMemberToggle (currentUser : UserModel.User) (userId : string)
    (s : State) : State :=
  if bool_decide (userId = UserModel.id currentUser) then s
  else
    {| name := name s; avatar := avatar s;
       selectedMemberIds :=
         (if bool_decide (userId ∈ selectedMemberIds s)
          then List.filter (λ id, negb (bool_decide (id = userId))) (selectedMemberIds s)
          else selectedMemberIds s ++ [userId]);
       groupAdminId := groupAdminId s |}.

(** [handleCreate]: the arguments of [onCreate], or [None] when an alert is
    shown instead; [trim] is [String.prototype.trim]. *)
Definition handleCreate (trim : string → string) (s : State)
    : option (string * Js.str * string * list string) :=
  if bool_decide (length (selectedMemberIds s) < 3)%nat then None
  else if bool_decide (trim (name s) = "") then None
  else Some (name s, Js.or (Some (avatar s)) None, groupAdminId s, selectedMemberIds s).

End GroupCreationModal.

(** ** Vocabulary of the properties *)

(** The place of a status in sent → delivered → read. *)
Definition rank (s : Js.str) : nat :=
  if Js.seq s (Some "read") then 2
  else if Js.seq s (Some "delivered") then 1
  else 0.

(** The values PUT /messages/:id accepts. *)
Definition valid_status (s : Js.str) : Prop :=
  s = Some "sent" ∨ s = Some "delivered" ∨ s = Some "read".

(** A sequence of PUT /messages/:id requests for one message. *)
Definition status_updates (env : Env) (id : string) (ss : list Js.str)
    : list (Env * Routes.Request) :=
  (λ s, (env, Routes.PUT_messages id s)) <$> ss.

(** The payload field that the type tag names is present and non-empty. *)
Definition payload_present (m : MessageModel.Message) : Prop :=
  (MessageModel.type m = Some "text" ∧ Js.truthy (MessageModel.text m) = true)
  ∨ (MessageModel.type m = Some "image" ∧ Js.truthy (MessageModel.imageUrl m) = true)
  ∨ (MessageModel.type m = Some "audio" ∧ Js.truthy (MessageModel.audioUrl m) = true)
  ∨ (MessageModel.type m = Some "file" ∧ Js.truthy (MessageModel.fileUrl m) = true).

(** The payload field that the type tag names is the only one present. *)
Definition payload_exact (m : MessageModel.Message) : Prop :=
  (MessageModel.type m = Some "text" ∧ Js.truthy (MessageModel.text m) = true
   ∧ MessageModel.imageUrl m = None ∧ MessageModel.audioUrl m = None
   ∧ MessageModel.fileUrl m = None)
  ∨ (MessageModel.type m = Some "image" ∧ Js.truthy (MessageModel.imageUrl m) = true
     ∧ MessageModel.text m = None ∧ MessageModel.audioUrl m = None
     ∧ MessageModel.fileUrl m = None)
  ∨ (MessageModel.type m = Some "audio" ∧ Js.truthy (MessageModel.audioUrl m) = true
     ∧ MessageModel.text m = None ∧ MessageModel.imageUrl m = None
     ∧ MessageModel.fileUrl m = None)
  ∨ (MessageModel.type m = Some "file" ∧ Js.truthy (MessageModel.fileUrl m) = true
     ∧ MessageModel.text m = None ∧ MessageModel.imageUrl m = None
     ∧ MessageModel.audioUrl m = None).

(** The records that can be retrieved from a store. *)
Definition retrievable (db : Db) : list MessageModel.Message :=
  MessageModel.transformDocument <$> messages db.

(** Requests that write message documents (the others can only delete them). *)
Definition writes_messages (req : Routes.Request) : bool :=
  match req with
  | Routes.POST_messages _ | Routes.PUT_messages _ _ | Routes.PATCH_messages _ _ _ => true
  | _ => false
  end.

(** The stored form of [payload_present]. *)
Definition doc_ok (d : MessageModel.MessageDocument) : Prop :=
  payload_present (MessageModel.transformDocument d).

(** The group invariant: the admin is one of the members. *)
Definition admin_is_member (g : GroupModel.GroupDocument) : Prop :=
  GroupModel.Doc.adminId g ∈ GroupModel.Doc.memberIds g.

(** From one version of a group to the next: the admin is the same and, if
    they were a member, they still are. *)
Definition admin_kept (g g' : GroupModel.GroupDocument) : Prop :=
  GroupModel.Doc.adminId g' = GroupModel.Doc.adminId g
  ∧ (admin_is_member g → admin_is_member g').

(** Requests that can put a group's admin outside its members: a creation
    (the handler stores what it is sent) and a ban (the cascade pulls the
    banned user out of every group). *)
Definition creates_or_bans (req : Routes.Request) : bool :=
  match req with
  | Routes.POST_groups _ | Routes.POST_users_ban _ _ => true
  | _ => false
  end.

(** How many stored messages carry a natural key. *)
Definition count_key (senderId receiverId : Js.str) (timestamp : option Z)
    (c : list MessageModel.MessageDocument) : nat :=
  length (List.filter (MessageModel.same_key senderId receiverId timestamp) c).

(** Ascending by timestamp, on retrieved messages. *)
Definition msg_le (a b : MessageModel.Message) : Prop :=
  MessageModel.ts_le (MessageModel.timestamp a) (MessageModel.timestamp b).

(** What the gateway returned, when it is a list of messages. *)
Definition returned_messages (r : ApiService.Client * Js.Completion ApiService.Value)
    : option (list MessageModel.Message) :=
  match r.2 with
  | Js.Return (Some (JMessages l)) => Some l
  | _ => None
  end.

(** The remote is out of reach for a client: it runs in mock mode, or every
    call fails. *)
Definition unreachable (net : ApiService.Network) (st : ApiService.Client) : Prop :=
  ApiService.BASE_URL st = "LOCAL_MOCK" ∨ ∀ req, ApiService.fails (net req).

(** What the gateway returned, when it is a user. *)
Definition returned_user (r : ApiService.Client * Js.Completion ApiService.Value)
    : option UserModel.User :=
  match r.2 with
  | Js.Return (Some (JUser u)) => Some u
  | _ => None
  end.

(** The id of a stored user is an ObjectId in canonical form. *)
Definition canonical (d : UserModel.UserDocument) : Prop :=
  ObjectId.new (UserModel.Doc._id d) = Js.Return (UserModel.Doc._id d).

Definition canonical_ids (c : list UserModel.UserDocument) : Prop := Forall canonical c.

(** The local users all have an id. *)
Definition local_ids (st : ApiService.Client) : Prop :=
  Forall (λ u, UserModel.id u ≠ "") (ApiService.connect_mock_users st).

(** The e-mail addresses of the local users. *)
Definition local_emails (st : ApiService.Client) : list Js.str :=
  UserModel.email <$> ApiService.connect_mock_users st.

(** The e-mail addresses of the stored users, in stored order. *)
Definition stored_emails (db : Db) : list Js.str :=
  UserModel.Doc.email <$> users db.

(** A stored message has a user on one of its ends. *)
Definition involves (userId : string) (d : MessageModel.MessageDocument) : Prop :=
  MessageModel.Doc.senderId d = Some userId ∨ MessageModel.Doc.receiverId d = Some userId.

(** The ids of the stored users, in stored order. *)
Definition stored_user_ids (db : Db) : list ObjectId.t :=
  UserModel.Doc._id <$> users db.

(** The users a response lists, when it is a list of users. *)
Definition listed_users (r : Response) : option (list UserModel.User) :=
  match json r with
  | JUsers l => Some l
  | _ => None
  end.

(** The requester of a deletion is one of the site's admins. *)
Definition is_site_admin (userId : string) (db : Db) : Prop :=
  ∃ u, UserModel.findUserById (Some userId) (users db) = Some u
       ∧ Js.truthy_bool (UserModel.isAdmin u) = true.

(** The ids of the stored groups and messages, in stored order. *)
Definition stored_group_ids (db : Db) : list ObjectId.t :=
  GroupModel.Doc._id <$> groups db.

Definition stored_message_ids (db : Db) : list ObjectId.t :=
  MessageModel.Doc._id <$> messages db.

(** What identifies an account and what it may do. *)
Definition account_identity (d : UserModel.UserDocument)
    : ObjectId.t * Js.str * option bool * option bool :=
  (UserModel.Doc._id d, UserModel.Doc.email d, UserModel.Doc.isAdmin d,
   UserModel.Doc.isBanned d).


(** * Concrete stores, clients and requests used below *)

Module Examples.

Definition offline : ApiService.Network := λ _, ApiService.Rejected.

Definition fresh_client : ApiService.Client :=
  {| ApiService.BASE_URL := "http://localhost:3001";
     ApiService.isConnected := false;
     ApiService.connectionAttempted := false;
     ApiService.connect_mock_users := [];
     ApiService.connect_temp_msgs := [] |}.


Definition oid (n : string) : ObjectId.t := "00000000000000000000000" +:+ n.

Definition env0 : Env := {| now := 1700000000000; insertedId := oid "f" |}.

Definition admin_doc : UserModel.UserDocument :=
  {| UserModel.Doc._id := oid "a";
     UserModel.Doc.username := Some "root";
     UserModel.Doc.email := Some "admin0909@gmail.com";
     UserModel.Doc.avatar := Some "https://example.org/root.png";
     UserModel.Doc.status := Some "on duty";
     UserModel.Doc.lastSeen := Some 1;
     UserModel.Doc.isAdmin := Some true;
     UserModel.Doc.isBanned := None |}.

Definition ana_doc (banned : option bool) : UserModel.UserDocument :=
  {| UserModel.Doc._id := oid "1";
     UserModel.Doc.username := Some "Ana";
     UserModel.Doc.email := Some "ana@x.com";
     UserModel.Doc.avatar := Some "https://example.org/ana.png";
     UserModel.Doc.status := Some "hello";
     UserModel.Doc.lastSeen := Some 2;
     UserModel.Doc.isAdmin := Some false;
     UserModel.Doc.isBanned := banned |}.

Definition text_doc (n sender receiver body : string) (ts : Z) (st : string)
    : MessageModel.MessageDocument :=
  {| MessageModel.Doc._id := oid n;
     MessageModel.Doc.senderId := Some sender;
     MessageModel.Doc.receiverId := Some receiver;
     MessageModel.Doc.text := Some body;
     MessageModel.Doc.imageUrl := None;
     MessageModel.Doc.audioUrl := None;
     MessageModel.Doc.fileUrl := None;
     MessageModel.Doc.fileName := None;
     MessageModel.Doc.fileType := None;
     MessageModel.Doc.type := Some "text";
     MessageModel.Doc.timestamp := Some ts;
     MessageModel.Doc.status := Some st;
     MessageModel.Doc.groupId := None |}.

Definition team_doc (admin : string) (members : list string) : GroupModel.GroupDocument :=
  {| GroupModel.Doc._id := oid "9";
     GroupModel.Doc.name := "team";
     GroupModel.Doc.avatar := None;
     GroupModel.Doc.adminId := admin;
     GroupModel.Doc.memberIds := members;
     GroupModel.Doc.createdAt := 5 |}.

(** A store in which Ana is already banned but still has a message and a
    group membership. *)
Definition db_ana_banned : Db :=
  {| users := [admin_doc; ana_doc (Some true)];
     messages := [text_doc "2" (oid "1") (oid "a") "hi" 100 "sent"];
     groups := [team_doc (oid "a") [oid "a"; oid "1"]] |}.

(** A store with one message from Ana that has been read. *)
Definition db_read : Db :=
  {| users := [admin_doc; ana_doc None];
     messages := [text_doc "2" (oid "1") (oid "a") "hi" 100 "read"];
     groups := [] |}.

(** A text message that also carries an image. *)
Definition text_with_image : MessageModel.Message :=
  {| MessageModel.id := "1700000000000";
     MessageModel.senderId := Some (oid "1");
     MessageModel.receiverId := Some (oid "a");
     MessageModel.text := Some "look";
     MessageModel.imageUrl := Some "https://example.org/cat.png";
     MessageModel.audioUrl := None;
     MessageModel.fileUrl := None;
     MessageModel.fileName := None;
     MessageModel.fileType := None;
     MessageModel.type := Some "text";
     MessageModel.timestamp := Some 1700000000000;
     MessageModel.status := Some "sent";
     MessageModel.groupId := None |}.

(** A creation request whose admin is not among the members. *)
Definition outsider_admin : GroupController.CreateBody :=
  {| GroupController.cb_name := Some "team";
     GroupController.cb_avatar := None;
     GroupController.cb_adminId := Some (oid "3");
     GroupController.cb_memberIds := Some [oid "1"; oid "2"] |}.

(** A store in which Ana administers a group. *)
Definition db_ana_admin : Db :=
  {| users := [admin_doc; ana_doc None];
     messages := [];
     groups := [team_doc (oid "1") [oid "1"; oid "2"; oid "3"]] |}.

(** The group that request creates. *)
Definition outsider_group : GroupModel.GroupDocument :=
  {| GroupModel.Doc._id := oid "f";
     GroupModel.Doc.name := "team";
     GroupModel.Doc.avatar := Some "https://api.dicebear.com/7.x/initials/svg?seed=team";
     GroupModel.Doc.adminId := oid "3";
     GroupModel.Doc.memberIds := [oid "1"; oid "2"];
     GroupModel.Doc.createdAt := 1700000000000 |}.

(** A well-formed text message from Ana to the admin. *)
Definition hello : MessageModel.Message :=
  {| MessageModel.id := "1700000000200";
     MessageModel.senderId := Some (oid "1");
     MessageModel.receiverId := Some (oid "a");
     MessageModel.text := Some "hello";
     MessageModel.imageUrl := None;
     MessageModel.audioUrl := None;
     MessageModel.fileUrl := None;
     MessageModel.fileName := None;
     MessageModel.fileType := None;
     MessageModel.type := Some "text";
     MessageModel.timestamp := Some 200;
     MessageModel.status := Some "sent";
     MessageModel.groupId := None |}.

Definition env1 : Env := {| now := 1700000000500; insertedId := oid "e" |}.

Definition text_msg (n sender receiver body : string) (ts : Z) : MessageModel.Message :=
  MessageModel.transformDocument (text_doc n sender receiver body ts "sent").

(** A client whose local list holds a later message before an earlier one. *)
Definition client_out_of_order : ApiService.Client :=
  {| ApiService.BASE_URL := "http://localhost:3001";
     ApiService.isConnected := false;
     ApiService.connectionAttempted := true;
     ApiService.connect_mock_users := [];
     ApiService.connect_temp_msgs :=
       [text_msg "3" (oid "1") (oid "a") "second" 300;
        text_msg "2" (oid "a") (oid "1") "first" 100] |}.

(** A store with the messages of the scenario: time stamps 300, 100, 200. *)
Definition db_three : Db :=
  {| users := [admin_doc; ana_doc None];
     messages := [text_doc "3" (oid "1") (oid "a") "c" 300 "sent";
                  text_doc "2" (oid "a") (oid "1") "a" 100 "sent";
                  text_doc "4" (oid "1") (oid "a") "b" 200 "sent"];
     groups := [] |}.

(** The login of the scenario. *)
Definition ana : ApiService.PartialUser :=
  {| ApiService.pu_username := Some "Ana";
     ApiService.pu_email := Some "ana@x.com";
     ApiService.pu_avatar := None;
     ApiService.pu_isAI := None;
     ApiService.pu_isAdmin := None |}.

(** A group message whose receiverId is not the group. *)
Definition to_group : MessageModel.Message :=
  {| MessageModel.id := "1700000000300";
     MessageModel.senderId := Some (oid "1");
     MessageModel.receiverId := Some (oid "a");
     MessageModel.text := Some "hello all";
     MessageModel.imageUrl := None;
     MessageModel.audioUrl := None;
     MessageModel.fileUrl := None;
     MessageModel.fileName := None;
     MessageModel.fileType := None;
     MessageModel.type := Some "text";
     MessageModel.timestamp := Some 300;
     MessageModel.status := Some "sent";
     MessageModel.groupId := Some (oid "9") |}.

(** The group of the scenario: members A, B, C with B as admin. *)
Definition db_abc : Db :=
  {| users := [];
     messages := [];
     groups := [team_doc (oid "b") [oid "a"; oid "b"; oid "c"]] |}.

(** A profile update that gives a new name and an empty avatar. *)
Definition rename : UserController.UpdateBody :=
  {| UserController.ub_username := Some "Anna";
     UserController.ub_avatar := Some "";
     UserController.ub_status := None |}.

(** Ana signed in, with her chat with the admin open. *)
Definition chat_with_admin : App.Session :=
  {| App.currentUser := Some (UserModel.transformDocument (ana_doc None));
     App.selectedUser := Some (UserModel.transformDocument admin_doc);
     App.selectedGroup := None |}.

(** The modal of Ana with two more members picked and a name typed. *)
Definition three_picked : GroupCreationModal.State :=
  {| GroupCreationModal.name := "team";
     GroupCreationModal.avatar := "";
     GroupCreationModal.selectedMemberIds := [oid "1"; oid "b"; oid "c"];
     GroupCreationModal.groupAdminId := oid "b" |}.

(** Bea, whose id has a letter in it, with a message of hers and a group she
    is in. *)
Definition bea_doc : UserModel.UserDocument :=
  {| UserModel.Doc._id := oid "b";
     UserModel.Doc.username := Some "Bea";
     UserModel.Doc.email := Some "bea@x.com";
     UserModel.Doc.avatar := Some "https://example.org/bea.png";
     UserModel.Doc.status := Some "hello";
     UserModel.Doc.lastSeen := Some 3;
     UserModel.Doc.isAdmin := Some false;
     UserModel.Doc.isBanned := None |}.

Definition db_bea : Db :=
  {| users := [admin_doc; bea_doc];
     messages := [text_doc "2" (oid "b") (oid "a") "hi" 100 "sent"];
     groups := [team_doc (oid "a") [oid "a"; oid "b"]] |}.

End Examples.
Import Examples.

(** * Properties *)

(** ** Collections *)

Section collection_facts.
Context {D : Type} `{EqDecision D}.
Implicit Types (q : D → bool) (upd : D → D) (c : list D) (P : D → Prop).

(** An update that changes nothing reports [modifiedCount] 0 and leaves the
    collection as it was. *)
Lemma updateOne_unchanged q upd c d :
  Collection.findOne q c = Some d → upd d = d →
  Collection.updateOne q upd c = (c, 0).
Proof.
  unfold Collection.findOne.
  induction c as [|x c IH]; simpl; [done|].
  destruct (q x) eqn:Hq.
  - intros [= ->] Hd. rewrite Hd. by rewrite decide_True.
  - intros Hf Hd. by rewrite (IH Hf Hd).
Qed.

Lemma findOneAndUpdate_found q upd c d :
  Collection.findOne q c = Some d →
  (Collection.findOneAndUpdate q upd c).2 = Some (upd d).
Proof.
  unfold Collection.findOne.
  induction c as [|x c IH]; simpl; [done|].
  destruct (q x) eqn:Hq.
  - by intros [= ->].
  - intros Hf. specialize (IH Hf).
    by destruct (Collection.findOneAndUpdate q upd c).
Qed.

(** After the update the same query finds the updated document, when the
    update does not take it out of the query. *)
Lemma findOneAndUpdate_findOne q upd c d :
  Collection.findOne q c = Some d → q (upd d) = true →
  Collection.findOne q (Collection.findOneAndUpdate q upd c).1 = Some (upd d).
Proof.
  unfold Collection.findOne.
  induction c as [|x c IH]; simpl; [done|].
  destruct (q x) eqn:Hq.
  - intros [= ->] Hu. simpl. by rewrite Hu.
  - intros Hf Hu. specialize (IH Hf Hu).
    destruct (Collection.findOneAndUpdate q upd c). simpl in *. by rewrite Hq.
Qed.

Lemma findOneAndUpdate_Forall P q upd c :
  (∀ d, P d → P (upd d)) → Forall P c →
  Forall P (Collection.findOneAndUpdate q upd c).1.
Proof.
  intros Hupd. induction 1 as [|x c Hx Hc IH]; simpl; [done|].
  destruct (q x).
  - simpl. constructor; auto.
  - destruct (Collection.findOneAndUpdate q upd c). simpl in *. by constructor.
Qed.

Lemma updateOne_Forall2 (R : D → D → Prop) q upd c :
  (∀ d, R d d) → (∀ d, R d (upd d)) →
  Forall2 R c (Collection.updateOne q upd c).1.
Proof.
  intros Hrefl Hupd. induction c as [|x c IH]; simpl; [done|].
  destruct (q x).
  - simpl. constructor; [auto|]. by apply Forall_Forall2_diag, Forall_forall.
  - destruct (Collection.updateOne q upd c). simpl in *. by constructor.
Qed.

Lemma updateMany_Forall2 (R : D → D → Prop) q upd c :
  (∀ d, R d d) → (∀ d, q d = true → R d (upd d)) →
  Forall2 R c (Collection.updateMany q upd c).1.
Proof.
  intros Hrefl Hupd. induction c as [|x c IH]; simpl; [done|].
  destruct (Collection.updateMany q upd c) as [r n]. simpl in *.
  destruct (q x) eqn:Hq; simpl; constructor; auto.
Qed.

Lemma deleteOne_Forall P q c :
  Forall P c → Forall P (Collection.deleteOne q c).1.
Proof.
  induction 1 as [|x c Hx Hc IH]; simpl; [done|].
  destruct (q x); [done|].
  destruct (Collection.deleteOne q c). simpl in *. by constructor.
Qed.

Lemma filter_Forall P (f : D → bool) c :
  Forall P c → Forall P (List.filter f c).
Proof.
  induction 1 as [|x c Hx Hc IH]; simpl; [done|].
  destruct (f x); [by constructor|done].
Qed.

Lemma deleteMany_Forall P q c :
  Forall P c → Forall P (Collection.deleteMany q c).1.
Proof. apply filter_Forall. Qed.

End collection_facts.

(** ** The Sync Gateway's failure signals *)

Lemma request_never_throws net req st :
  ∃ v, (ApiService.request net req st).2 = Js.Return v.
Proof.
  unfold ApiService.request.
  case_bool_decide; [by eexists|].
  destruct (net req) as [|status [v|]]; [by eexists|..];
    destruct (negb (Http.ok status)); by eexists.
Qed.

Lemma request_unreachable net req st :
  unreachable net st →
  ∃ st', ApiService.request net req st = (st', Js.Return None)
         ∧ ApiService.connect_mock_users st' = ApiService.connect_mock_users st
         ∧ ApiService.connect_temp_msgs st' = ApiService.connect_temp_msgs st
         ∧ ApiService.BASE_URL st' = ApiService.BASE_URL st.
Proof.
  unfold unreachable, ApiService.request. intros Hu.
  case_bool_decide as Hm; [by eexists|].
  destruct Hu as [?|Hf]; [done|]. specialize (Hf req).
  destruct (net req) as [|status body]; [by eexists|].
  destruct Hf as [-> | ->]; simpl; [by eexists|].
  destruct (negb (Http.ok status)); by eexists.
Qed.

Lemma succeeded_request net req st :
  (ApiService.succeeded (ApiService.request net req st)).2 = true.
Proof.
  destruct (request_never_throws net req st) as [v Hv].
  destruct (ApiService.request net req st) as [st' r]. simpl in *. by subst.
Qed.

(** C1. The operations of the gateway that return a boolean and have no local
    fallback (ban, delete user, add member, remove member, delete group, edit
    message, delete message) return [true] whatever the network did with the
    request, so also when the remote call failed: [request] swallows every
    failure and their [catch] branch is never taken. *)
Theorem boolean_operations_report_success_on_failure :
  ∀ (net : ApiService.Network) (st : ApiService.Client) (a b c : string),
    (ApiService.banUser net a b st).2 = true
    ∧ (ApiService.deleteUser net a st).2 = true
    ∧ (ApiService.addMemberToGroup net a b c st).2 = true
    ∧ (ApiService.removeMemberFromGroup net a b c st).2 = true
    ∧ (ApiService.deleteGroup net a b st).2 = true
    ∧ (ApiService.editMessage net a b c st).2 = true
    ∧ (ApiService.deleteMessage net a b st).2 = true.
Proof.
  intros. repeat split; apply succeeded_request.
Qed.

(** The gateway operations that hand the response through do signal a failed
    call with [null]. *)
Lemma null_on_failure net st data adminId :
  unreachable net st →
  (ApiService.createGroup net data st).2 = None
  ∧ (ApiService.cleanupTestData net adminId st).2 = None.
Proof.
  intros Hu. unfold ApiService.createGroup, ApiService.cleanupTestData.
  split.
  - by destruct (request_unreachable net (Routes.POST_groups data) st Hu)
      as (st' & -> & _).
  - by destruct (request_unreachable net (Routes.POST_users_cleanup (Some adminId)) st Hu)
      as (st' & -> & _).
Qed.

(** C7. With the remote out of reach, [getUserGroups] and [getGroupMessages]
    return [null], not an empty array: [request] completes with [null] and
    the [catch] that would return [[]] is never taken. *)
Theorem group_lists_are_null_when_unreachable :
  ∀ (net : ApiService.Network) (st : ApiService.Client) (userId groupId : string),
    unreachable net st →
    (ApiService.getUserGroups net userId st).2 = None
    ∧ (ApiService.getGroupMessages net groupId st).2 = None.
Proof.
  intros net st userId groupId Hu.
  unfold ApiService.getUserGroups, ApiService.getGroupMessages.
  split.
  - by destruct (request_unreachable net (Routes.GET_groups (Some userId)) st Hu)
      as (st' & -> & _).
  - by destruct (request_unreachable net (Routes.GET_messages None None (Some groupId)) st Hu)
      as (st' & -> & _).
Qed.

Lemma group_lists_are_null_when_unreachable_witness :
  (ApiService.getUserGroups offline "u1" fresh_client).2 = None
  ∧ (ApiService.getGroupMessages offline "g1" fresh_client).2 = None.
Proof.
  apply (group_lists_are_null_when_unreachable offline fresh_client "u1" "g1").
  right. intros req. exact I.
Defined.

(** ** Banning a user who is banned already *)

Lemma with_users_same db : with_users (users db) db = db.
Proof. by destruct db. Qed.

Lemma with_messages_same db : with_messages (messages db) db = db.
Proof. by destruct db. Qed.

Lemma with_groups_same db : with_groups (groups db) db = db.
Proof. by destruct db. Qed.

Lemma set_isBanned_banned (doc : UserModel.UserDocument) :
  UserModel.Doc.isBanned doc = Some true → UserModel.set_isBanned doc = doc.
Proof. destruct doc; simpl; by intros ->. Qed.

(** [$set: { isBanned: true }] on a banned user modifies nothing, so the model
    reports failure. *)
Lemma banUser_model_banned c id o doc :
  ObjectId.new id = Js.Return o →
  Collection.findOne (UserModel.by_id o) c = Some doc →
  UserModel.Doc.isBanned doc = Some true →
  UserModel.banUser id c = Js.Return (c, false)
  ∧ UserModel.deleteUser id c = Js.Return (c, false).
Proof.
  intros Hid Hfind Hb. unfold UserModel.banUser, UserModel.deleteUser.
  rewrite Hid. simpl.
  by rewrite (updateOne_unchanged _ _ _ _ Hfind (set_isBanned_banned _ Hb)).
Qed.

(** C10, as the code has it. DELETE /users/:id, and POST /users/:id/ban with
    the adminId of an admin, on a user that exists and is banned already
    answer 404 "User not found": the update modifies no document,
    [modifiedCount] is 0, and the handlers read that as failure.  The store
    is left exactly as it was; on the ban route neither the user's messages
    nor their group memberships are touched. *)
Theorem already_banned_user_is_reported_not_found :
  ∀ (db : Db) (id : string) (o : ObjectId.t) (doc : UserModel.UserDocument)
    (adminId : Js.str) (admin : UserModel.User),
    ObjectId.new id = Js.Return o →
    Collection.findOne (UserModel.by_id o) (users db) = Some doc →
    UserModel.Doc.isBanned doc = Some true →
    UserModel.findUserById adminId (users db) = Some admin →
    Js.truthy_bool (UserModel.isAdmin admin) = true →
    UserController.deleteUser id db = (db, respond 404 (JError "User not found"))
    ∧ UserController.banUser id adminId db = (db, respond 404 (JError "User not found")).
Proof.
  intros db id o doc adminId admin Hid Hfind Hb Hadmin Hflag.
  destruct (banUser_model_banned _ _ _ _ Hid Hfind Hb) as [Hban Hdel].
  unfold UserController.deleteUser, UserController.banUser.
  rewrite Hdel, Hadmin, Hflag, Hban. simpl.
  by rewrite with_users_same.
Qed.

Lemma already_banned_user_is_reported_not_found_witness :
  UserController.deleteUser (oid "1") db_ana_banned
    = (db_ana_banned, respond 404 (JError "User not found"))
  ∧ UserController.banUser (oid "1") (Some (oid "a")) db_ana_banned
    = (db_ana_banned, respond 404 (JError "User not found")).
Proof.
  apply (already_banned_user_is_reported_not_found db_ana_banned (oid "1") (oid "1")
           (ana_doc (Some true)) (Some (oid "a")) (UserModel.transformDocument admin_doc));
    reflexivity.
Defined.

(** A ban request that does not come from an admin is turned away before any
    update is tried, whoever the target is. *)
Lemma ban_by_non_admin_changes_nothing db id adminId :
  (∀ admin, UserModel.findUserById adminId (users db) = Some admin →
            Js.truthy_bool (UserModel.isAdmin admin) = false) →
  UserController.banUser id adminId db = (db, respond 403 (JError "Unauthorized")).
Proof.
  intros Hno. unfold UserController.banUser.
  destruct (UserModel.findUserById adminId (users db)) as [admin|]; [|done].
  by rewrite (Hno admin eq_refl).
Qed.

(** C10 as stated fails on the ban route when the request does not come from
    an admin: Ana, banned, is in the store, and the answer is 403. *)
Lemma ban_of_banned_user_by_non_admin_is_forbidden :
  Collection.findOne (UserModel.by_id (oid "1")) (users db_ana_banned)
    = Some (ana_doc (Some true))
  ∧ UserController.banUser (oid "1") (Some (oid "1")) db_ana_banned
    = (db_ana_banned, respond 403 (JError "Unauthorized"))
  ∧ status (UserController.banUser (oid "1") (Some (oid "1")) db_ana_banned).2 ≠ 404.
Proof. repeat split; try reflexivity. discriminate. Qed.

(** ** Editing and status updates of messages *)

Lemma by_id_set_text o t doc :
  MessageModel.by_id o (MessageModel.set_text t doc) = MessageModel.by_id o doc.
Proof. done. Qed.

Lemma by_id_set_status o s doc :
  MessageModel.by_id o (MessageModel.set_status s doc) = MessageModel.by_id o doc.
Proof. done. Qed.

Lemma findOne_by_id c o (doc : MessageModel.MessageDocument) :
  Collection.findOne (MessageModel.by_id o) c = Some doc → MessageModel.by_id o doc = true.
Proof. unfold Collection.findOne. intros Hf. by apply find_some in Hf as [_ ?]. Qed.

(** C2. PATCH /messages/:id from a user who is not the sender answers 403,
    and by then the new text is stored: the handler writes first, compares
    the sender afterwards, and writes nothing back. *)
Theorem edit_by_other_user_is_stored :
  ∀ (db : Db) (id : string) (o : ObjectId.t) (doc : MessageModel.MessageDocument)
    (text userId : Js.str),
    ObjectId.new id = Js.Return o →
    Collection.findOne (MessageModel.by_id o) (messages db) = Some doc →
    Js.truthy text = true → Js.truthy userId = true →
    MessageModel.Doc.senderId doc ≠ userId →
    status (MessageController.editMessage id text userId db).2 = 403
    ∧ Collection.findOne (MessageModel.by_id o)
        (messages (MessageController.editMessage id text userId db).1)
      = Some (MessageModel.set_text text doc).
Proof.
  intros db id o doc text userId Hid Hfind Ht Hu Hne.
  unfold MessageController.editMessage, MessageModel.updateMessageText.
  rewrite Ht, Hu, Hid. simpl.
  pose proof (findOneAndUpdate_found _ (MessageModel.set_text text) _ _ Hfind) as Hres.
  pose proof (findOneAndUpdate_findOne _ (MessageModel.set_text text) _ _ Hfind) as Hnew.
  rewrite by_id_set_text in Hnew. specialize (Hnew (findOne_by_id _ _ _ Hfind)).
  destruct (Collection.findOneAndUpdate _ _ _) as [c res]. simpl in *. subst res. simpl.
  unfold Js.seq. rewrite bool_decide_false by done. simpl. done.
Qed.

Lemma edit_by_other_user_is_stored_witness :
  status (MessageController.editMessage (oid "2") (Some "changed") (Some (oid "a")) db_read).2
    = 403
  ∧ Collection.findOne (MessageModel.by_id (oid "2"))
      (messages (MessageController.editMessage (oid "2") (Some "changed")
                   (Some (oid "a")) db_read).1)
    = Some (MessageModel.set_text (Some "changed")
              (text_doc "2" (oid "1") (oid "a") "hi" 100 "read")).
Proof.
  apply (edit_by_other_user_is_stored db_read (oid "2") (oid "2")
           (text_doc "2" (oid "1") (oid "a") "hi" 100 "read")
           (Some "changed") (Some (oid "a")));
    [reflexivity | reflexivity | reflexivity | reflexivity | discriminate].
Defined.

Lemma put_status_found db id o doc s :
  ObjectId.new id = Js.Return o →
  Collection.findOne (MessageModel.by_id o) (messages db) = Some doc →
  valid_status s →
  status (MessageController.updateMessageStatus id s db).2 = 200
  ∧ Collection.findOne (MessageModel.by_id o)
      (messages (MessageController.updateMessageStatus id s db).1)
    = Some (MessageModel.set_status s doc).
Proof.
  intros Hid Hfind Hs.
  unfold MessageController.updateMessageStatus, MessageModel.updateMessageStatus.
  rewrite Hid. simpl.
  pose proof (findOneAndUpdate_found _ (MessageModel.set_status s) _ _ Hfind) as Hres.
  pose proof (findOneAndUpdate_findOne _ (MessageModel.set_status s) _ _ Hfind) as Hnew.
  rewrite by_id_set_status in Hnew. specialize (Hnew (findOne_by_id _ _ _ Hfind)).
  destruct (Collection.findOneAndUpdate _ _ _) as [c res]. simpl in *. subst res.
  destruct Hs as [-> | [-> | ->]]; done.
Qed.

Lemma set_status_twice s s' doc :
  MessageModel.set_status s (MessageModel.set_status s' doc) = MessageModel.set_status s doc.
Proof. done. Qed.

(** A valid update of a stored message is answered 200 with the message
    carrying the requested status. *)
Lemma put_status_answer db id o doc s :
  ObjectId.new id = Js.Return o →
  Collection.findOne (MessageModel.by_id o) (messages db) = Some doc →
  valid_status s →
  (MessageController.updateMessageStatus id s db).2
  = respond 200 (JMessage (MessageModel.transformDocument (MessageModel.set_status s doc))).
Proof.
  intros Hid Hfind Hs.
  unfold MessageController.updateMessageStatus, MessageModel.updateMessageStatus.
  rewrite Hid. simpl.
  pose proof (findOneAndUpdate_found _ (MessageModel.set_status s) _ _ Hfind) as Hres.
  destruct (Collection.findOneAndUpdate _ _ _) as [c res]. simpl in *. subst res.
  destruct Hs as [-> | [-> | ->]]; done.
Qed.

(** C8, as the code has it. Every update of a sequence of valid
    PUT /messages/:id on a stored message is answered 200, with the message
    carrying the status that update asked for, whatever the status was;
    after the sequence the stored status is the last one requested, and
    nothing else of the message has changed. *)
Theorem status_is_the_last_one_requested :
  ∀ (env : Env) (id : string) (o : ObjectId.t) (ss : list Js.str) (s : Js.str)
    (db : Db) (doc : MessageModel.MessageDocument),
    ObjectId.new id = Js.Return o →
    Collection.findOne (MessageModel.by_id o) (messages db) = Some doc →
    Forall valid_status (ss ++ [s]) →
    Routes.responses (status_updates env id (ss ++ [s])) db
    = (λ s', respond 200 (JMessage (MessageModel.transformDocument
                                      (MessageModel.set_status s' doc))))
        <$> (ss ++ [s])%list
    ∧ Forall (λ r, status r = 200)
        (Routes.responses (status_updates env id (ss ++ [s])) db)
    ∧ Collection.findOne (MessageModel.by_id o)
        (messages (Routes.run (status_updates env id (ss ++ [s])) db))
      = Some (MessageModel.set_status s doc).
Proof.
  intros env id o ss s db doc Hid Hfind Hall.
  assert (Hanswers :
    ∀ (l : list Js.str) db doc,
      Collection.findOne (MessageModel.by_id o) (messages db) = Some doc →
      Forall valid_status l →
      Routes.responses (status_updates env id l) db
      = (λ s', respond 200 (JMessage (MessageModel.transformDocument
                                        (MessageModel.set_status s' doc)))) <$> l).
  { clear db doc Hfind Hall. induction l as [|s' l IH]; intros db doc Hfind Hall; [done|].
    pose proof (Forall_inv Hall) as Hs'. apply Forall_inv_tail in Hall.
    destruct (put_status_found db id o doc s' Hid Hfind Hs') as [_ Hnext].
    csimpl. rewrite (put_status_answer db id o doc s' Hid Hfind Hs').
    f_equal. rewrite (IH _ _ Hnext Hall).
    apply list_fmap_ext. intros _ s'' _. by rewrite set_status_twice. }
  split; [by apply Hanswers|]. split.
  { rewrite (Hanswers _ _ _ Hfind Hall). apply Forall_fmap, Forall_true. done. }
  clear Hanswers. revert db doc Hfind Hall.
  induction ss as [|s' ss IH]; intros db doc Hfind Hall; simpl.
  - apply Forall_inv in Hall.
    by destruct (put_status_found db id o doc s Hid Hfind Hall) as [_ ?].
  - simpl in Hall. pose proof (Forall_inv Hall) as Hs'.
    apply Forall_inv_tail in Hall.
    destruct (put_status_found db id o doc s' Hid Hfind Hs') as [_ Hnext].
    rewrite (IH _ _ Hnext Hall). by rewrite set_status_twice.
Qed.

Lemma status_is_the_last_one_requested_witness :
  Forall (λ r, status r = 200)
    (Routes.responses (status_updates env0 (oid "2")
                         ([Some "delivered"; Some "read"] ++ [Some "sent"])) db_read)
  ∧ Collection.findOne (MessageModel.by_id (oid "2"))
      (messages (Routes.run (status_updates env0 (oid "2")
                               ([Some "delivered"; Some "read"] ++ [Some "sent"])) db_read))
    = Some (MessageModel.set_status (Some "sent")
              (text_doc "2" (oid "1") (oid "a") "hi" 100 "read")).
Proof.
  destruct (status_is_the_last_one_requested env0 (oid "2") (oid "2")
              [Some "delivered"; Some "read"] (Some "sent") db_read
              (text_doc "2" (oid "1") (oid "a") "hi" 100 "read")) as (_ & H200 & Hlast).
  - reflexivity.
  - reflexivity.
  - unfold valid_status. repeat (constructor; [by auto|]). constructor.
  - split; [exact H200|exact Hlast].
Defined.

(** C8 as stated fails: a message that has been read goes back to sent. *)
Lemma read_message_returns_to_sent :
  ∃ before after,
    Collection.findOne (MessageModel.by_id (oid "2")) (messages db_read) = Some before
    ∧ MessageController.updateMessageStatus (oid "2") (Some "sent") db_read
      = (with_messages [after] db_read, respond 200 (JMessage (MessageModel.transformDocument after)))
    ∧ MessageModel.Doc.status before = Some "read"
    ∧ MessageModel.Doc.status after = Some "sent"
    ∧ ¬ (rank (MessageModel.Doc.status before) ≤ rank (MessageModel.Doc.status after))%nat.
Proof.
  eexists _, _. split; [reflexivity|]. split; [reflexivity|].
  split; [reflexivity|]. split; [reflexivity|]. vm_compute. lia.
Qed.

(** ** The type tag and the payload of stored messages *)

Ltac unfold_handlers :=
  unfold UserController.registerUser, UserController.getUsers,
    UserController.updateUser, UserController.deleteUser, UserController.banUser,
    UserController.permanentlyDeleteUser, UserController.cleanupTestData,
    MessageController.getMessages, MessageController.deleteMessage,
    GroupController.createGroup, GroupController.getUserGroups,
    GroupController.getAllGroups, GroupController.deleteGroup,
    GroupController.addMember, GroupController.removeMember.

Lemma messages_only_deleted (P : MessageModel.MessageDocument → Prop) env req db :
  writes_messages req = false →
  Forall P (messages db) → Forall P (messages (Routes.handle env req db).1).
Proof.
  intros Hreq Hinv.
  destruct req; try discriminate Hreq; simpl; unfold_handlers;
    try (repeat case_match; simpl; done).
  - (* ban *)
    unfold UserModel.banUser, Js.bind.
    repeat case_match; simpl; try done; simplify_eq/=.
    all: try by apply deleteMany_Forall.
  - (* cleanup *)
    unfold MessageModel.deleteAllMessages.
    repeat case_match; simpl; try done; simplify_eq/=.
    match goal with H : Collection.deleteMany ?q ?c = _ |- _ =>
      pose proof (deleteMany_Forall P q c Hinv) as Hd; by rewrite H in Hd end.
  - (* delete message *)
    unfold MessageModel.deleteMessage, Js.bind.
    repeat case_match; simpl; try done; simplify_eq/=.
    all: match goal with H : Collection.deleteOne ?q ?c = _ |- _ =>
           pose proof (deleteOne_Forall P q c Hinv) as Hd; by rewrite H in Hd end.
  - (* delete group *)
    unfold GroupModel.deleteGroup, Js.bind.
    repeat case_match; simpl; try done; simplify_eq/=.
    all: try by apply deleteMany_Forall.
Qed.

Lemma if_truthy_truthy v : Js.truthy v = true → MessageModel.if_truthy v = v.
Proof. unfold MessageModel.if_truthy. by intros ->. Qed.

Lemma is_type_eq v name : MessageController.is_type v name = true → v = Some name.
Proof. unfold MessageController.is_type, Js.seq. by intros ?%bool_decide_eq_true. Qed.

(** A body that passes the checks names one of the four types and carries
    that type's payload. *)
Lemma validation_passed body :
  MessageController.validation_error body = None → payload_present body.
Proof.
  unfold MessageController.validation_error, payload_present.
  destruct (MessageController.is_type (MessageModel.type body) "text") eqn:Ht;
  destruct (MessageController.is_type (MessageModel.type body) "image") eqn:Hi;
  destruct (MessageController.is_type (MessageModel.type body) "audio") eqn:Ha;
  destruct (MessageController.is_type (MessageModel.type body) "file") eqn:Hf;
  try apply is_type_eq in Ht; try apply is_type_eq in Hi;
  try apply is_type_eq in Ha; try apply is_type_eq in Hf;
  repeat case_match; try done; intros _;
  repeat match goal with H : _ && negb _ = false |- _ =>
    simpl in H; apply negb_false_iff in H end; auto 10.
Qed.

Lemma sendMessage_keeps_payload env body db :
  Forall doc_ok (messages db) →
  Forall doc_ok (messages (MessageController.sendMessage env body db).1).
Proof.
  intros Hinv.
  unfold MessageController.sendMessage, MessageModel.createMessage,
    MessageController.message_data, Collection.insertOne.
  destruct (MessageController.validation_error body) eqn:Hv; [done|].
  repeat case_match; simpl; try done.
  apply Forall_app. split; [done|]. constructor; [|done].
  apply validation_passed in Hv.
  unfold doc_ok, payload_present in *. simpl.
  destruct Hv as [[? Hp]|[[? Hp]|[[? Hp]|[? Hp]]]];
    rewrite (if_truthy_truthy _ Hp); auto 10.
Qed.

Lemma updateMessageStatus_keeps_payload id s db :
  Forall doc_ok (messages db) →
  Forall doc_ok (messages (MessageController.updateMessageStatus id s db).1).
Proof.
  intros Hinv.
  unfold MessageController.updateMessageStatus, MessageModel.updateMessageStatus, Js.bind.
  repeat case_match; simpl; try done; simplify_eq/=.
  all: match goal with H : Collection.findOneAndUpdate ?q ?u ?c = _ |- _ =>
         pose proof (findOneAndUpdate_Forall doc_ok q u c) as Hd;
         rewrite H in Hd; apply Hd; [|done] end.
  all: by intros [].
Qed.

Lemma editMessage_keeps_payload id t userId db :
  Forall doc_ok (messages db) →
  Forall doc_ok (messages (MessageController.editMessage id t userId db).1).
Proof.
  intros Hinv.
  unfold MessageController.editMessage, MessageModel.updateMessageText, Js.bind.
  destruct (Js.truthy t) eqn:Ht; [|done].
  repeat case_match; simpl; try done; simplify_eq/=.
  all: match goal with H : Collection.findOneAndUpdate ?q ?u ?c = _ |- _ =>
         pose proof (findOneAndUpdate_Forall doc_ok q u c) as Hd;
         rewrite H in Hd; apply Hd; [|done] end.
  all: intros d; unfold doc_ok, payload_present; simpl; rewrite Ht; tauto.
Qed.

Lemma payload_step env req db :
  Forall doc_ok (messages db) → Forall doc_ok (messages (Routes.handle env req db).1).
Proof.
  destruct (writes_messages req) eqn:Hw; [|by apply messages_only_deleted].
  destruct req; try discriminate Hw; simpl.
  - apply sendMessage_keeps_payload.
  - apply updateMessageStatus_keeps_payload.
  - apply editMessage_keeps_payload.
Qed.

Lemma payload_run trace db :
  Forall doc_ok (messages db) → Forall doc_ok (messages (Routes.run trace db)).
Proof.
  revert db. induction trace as [|[env req] trace IH]; intros db Hinv; simpl; [done|].
  by apply IH, payload_step.
Qed.

(** C9, as the code has it. Every record that can be retrieved from a store
    reached from the empty store through the API carries one of the four type
    tags and a non-empty payload field for it; the other payload fields are
    stored as they were sent. *)
Theorem stored_messages_carry_the_payload_of_their_type :
  ∀ (trace : list (Env * Routes.Request)),
    Forall payload_present (retrievable (Routes.run trace Routes.empty_db)).
Proof.
  intros trace. unfold retrievable. apply Forall_fmap.
  by apply (payload_run trace Routes.empty_db).
Qed.

(** C9 as stated fails: a text message sent with an image is stored with
    both, and retrieved so. *)
Lemma text_message_stored_with_image :
  ∃ m, retrievable (Routes.run [(env0, Routes.POST_messages text_with_image)] Routes.empty_db)
       = [m]
       ∧ MessageModel.type m = Some "text"
       ∧ MessageModel.imageUrl m = Some "https://example.org/cat.png"
       ∧ ¬ payload_exact m.
Proof.
  eexists. split; [reflexivity|]. split; [reflexivity|]. split; [reflexivity|].
  unfold payload_exact; simpl. intros [H|[H|[H|H]]]; destruct H as (? & ? & ?); try done.
  destruct H1 as (? & ?); done.
Qed.

(** ** Group membership *)

Lemma updateOne_first_Forall2 {D} `{EqDecision D} (R : D → D → Prop) q upd (c : list D) :
  (∀ d, R d d) →
  (∀ d, Collection.findOne q c = Some d → R d (upd d)) →
  Forall2 R c (Collection.updateOne q upd c).1.
Proof.
  intros Hrefl. unfold Collection.findOne.
  induction c as [|x c IH]; simpl; intros Hupd; [done|].
  destruct (q x).
  - simpl. constructor; [auto|]. by apply Forall_Forall2_diag, Forall_forall.
  - specialize (IH Hupd). destruct (Collection.updateOne q upd c). simpl in *.
    by constructor.
Qed.

Lemma admin_kept_refl g : admin_kept g g.
Proof. by split. Qed.

Lemma elem_of_pull (a userId : string) l :
  a ≠ userId → a ∈ l → a ∈ GroupModel.pull userId l.
Proof.
  intros Hne Hin. unfold GroupModel.pull.
  apply list_elem_of_In, filter_In. split; [by apply list_elem_of_In|].
  by rewrite bool_decide_false.
Qed.

Lemma elem_of_addToSet (a userId : string) l :
  a ∈ l → a ∈ GroupModel.addToSet userId l.
Proof.
  unfold GroupModel.addToSet. case_bool_decide; [done|].
  intros. apply elem_of_app. by left.
Qed.

Lemma getGroup_findOne groupId c group :
  GroupModel.getGroup groupId c = Some group →
  ∃ o d, ObjectId.new groupId = Js.Return o
         ∧ Collection.findOne (GroupModel.by_id o) c = Some d
         ∧ GroupModel.adminId group = GroupModel.Doc.adminId d.
Proof.
  unfold GroupModel.getGroup.
  destruct (ObjectId.new groupId) as [o|]; [|done].
  destruct (Collection.findOne (GroupModel.by_id o) c) as [d|] eqn:Hf; [|done].
  intros [= <-]. by exists o, d.
Qed.

(** DELETE /groups/:groupId/members never takes a group's admin out of its
    members, in any group, whatever the answer. *)
Lemma removeMember_keeps_admin groupId userId adminId db :
  Forall2 admin_kept (groups db)
    (groups (GroupController.removeMember groupId userId adminId db).1).
Proof.
  assert (Hsame : Forall2 admin_kept (groups db) (groups db)).
  { apply Forall_Forall2_diag, Forall_forall. intros; apply admin_kept_refl. }
  unfold GroupController.removeMember.
  destruct (nonempty userId) as [u|]; [|done].
  destruct (nonempty adminId) as [a|]; [|done].
  destruct (GroupModel.getGroup groupId (groups db)) as [group|] eqn:Hg; [|done].
  apply getGroup_findOne in Hg as (o & d & Ho & Hd & Hadm).
  case_bool_decide; simpl; [|done].
  case_bool_decide; simpl; [done|].
  unfold GroupModel.removeMemberFromGroup. rewrite Ho. simpl.
  pose proof (updateOne_first_Forall2 admin_kept (GroupModel.by_id o)
                (GroupModel.with_memberIds (GroupModel.pull u)) (groups db)
                admin_kept_refl) as Hupd.
  destruct (Collection.updateOne _ _ _) as [c n]. simpl in *.
  assert (Forall2 admin_kept (groups db) c) as Hc.
  { apply Hupd. intros d' Hd'. rewrite Hd in Hd'. injection Hd' as <-.
    split; [done|]. unfold admin_is_member. simpl.
    apply elem_of_pull. congruence. }
  by destruct (negb _).
Qed.

Lemma addMember_keeps_admin groupId userId adminId db :
  Forall2 admin_kept (groups db)
    (groups (GroupController.addMember groupId userId adminId db).1).
Proof.
  assert (Hsame : Forall2 admin_kept (groups db) (groups db)).
  { apply Forall_Forall2_diag, Forall_forall. intros; apply admin_kept_refl. }
  unfold GroupController.addMember.
  destruct (nonempty userId) as [u|]; [|done].
  destruct (nonempty adminId) as [a|]; [|done].
  destruct (GroupModel.getGroup groupId (groups db)) as [group|] eqn:Hg; [|done].
  case_bool_decide; simpl; [|done].
  unfold GroupModel.addMemberToGroup, Js.bind.
  destruct (ObjectId.new groupId) as [o|]; [|done].
  pose proof (updateOne_Forall2 admin_kept (GroupModel.by_id o)
                (GroupModel.with_memberIds (GroupModel.addToSet u)) (groups db)
                admin_kept_refl) as Hupd.
  destruct (Collection.updateOne _ _ _) as [c n]. simpl in *.
  assert (Forall2 admin_kept (groups db) c) as Hc.
  { apply Hupd. intros d. split; [done|]. unfold admin_is_member. simpl.
    apply elem_of_addToSet. }
  by destruct (negb _).
Qed.

Lemma Forall2_admin_kept c c' :
  Forall2 admin_kept c c' → Forall admin_is_member c → Forall admin_is_member c'.
Proof.
  induction 1 as [|g g' c c' [_ Hk] _ IH]; [done|].
  intros Hc. apply Forall_cons in Hc as [Hg Hc]. constructor; auto.
Qed.

Lemma groups_kept_or_deleted env req db :
  creates_or_bans req = false →
  Forall admin_is_member (groups db) →
  Forall admin_is_member (groups (Routes.handle env req db).1).
Proof.
  intros Hreq Hinv.
  destruct req; try discriminate Hreq; simpl;
    try (unfold_handlers; unfold MessageController.sendMessage,
           MessageController.updateMessageStatus, MessageController.editMessage;
         repeat case_match; simpl; done).
  - (* cleanup *)
    unfold UserController.cleanupTestData, GroupModel.deleteAllGroups.
    repeat case_match; simpl; try done; simplify_eq/=.
    match goal with H : Collection.deleteMany ?q ?c = _ |- _ =>
      pose proof (deleteMany_Forall admin_is_member q c Hinv) as Hd; by rewrite H in Hd end.
  - (* delete group *)
    unfold GroupController.deleteGroup, GroupModel.deleteGroup, Js.bind.
    repeat case_match; simpl; try done; simplify_eq/=.
    all: match goal with H : Collection.deleteOne ?q ?c = _ |- _ =>
           pose proof (deleteOne_Forall admin_is_member q c Hinv) as Hd; by rewrite H in Hd end.
  - (* add member *)
    eapply Forall2_admin_kept; [apply addMember_keeps_admin|done].
  - (* remove member *)
    eapply Forall2_admin_kept; [apply removeMember_keeps_admin|done].
Qed.

(** POST /groups stores the admin and the members it is sent. *)
Lemma createGroup_stores_request env body db :
  status (GroupController.createGroup env body db).2 = 201 →
  ∃ a ms g,
    nonempty (GroupController.cb_adminId body) = Some a
    ∧ GroupController.cb_memberIds body = Some ms
    ∧ groups (GroupController.createGroup env body db).1 = (groups db ++ [g])%list
    ∧ GroupModel.Doc.adminId g = a ∧ GroupModel.Doc.memberIds g = ms.
Proof.
  unfold GroupController.createGroup, GroupModel.createGroup, Collection.insertOne.
  destruct (nonempty (GroupController.cb_name body)) as [name|]; [|done].
  destruct (nonempty (GroupController.cb_adminId body)) as [a|]; [|done].
  destruct (GroupController.cb_memberIds body) as [ms|]; [|done].
  case_bool_decide; [done|]. simpl. intros _.
  by eexists a, ms, _.
Qed.

Lemma createGroup_rejected env body db :
  status (GroupController.createGroup env body db).2 ≠ 201 →
  (GroupController.createGroup env body db).1 = db.
Proof.
  unfold GroupController.createGroup, GroupModel.createGroup, Collection.insertOne.
  repeat case_match; simpl; done.
Qed.

(** The ban cascade leaves the admin in place in every group the banned user
    does not administer. *)
Lemma banUser_keeps_other_admins id adminId db :
  Forall admin_is_member (groups db) →
  Forall (λ g, GroupModel.Doc.adminId g ≠ id → admin_is_member g)
    (groups (UserController.banUser id adminId db).1).
Proof.
  intros Hinv.
  assert (Hsame : Forall (λ g, GroupModel.Doc.adminId g ≠ id → admin_is_member g) (groups db)).
  { eapply Forall_impl; [done|]. auto. }
  unfold UserController.banUser, UserModel.banUser, Js.bind,
    GroupModel.removeUserFromAllGroups.
  repeat case_match; simpl; try done; simplify_eq/=.
  pose proof (updateMany_Forall2
    (λ g g', GroupModel.Doc.adminId g' = GroupModel.Doc.adminId g
             ∧ (GroupModel.Doc.adminId g ≠ id → admin_is_member g → admin_is_member g'))
    (GroupModel.has_member id) (GroupModel.with_memberIds (GroupModel.pull id))
    (groups db)) as Hupd.
  destruct (Collection.updateMany _ _ _) as [c n]. simpl in *.
  assert (Hc : Forall2
    (λ g g', GroupModel.Doc.adminId g' = GroupModel.Doc.adminId g
             ∧ (GroupModel.Doc.adminId g ≠ id → admin_is_member g → admin_is_member g'))
    (groups db) c).
  { apply Hupd; [by intros|]. intros g _. split; [done|].
    unfold admin_is_member. simpl. intros. by apply elem_of_pull. }
  clear Hupd Hsame. revert Hinv. induction Hc as [|g g' c0 c1 [Ha Hk] _ IH]; [done|].
  intros Hinv. apply Forall_cons in Hinv as [Hg Hinv].
  constructor; [|by apply IH]. rewrite Ha. auto.
Qed.

(** C3, as the code has it. From a store in which every group's admin is a
    member:
    - POST /groups stores the admin and the members as sent, so the new group
      has its admin among its members exactly when the request did;
    - POST /users/:id/ban keeps the invariant for every group whose admin is
      not the banned user;
    - every other request (removing and adding members, deleting groups
      included) keeps the invariant for all groups. *)
Theorem admin_stays_a_member :
  ∀ (env : Env) (req : Routes.Request) (db : Db),
    Forall admin_is_member (groups db) →
    match req with
    | Routes.POST_groups body =>
        Forall admin_is_member (groups (Routes.handle env req db).1)
        ↔ (status (Routes.handle env req db).2 = 201 →
           ∀ a ms, GroupController.cb_adminId body = Some a →
                   GroupController.cb_memberIds body = Some ms → a ∈ ms)
    | Routes.POST_users_ban id _ =>
        Forall (λ g, GroupModel.Doc.adminId g ≠ id → admin_is_member g)
          (groups (Routes.handle env req db).1)
    | _ => Forall admin_is_member (groups (Routes.handle env req db).1)
    end.
Proof.
  intros env req db Hinv.
  destruct (creates_or_bans req) eqn:Hreq.
  - destruct req; try discriminate Hreq; simpl.
    + by apply banUser_keeps_other_admins.
    + destruct (decide (status (GroupController.createGroup env body db).2 = 201)) as [Hs|Hs].
      * destruct (createGroup_stores_request env body db Hs)
          as (a & ms & g & Ha & Hms & Hg & Hga & Hgm).
        rewrite Hg. unfold nonempty in Ha.
        destruct (GroupController.cb_adminId body) as [a'|] eqn:Ha'; [|done].
        destruct (Js.truthy (Some a')); [|done]. injection Ha as ->.
        split.
        -- intros Hall _ a0 ms0 [= <-] Hms0. rewrite Hms in Hms0. injection Hms0 as <-.
           apply Forall_app in Hall as [_ Hnew]. apply Forall_inv in Hnew.
           unfold admin_is_member in Hnew. by rewrite Hga, Hgm in Hnew.
        -- intros Hreqok. apply Forall_app. split; [done|]. constructor; [|done].
           unfold admin_is_member. rewrite Hga, Hgm. by apply (Hreqok Hs).
      * rewrite (createGroup_rejected env body db Hs). split; [done|]. by intros _.
  - pose proof (groups_kept_or_deleted env req db Hreq Hinv).
    destruct req; try discriminate Hreq; done.
Qed.

Lemma admin_stays_a_member_witness :
  Forall admin_is_member
    (groups (Routes.handle env0
               (Routes.DELETE_groups_members (oid "9") (Some (oid "2")) (Some (oid "1")))
               db_ana_admin).1).
Proof.
  apply (admin_stays_a_member env0
           (Routes.DELETE_groups_members (oid "9") (Some (oid "2")) (Some (oid "1")))
           db_ana_admin).
  repeat constructor.
Defined.

(** The scenario of the specification: in a group of A, B and C whose admin
    is B, removing B is refused and removing C leaves A and B. *)
Lemma removeMember_scenario :
  GroupController.removeMember (oid "9") (Some (oid "b")) (Some (oid "b")) db_abc
    = (db_abc, respond 400 (JError "Cannot remove group admin"))
  ∧ GroupController.removeMember (oid "9") (Some (oid "c")) (Some (oid "b")) db_abc
    = (with_groups [team_doc (oid "b") [oid "a"; oid "b"]] db_abc,
       respond 200 (JInfo "Member removed successfully")).
Proof. split; reflexivity. Qed.

(** C3 as stated fails at creation and in the ban cascade: a group is created
    with an admin who is not among its members, and banning a group's admin
    pulls them out of its members. *)
Lemma admin_outside_members :
  (Routes.handle env0 (Routes.POST_groups outsider_admin) Routes.empty_db
   = (with_groups [outsider_group] Routes.empty_db,
      respond 201 (JGroup (GroupModel.transformDocument outsider_group)))
   ∧ ¬ admin_is_member outsider_group)
  ∧ (Routes.handle env0 (Routes.POST_users_ban (oid "1") (Some (oid "a"))) db_ana_admin
     = ({| users := [admin_doc; ana_doc (Some true)];
           messages := [];
           groups := [team_doc (oid "1") [oid "2"; oid "3"]] |},
        respond 200 (JInfo "User banned and all data removed successfully"))
     ∧ Forall admin_is_member (groups db_ana_admin)
     ∧ ¬ admin_is_member (team_doc (oid "1") [oid "2"; oid "3"])).
Proof.
  split; [|split; [|split]]; try split; try reflexivity.
  - unfold admin_is_member; simpl. intros H%list_elem_of_In. simpl in H. intuition discriminate.
  - repeat constructor.
  - unfold admin_is_member; simpl. intros H%list_elem_of_In. simpl in H. intuition discriminate.
Qed.

(** ** Duplicate messages *)

Lemma find_none_filter {A} (f : A → bool) (l : list A) :
  List.find f l = None ↔ List.filter f l = [].
Proof.
  induction l as [|x l IH]; simpl; [done|].
  destruct (f x); [done|]. apply IH.
Qed.

Lemma checkDuplicateMessage_count s r t c :
  MessageModel.checkDuplicateMessage s r t c = false ↔ count_key s r t c = 0%nat.
Proof.
  unfold MessageModel.checkDuplicateMessage, count_key, Collection.findOne.
  rewrite bool_decide_eq_false, length_zero_iff_nil, <- find_none_filter.
  split; [|by intros ->; auto].
  intros Hn. destruct (List.find _ c); [|done]. by destruct Hn.
Qed.

Lemma count_key_insert s r t c d :
  MessageModel.same_key s r t d = true →
  count_key s r t (Collection.insertOne d c) = S (count_key s r t c).
Proof.
  intros Hd. unfold count_key, Collection.insertOne.
  rewrite List.filter_app, length_app. simpl. rewrite Hd. simpl. lia.
Qed.

(** C5, as the code has it. Two POST /messages calls with the same
    (senderId, receiverId, timestamp), each passing the handler's checks, from
    a sender who is not banned, for a message that is stored under the
    receiverId it was sent with, on a store that has no message with that
    key: the first is inserted and answered 201, the second is answered 200
    and leaves the store as it is, which then holds exactly one message with
    the key. *)
Theorem repeated_post_is_stored_once :
  ∀ (env env' : Env) (body body' : MessageModel.Message) (db : Db),
    MessageController.validation_error body = None →
    MessageController.validation_error body' = None →
    MessageModel.senderId body' = MessageModel.senderId body →
    MessageModel.receiverId body' = MessageModel.receiverId body →
    MessageModel.timestamp body' = MessageModel.timestamp body →
    Js.or (MessageModel.groupId body) (MessageModel.receiverId body)
      = MessageModel.receiverId body →
    UserModel.isUserBanned (MessageModel.senderId body) (users db) = false →
    count_key (MessageModel.senderId body) (MessageModel.receiverId body)
      (MessageModel.timestamp body) (messages db) = 0%nat →
    let first := MessageController.sendMessage env body db in
    let second := MessageController.sendMessage env' body' first.1 in
    status first.2 = 201
    ∧ status second.2 = 200
    ∧ second.1 = first.1
    ∧ count_key (MessageModel.senderId body) (MessageModel.receiverId body)
        (MessageModel.timestamp body) (messages second.1) = 1%nat.
Proof.
  intros env env' body body' db Hv Hv' Hs Hr Ht Hstored Hban Hnone first second.
  assert (Hfirst : first =
    (with_messages
       (MessageModel.createMessage (insertedId env)
          (MessageController.message_data body) (messages db)).1 db,
     respond 201 (JMessage
       (MessageModel.createMessage (insertedId env)
          (MessageController.message_data body) (messages db)).2))).
  { subst first. unfold MessageController.sendMessage.
    rewrite Hv, Hban.
    by rewrite (proj2 (checkDuplicateMessage_count _ _ _ _) Hnone). }
  assert (Hcount : count_key (MessageModel.senderId body) (MessageModel.receiverId body)
                     (MessageModel.timestamp body) (messages first.1) = 1%nat).
  { rewrite Hfirst. unfold MessageModel.createMessage. simpl.
    rewrite count_key_insert, Hnone; [done|].
    unfold MessageModel.same_key. simpl. rewrite Hstored.
    by rewrite !bool_decide_eq_true_2. }
  assert (Hsecond : second = (first.1,
            respond 200 (JInfo "Duplicate message detected, skipping creation"))).
  { subst second. unfold MessageController.sendMessage at 1.
    rewrite Hv', Hs, Hr, Ht.
    destruct (MessageModel.checkDuplicateMessage _ _ _ (messages first.1)) eqn:Hdup; [done|].
    apply checkDuplicateMessage_count in Hdup. rewrite Hcount in Hdup. done. }
  rewrite Hsecond. simpl. split; [by rewrite Hfirst|]. repeat split; done.
Qed.

Lemma repeated_post_is_stored_once_witness :
  let first := MessageController.sendMessage env0 hello db_read in
  let second := MessageController.sendMessage env1 hello first.1 in
  status first.2 = 201
  ∧ status second.2 = 200
  ∧ second.1 = first.1
  ∧ count_key (MessageModel.senderId hello) (MessageModel.receiverId hello)
      (MessageModel.timestamp hello) (messages second.1) = 1%nat.
Proof.
  apply (repeated_post_is_stored_once env0 env1 hello hello db_read); reflexivity.
Defined.

(** C5 as stated fails: a banned sender's message is answered 403 both times
    and never stored. *)
Lemma banned_sender_is_stored_never :
  let first := MessageController.sendMessage env0 hello db_ana_banned in
  let second := MessageController.sendMessage env1 hello first.1 in
  MessageController.validation_error hello = None
  ∧ status first.2 = 403
  ∧ status second.2 = 403
  ∧ count_key (MessageModel.senderId hello) (MessageModel.receiverId hello)
      (MessageModel.timestamp hello) (messages second.1) = 0%nat.
Proof. repeat split; reflexivity. Qed.

(** Outside the theorem's conditions: the duplicate check looks for the
    receiverId of the request while a group message is stored under its
    groupId, so a group message sent with another receiverId is inserted
    each time it is posted. *)
Lemma group_post_is_stored_twice :
  let first := MessageController.sendMessage env0 to_group db_read in
  let second := MessageController.sendMessage env1 to_group first.1 in
  status first.2 = 201
  ∧ status second.2 = 201
  ∧ count_key (MessageModel.senderId to_group) (MessageModel.groupId to_group)
      (MessageModel.timestamp to_group) (messages second.1) = 2%nat
  ∧ count_key (MessageModel.senderId to_group) (MessageModel.receiverId to_group)
      (MessageModel.timestamp to_group) (messages second.1) = 0%nat.
Proof. repeat split; reflexivity. Qed.

(** ** Direct messages in both directions *)

#[local] Instance ts_le_trans : Transitive MessageModel.ts_le.
Proof. intros [x|] [y|] [z|]; simpl; try done. lia. Qed.

#[local] Instance ts_le_total : Total MessageModel.ts_le.
Proof. intros [x|] [y|]; simpl; auto. lia. Qed.

#[local] Instance doc_le_trans : Transitive MessageModel.doc_le.
Proof. intros x y z. unfold MessageModel.doc_le. apply ts_le_trans. Qed.

#[local] Instance doc_le_total : Total MessageModel.doc_le.
Proof. intros x y. unfold MessageModel.doc_le. apply ts_le_total. Qed.

#[local] Instance msg_le_trans : Transitive msg_le.
Proof. intros x y z. unfold msg_le. apply ts_le_trans. Qed.

Lemma Sorted_take {A} (R : relation A) `{!Transitive R} n (l : list A) :
  Sorted R l → Sorted R (take n l).
Proof.
  intros Hs. apply Sorted_StronglySorted in Hs; [|done].
  apply StronglySorted_Sorted.
  rewrite <- (take_drop n l) in Hs. by apply StronglySorted_app_1_l in Hs.
Qed.

Lemma Sorted_filter {A} (R : relation A) `{!Transitive R} (f : A → bool) (l : list A) :
  Sorted R l → Sorted R (List.filter f l).
Proof.
  intros Hs. apply Sorted_StronglySorted in Hs; [|done].
  apply StronglySorted_Sorted.
  induction Hs as [|x l Hl IH Hx]; simpl; [constructor|].
  destruct (f x); [|done]. constructor; [done|]. by apply filter_Forall.
Qed.

Lemma between_sym a b d : MessageModel.between a b d = MessageModel.between b a d.
Proof. unfold MessageModel.between. apply orb_comm. Qed.

Lemma local_between_sym a b m : ApiService.local_between a b m = ApiService.local_between b a m.
Proof. unfold ApiService.local_between. apply orb_comm. Qed.

Lemma getMessagesBetweenUsers_sym a b c :
  MessageModel.getMessagesBetweenUsers a b c = MessageModel.getMessagesBetweenUsers b a c.
Proof.
  unfold MessageModel.getMessagesBetweenUsers, Collection.find.
  by rewrite (List.filter_ext _ _ (between_sym a b)).
Qed.

Lemma getMessagesBetweenUsers_sorted a b c :
  Sorted msg_le (MessageModel.getMessagesBetweenUsers a b c)
  ∧ (length (MessageModel.getMessagesBetweenUsers a b c) ≤ 500)%nat.
Proof.
  unfold MessageModel.getMessagesBetweenUsers. split.
  - apply (Sorted_fmap _ MessageModel.doc_le); [done|].
    apply Sorted_take; [apply _|]. apply Sorted_merge_sort. apply _.
  - rewrite length_fmap, length_take. lia.
Qed.

Lemma request_live env db req st :
  ApiService.BASE_URL st ≠ "LOCAL_MOCK" →
  Http.ok (status (Routes.handle env req db).2) = true →
  ApiService.request (ApiService.live env db) req st
  = (ApiService.attempted true st, Js.Return (Some (json (Routes.handle env req db).2))).
Proof.
  intros Hm Hok. unfold ApiService.request, ApiService.live.
  rewrite bool_decide_false by done. by rewrite Hok.
Qed.

Lemma nonempty_Some s : s ≠ "" → nonempty (Some s) = Some s.
Proof. intros Hs. unfold nonempty. simpl. by rewrite bool_decide_false. Qed.

Lemma getMessages_live env db a b st :
  ApiService.BASE_URL st ≠ "LOCAL_MOCK" → a ≠ "" → b ≠ "" →
  returned_messages (ApiService.getMessages (ApiService.live env db) a b st)
  = Some (MessageModel.getMessagesBetweenUsers a b (messages db)).
Proof.
  intros Hm Ha Hb.
  assert (Hh : Routes.handle env (Routes.GET_messages (Some a) (Some b) None) db
               = (db, respond 200 (JMessages
                    (MessageModel.getMessagesBetweenUsers a b (messages db))))).
  { unfold Routes.handle, MessageController.getMessages.
    change (nonempty None) with (@None string).
    by rewrite (nonempty_Some a Ha), (nonempty_Some b Hb). }
  unfold ApiService.getMessages.
  rewrite request_live; [|done|by rewrite Hh]. by rewrite Hh.
Qed.

Lemma getMessages_local net a b st :
  unreachable net st →
  returned_messages (ApiService.getMessages net a b st)
  = Some (List.filter (ApiService.local_between a b) (ApiService.connect_temp_msgs st)).
Proof.
  intros Hu. unfold ApiService.getMessages.
  destruct (request_unreachable net
              (Routes.GET_messages (Some a) (Some b) None) st Hu) as (st' & -> & _ & Hmsgs & _).
  simpl. by rewrite Hmsgs.
Qed.

(** C6, as the code has it. The direct history is the same list asked for
    either way round, on the remote path and on the local one. What the
    backend answers is in ascending order of time stamp (and at most 500
    long); what the local fallback answers is the stored list filtered, in
    the order it is stored in, so it is in ascending order when the stored
    list is. *)
Theorem direct_history_is_symmetric :
  ∀ (a b : string) (st : ApiService.Client),
    (∀ (env env' : Env) (db : Db),
       ApiService.BASE_URL st ≠ "LOCAL_MOCK" → a ≠ "" → b ≠ "" →
       ∃ l, returned_messages (ApiService.getMessages (ApiService.live env db) a b st) = Some l
            ∧ returned_messages (ApiService.getMessages (ApiService.live env' db) b a st) = Some l
            ∧ Sorted msg_le l ∧ (length l ≤ 500)%nat)
    ∧ (∀ (net net' : ApiService.Network),
         unreachable net st → unreachable net' st →
         ∃ l, returned_messages (ApiService.getMessages net a b st) = Some l
              ∧ returned_messages (ApiService.getMessages net' b a st) = Some l
              ∧ l = List.filter (ApiService.local_between a b) (ApiService.connect_temp_msgs st)
              ∧ (Sorted msg_le (ApiService.connect_temp_msgs st) → Sorted msg_le l)).
Proof.
  intros a b st. split.
  - intros env env' db Hm Ha Hb.
    exists (MessageModel.getMessagesBetweenUsers a b (messages db)).
    rewrite !getMessages_live by done.
    split; [done|]. split; [by rewrite getMessagesBetweenUsers_sym|].
    apply getMessagesBetweenUsers_sorted.
  - intros net net' Hu Hu'.
    eexists. rewrite !getMessages_local by done.
    split; [done|]. split.
    { by rewrite (List.filter_ext _ _ (local_between_sym b a)). }
    split; [done|]. apply Sorted_filter. apply _.
Qed.

Lemma direct_history_is_symmetric_witness :
  (∃ l, returned_messages
          (ApiService.getMessages (ApiService.live env0 db_three) (oid "1") (oid "a")
             fresh_client) = Some l
        ∧ returned_messages
            (ApiService.getMessages (ApiService.live env1 db_three) (oid "a") (oid "1")
               fresh_client) = Some l
        ∧ Sorted msg_le l ∧ (length l ≤ 500)%nat)
  ∧ (∃ l, returned_messages (ApiService.getMessages offline (oid "1") (oid "a") fresh_client)
          = Some l
          ∧ returned_messages (ApiService.getMessages offline (oid "a") (oid "1") fresh_client)
            = Some l
          ∧ l = List.filter (ApiService.local_between (oid "1") (oid "a"))
                  (ApiService.connect_temp_msgs fresh_client)
          ∧ (Sorted msg_le (ApiService.connect_temp_msgs fresh_client) → Sorted msg_le l)).
Proof.
  destruct (direct_history_is_symmetric (oid "1") (oid "a") fresh_client) as [Hremote Hlocal].
  split.
  - apply (Hremote env0 env1 db_three); discriminate.
  - apply (Hlocal offline offline); right; intros req; exact I.
Defined.

(** The scenario of the specification: posted with time stamps 300, 100 and
    200, the messages come back as 100, 200, 300. *)
Lemma direct_history_scenario :
  MessageModel.timestamp <$>
    MessageModel.getMessagesBetweenUsers (oid "1") (oid "a") (messages db_three)
  = [Some 100; Some 200; Some 300].
Proof. reflexivity. Qed.

(** C6 as stated fails on the local path: the list comes back in stored
    order, a message of time 300 before one of time 100. *)
Lemma local_history_is_not_sorted :
  unreachable offline client_out_of_order
  ∧ returned_messages
      (ApiService.getMessages offline (oid "1") (oid "a") client_out_of_order)
    = Some [text_msg "3" (oid "1") (oid "a") "second" 300;
            text_msg "2" (oid "a") (oid "1") "first" 100]
  ∧ ¬ Sorted msg_le [text_msg "3" (oid "1") (oid "a") "second" 300;
                     text_msg "2" (oid "a") (oid "1") "first" 100].
Proof.
  split; [by right|]. split; [reflexivity|].
  intros Hs. apply Sorted_inv in Hs as [_ Hhd]. apply HdRel_inv in Hhd.
  unfold msg_le in Hhd. simpl in Hhd. lia.
Qed.

(** ** Registering twice *)

Lemma updateOne_Forall {D} `{EqDecision D} (P : D → Prop) q upd (c : list D) :
  (∀ d, P d → P (upd d)) → Forall P c → Forall P (Collection.updateOne q upd c).1.
Proof.
  intros Hupd. induction 1 as [|x c Hx Hc IH]; simpl; [done|].
  destruct (q x).
  - simpl. constructor; auto.
  - destruct (Collection.updateOne q upd c). simpl in *. by constructor.
Qed.

(** An update that does not touch what a query reads leaves the query's first
    match in place. *)
Lemma updateOne_findOne {D} `{EqDecision D} q q' upd (c : list D) d :
  (∀ x, q' (upd x) = q' x) →
  Collection.findOne q' c = Some d →
  ∃ d', Collection.findOne q' (Collection.updateOne q upd c).1 = Some d'
        ∧ (d' = d ∨ d' = upd d).
Proof.
  intros Hq'. unfold Collection.findOne.
  induction c as [|x c IH]; simpl; [done|].
  destruct (q x) eqn:Hq; simpl.
  - rewrite Hq'. destruct (q' x).
    + intros [= ->]. eauto.
    + intros Hf. eauto.
  - intros Hf. destruct (Collection.updateOne q upd c) as [r n] eqn:Hr. simpl in *.
    destruct (q' x); [eauto|]. by apply IH.
Qed.

Lemma findOne_insertOne {D} (q : D → bool) (c : list D) d :
  Collection.findOne q c = None → q d = true →
  Collection.findOne q (Collection.insertOne d c) = Some d.
Proof.
  unfold Collection.findOne, Collection.insertOne.
  induction c as [|x c IH]; simpl; [by intros _ ->|].
  destruct (q x); [done|]. apply IH.
Qed.

Lemma new_nonempty s r : ObjectId.new s = Js.Return r → s ≠ "".
Proof. intros Hn ->. discriminate Hn. Qed.

Lemma nonempty_inv v s : nonempty v = Some s → v = Some s ∧ s ≠ "".
Proof.
  unfold nonempty. destruct v as [x|]; [|done]. simpl.
  case_bool_decide; simpl; [done|]. by intros [= ->].
Qed.

(** POST /users on a store with canonical ids: the answer is the user with
    that e-mail address, the one found or the one created, and afterwards
    that user is the first with the address. *)
Lemma registerUser_server env body db username email :
  nonempty (UserController.rb_username body) = Some username →
  nonempty (UserController.rb_email body) = Some email →
  canonical_ids (users db) →
  ObjectId.new (insertedId env) = Js.Return (insertedId env) →
  (Collection.findOne (UserModel.by_email (Some email)) (users db) = None →
   UserModel.validator
     (UserModel.userDoc (insertedId env)
        (UserController.new_user env username email body)) = true) →
  ∃ user d,
    (UserController.registerUser env body db).2
      = respond (match Collection.findOne (UserModel.by_email (Some email)) (users db) with
                 | Some _ => 200
                 | None => 201
                 end) (JUser user)
    ∧ UserModel.email user = Some email
    ∧ UserModel.id user = UserModel.Doc._id d
    ∧ UserModel.id user
      = from_option UserModel.Doc._id (insertedId env)
          (Collection.findOne (UserModel.by_email (Some email)) (users db))
    ∧ Collection.findOne (UserModel.by_email (Some email))
        (users (UserController.registerUser env body db).1) = Some d
    ∧ canonical_ids (users (UserController.registerUser env body db).1).
Proof.
  intros Hu He Hwf Hoid Hvalid.
  unfold UserController.registerUser, UserModel.findUserByEmail.
  rewrite Hu, He.
  destruct (Collection.findOne (UserModel.by_email (Some email)) (users db)) as [d|] eqn:Hf.
  - simpl.
    assert (Hd : d ∈ users db ∧ UserModel.by_email (Some email) d = true).
    { unfold Collection.findOne in Hf. apply find_some in Hf as [? ?].
      split; [by apply list_elem_of_In|done]. }
    destruct Hd as [Hin Hmail].
    assert (Hdid : ObjectId.new (UserModel.Doc._id d) = Js.Return (UserModel.Doc._id d)).
    { unfold canonical_ids in Hwf. rewrite Forall_forall in Hwf. by apply Hwf. }
    unfold UserModel.updateLastSeen, ObjectId.toString. rewrite Hdid. simpl.
    destruct (updateOne_findOne (UserModel.by_id (UserModel.Doc._id d))
                (UserModel.by_email (Some email)) (UserModel.set_lastSeen (now env))
                (users db) d) as (d' & Hf' & Hd'); [done|done|].
    exists (UserModel.transformDocument d), d'.
    split; [done|]. split.
    { simpl. unfold UserModel.by_email in Hmail. by apply bool_decide_eq_true in Hmail. }
    split; [by destruct Hd' as [-> | ->]|].
    split; [done|]. split; [done|].
    apply updateOne_Forall; [|done]. by intros [].
  - simpl. unfold UserModel.createUser, UserModel.insertOne, Js.bind.
    rewrite (Hvalid eq_refl). simpl. rewrite Hf. simpl.
    eexists _, _. split_and!.
    5:{ apply findOne_insertOne; [done|].
        unfold UserModel.by_email. simpl. by rewrite bool_decide_eq_true_2. }
    all: try done.
    apply Forall_app. split; [done|]. by constructor.
Qed.

Lemma registerUser_remote env db time rnd userData st username email :
  ApiService.BASE_URL st ≠ "LOCAL_MOCK" →
  nonempty (ApiService.pu_username userData) = Some username →
  nonempty (ApiService.pu_email userData) = Some email →
  canonical_ids (users db) →
  ObjectId.new (insertedId env) = Js.Return (insertedId env) →
  (Collection.findOne (UserModel.by_email (Some email)) (users db) = None →
   UserModel.validator
     (UserModel.userDoc (insertedId env)
        (UserController.new_user env username email (ApiService.register_body userData)))
     = true) →
  let answer := Routes.handle env (Routes.POST_users (ApiService.register_body userData)) db in
  ∃ user d,
    ApiService.registerUser (ApiService.live env db) time rnd userData st
      = (ApiService.attempted true st, Js.Return (Some (JUser user)))
    ∧ UserModel.email user = Some email
    ∧ UserModel.id user ≠ ""
    ∧ UserModel.id user
      = from_option UserModel.Doc._id (insertedId env)
          (Collection.findOne (UserModel.by_email (Some email)) (users db))
    ∧ Collection.findOne (UserModel.by_email (Some email)) (users answer.1) = Some d
    ∧ UserModel.Doc._id d = UserModel.id user
    ∧ canonical_ids (users answer.1).
Proof.
  intros Hm Hu He Hwf Hoid Hvalid answer.
  destruct (registerUser_server env (ApiService.register_body userData) db username email
              Hu He Hwf Hoid Hvalid) as (user & d & Hres & Hmail & Hid & Hfrom & Hfind & Hwf').
  fold (Routes.handle env (Routes.POST_users (ApiService.register_body userData)) db) in *.
  fold answer in Hres, Hfind, Hwf'.
  exists user, d. unfold ApiService.registerUser.
  rewrite request_live; [|done|].
  2:{ fold answer. rewrite Hres. by destruct (Collection.findOne _ _). }
  fold answer. rewrite Hres. simpl.
  split; [done|]. split; [done|]. split.
  { rewrite Hid. unfold canonical_ids in Hwf'. rewrite Forall_forall in Hwf'.
    eapply new_nonempty, Hwf'.
    unfold Collection.findOne in Hfind. apply find_some in Hfind as [? _].
    by apply list_elem_of_In. }
  done.
Qed.

Lemma find_app_new {A} (f : A → bool) (l : list A) x :
  List.find f l = None → f x = true → List.find f (l ++ [x]) = Some x.
Proof.
  induction l as [|y l IH]; simpl; [by intros _ ->|].
  destruct (f y); [done|]. apply IH.
Qed.

(** [registerUser] without the remote: the answer is the local user with the
    e-mail address, the first one stored or a new one, which is then stored
    last; afterwards that user is the first with the address. *)
Lemma registerUser_local net time rnd userData st :
  unreachable net st →
  ∃ st1 user,
    ApiService.registerUser net time rnd userData st = (st1, Js.Return (Some (JUser user)))
    ∧ UserModel.email user = ApiService.pu_email userData
    ∧ ApiService.BASE_URL st1 = ApiService.BASE_URL st
    ∧ List.find (λ u, Js.seq (UserModel.email u) (ApiService.pu_email userData))
        (ApiService.connect_mock_users st1) = Some user
    ∧ match List.find (λ u, Js.seq (UserModel.email u) (ApiService.pu_email userData))
              (ApiService.connect_mock_users st) with
      | Some existing =>
          user = existing
          ∧ ApiService.connect_mock_users st1 = ApiService.connect_mock_users st
      | None =>
          UserModel.id user = "u-" +:+ rnd
          ∧ ApiService.connect_mock_users st1
            = (ApiService.connect_mock_users st ++ [user])%list
      end.
Proof.
  intros Hu. unfold ApiService.registerUser.
  destruct (request_unreachable net
              (Routes.POST_users (ApiService.register_body userData)) st Hu)
    as (st' & -> & Husers & _ & Hurl).
  simpl.
  destruct (List.find _ (ApiService.connect_mock_users st')) as [existing|] eqn:Hf.
  - exists st', existing. split; [done|].
    pose proof Hf as Hf'. apply find_some in Hf' as [_ Hmail].
    unfold Js.seq in Hmail. apply bool_decide_eq_true in Hmail.
    split; [done|]. split; [done|]. split; [done|].
    by rewrite <- Husers, Hf.
  - eexists _, _. split; [done|]. split; [done|]. split; [done|].
    split.
    + simpl. apply find_app_new; [done|]. simpl. unfold Js.seq.
      by rewrite bool_decide_eq_true_2.
    + rewrite <- Husers, Hf. done.
Qed.

(** C4. For a user name and an e-mail address that are present and non-empty,
    [registerUser] returns a user with that address and a non-empty id, and a
    second call with the address returns the same id: when the backend
    answers both calls (its stored ids being ObjectIds, and the first
    registration being one the validator of the users collection lets
    through), and when the remote is out of reach for both and the local
    store answers. A call answered by the backend leaves the local users
    alone; the second local call stores nothing, and addresses that were
    stored once are stored once afterwards. *)
Theorem registerUser_returns_one_user_per_email :
  ∀ (userData userData' : ApiService.PartialUser) (username username' email : string)
    (time time' : Z) (rnd rnd' : string) (st : ApiService.Client),
    nonempty (ApiService.pu_username userData) = Some username →
    nonempty (ApiService.pu_username userData') = Some username' →
    nonempty (ApiService.pu_email userData) = Some email →
    ApiService.pu_email userData' = ApiService.pu_email userData →
    (∀ (env env' : Env) (db : Db),
       ApiService.BASE_URL st ≠ "LOCAL_MOCK" →
       canonical_ids (users db) →
       ObjectId.new (insertedId env) = Js.Return (insertedId env) →
       ObjectId.new (insertedId env') = Js.Return (insertedId env') →
       UserModel.validator
         (UserModel.userDoc (insertedId env)
            (UserController.new_user env username email
               (ApiService.register_body userData))) = true →
       let first := ApiService.registerUser (ApiService.live env db) time rnd userData st in
       let db1 :=
         (Routes.handle env (Routes.POST_users (ApiService.register_body userData)) db).1 in
       let second :=
         ApiService.registerUser (ApiService.live env' db1) time' rnd' userData' first.1 in
       ∃ u1 u2,
         returned_user first = Some u1 ∧ returned_user second = Some u2
         ∧ UserModel.email u1 = Some email ∧ UserModel.id u1 ≠ ""
         ∧ UserModel.email u2 = Some email ∧ UserModel.id u2 = UserModel.id u1
         ∧ ApiService.connect_mock_users second.1 = ApiService.connect_mock_users st)
    ∧ (∀ (net net' : ApiService.Network),
         unreachable net st → unreachable net' st → local_ids st →
         let first := ApiService.registerUser net time rnd userData st in
         let second := ApiService.registerUser net' time' rnd' userData' first.1 in
         ∃ u1 u2,
           returned_user first = Some u1 ∧ returned_user second = Some u2
           ∧ UserModel.email u1 = Some email ∧ UserModel.id u1 ≠ ""
           ∧ UserModel.email u2 = Some email ∧ UserModel.id u2 = UserModel.id u1
           ∧ ApiService.connect_mock_users second.1 = ApiService.connect_mock_users first.1
           ∧ (NoDup (local_emails st) → NoDup (local_emails second.1))).
Proof.
  intros userData userData' username username' email time time' rnd rnd' st
    Hname Hname' Hmail Hsame.
  pose proof (nonempty_inv _ _ Hmail) as [Hemail _].
  split.
  - intros env env' db Hurl Hwf Hoid Hoid' Hvalid first db1 second.
    destruct (registerUser_remote env db time rnd userData st username email
                Hurl Hname Hmail Hwf Hoid (λ _, Hvalid))
      as (u1 & d & H1 & Hm1 & Hid1 & _ & Hf1 & Hd1 & Hwf1).
    fold db1 in Hf1, Hwf1. fold first in H1.
    assert (Hmail' : nonempty (ApiService.pu_email userData') = Some email) by by rewrite Hsame.
    destruct (registerUser_remote env' db1 time' rnd' userData' first.1 username' email)
      as (u2 & d2 & H2 & Hm2 & _ & Hid2 & _); try done.
    { by rewrite H1. }
    { intros Hnone. by rewrite Hnone in Hf1. }
    fold second in H2. rewrite Hf1 in Hid2. simpl in Hid2.
    exists u1, u2. unfold returned_user. rewrite H1, H2. simpl.
    split_and!; try done; [by rewrite Hid2, Hd1|by rewrite H1].
  - intros net net' Hu Hu' Hids first second.
    destruct (registerUser_local net time rnd userData st Hu)
      as (st1 & u1 & H1 & Hm1 & Hurl1 & Hfind1 & Hcase).
    fold first in H1.
    assert (Hu1 : unreachable net' st1).
    { destruct Hu' as [?|?]; [left; congruence|by right]. }
    destruct (registerUser_local net' time' rnd' userData' first.1)
      as (st2 & u2 & H2 & Hm2 & _ & _ & Hcase2).
    { by rewrite H1. }
    fold second in H2. rewrite H1 in Hcase2. simpl in Hcase2.
    rewrite Hsame, Hfind1 in Hcase2. destruct Hcase2 as [-> Hstore2].
    exists u1, u1. unfold returned_user. rewrite H1, H2. simpl.
    split_and!; try done.
    + congruence.
    + destruct (List.find _ (ApiService.connect_mock_users st)) as [existing|] eqn:Hf.
      * destruct Hcase as [-> _]. apply find_some in Hf as [Hin _].
        unfold local_ids in Hids. rewrite Forall_forall in Hids.
        by apply Hids, list_elem_of_In.
      * destruct Hcase as [-> _]. done.
    + congruence.
    + unfold local_emails. rewrite Hstore2.
      destruct (List.find _ (ApiService.connect_mock_users st)) as [existing|] eqn:Hf.
      * destruct Hcase as [_ ->]. done.
      * destruct Hcase as [_ ->]. rewrite fmap_app. simpl. intros Hnd.
        apply NoDup_app. split; [done|]. split; [|apply NoDup_singleton].
        intros e He ->%list_elem_of_singleton.
        apply list_elem_of_fmap in He as (u & Hue & Hin).
        apply list_elem_of_In in Hin.
        apply (find_none _ _ Hf) in Hin. unfold Js.seq in Hin.
        apply bool_decide_eq_false in Hin. congruence.
Qed.

Lemma registerUser_returns_one_user_per_email_witness :
  (let first :=
     ApiService.registerUser (ApiService.live env0 Routes.empty_db) 10 "k3j9x0q1z" ana
       fresh_client in
   let db1 :=
     (Routes.handle env0 (Routes.POST_users (ApiService.register_body ana))
        Routes.empty_db).1 in
   let second :=
     ApiService.registerUser (ApiService.live env1 db1) 20 "p0o9i8u7y" ana first.1 in
   ∃ u1 u2,
     returned_user first = Some u1 ∧ returned_user second = Some u2
     ∧ UserModel.email u1 = Some "ana@x.com" ∧ UserModel.id u1 ≠ ""
     ∧ UserModel.email u2 = Some "ana@x.com" ∧ UserModel.id u2 = UserModel.id u1
     ∧ ApiService.connect_mock_users second.1 = ApiService.connect_mock_users fresh_client)
  ∧ (let first := ApiService.registerUser offline 10 "k3j9x0q1z" ana fresh_client in
     let second := ApiService.registerUser offline 20 "p0o9i8u7y" ana first.1 in
     ∃ u1 u2,
       returned_user first = Some u1 ∧ returned_user second = Some u2
       ∧ UserModel.email u1 = Some "ana@x.com" ∧ UserModel.id u1 ≠ ""
       ∧ UserModel.email u2 = Some "ana@x.com" ∧ UserModel.id u2 = UserModel.id u1
       ∧ ApiService.connect_mock_users second.1 = ApiService.connect_mock_users first.1
       ∧ (NoDup (local_emails fresh_client) → NoDup (local_emails second.1))).
Proof.
  destruct (registerUser_returns_one_user_per_email ana ana "Ana" "Ana" "ana@x.com"
              10 20 "k3j9x0q1z" "p0o9i8u7y" fresh_client) as [Hremote Hlocal];
    try reflexivity.
  split.
  - apply (Hremote env0 env1 Routes.empty_db);
      [discriminate | constructor | reflexivity | reflexivity | reflexivity].
  - apply (Hlocal offline offline);
      [right; intros req; exact I | right; intros req; exact I | constructor].
Defined.

(** The scenario of the specification: with the remote out of reach, Ana is
    given a generated id, and the same one when she registers again; one
    record is stored. *)
Lemma registerUser_scenario :
  let first := ApiService.registerUser offline 10 "k3j9x0q1z" ana fresh_client in
  let second := ApiService.registerUser offline 20 "p0o9i8u7y" ana first.1 in
  (UserModel.id <$> returned_user first) = Some "u-k3j9x0q1z"
  ∧ (UserModel.id <$> returned_user second) = Some "u-k3j9x0q1z"
  ∧ length (ApiService.connect_mock_users second.1) = 1%nat.
Proof. repeat split; reflexivity. Qed.

(** The two standing assumptions of C4 hold of every state the code reaches:
    the backend only stores ids the driver minted, and the local store only
    holds users [registerUser] put there. *)
Lemma canonical_ids_step env req db :
  ObjectId.new (insertedId env) = Js.Return (insertedId env) →
  canonical_ids (users db) →
  canonical_ids (users (Routes.handle env req db).1).
Proof.
  intros Hoid Hinv. unfold canonical_ids in *.
  destruct req; simpl;
    try (unfold_handlers; unfold MessageController.sendMessage,
           MessageController.updateMessageStatus, MessageController.editMessage;
         repeat case_match; simpl; done).
  - (* register *)
    unfold UserController.registerUser, UserModel.updateLastSeen, UserModel.createUser,
      UserModel.insertOne, Collection.insertOne, Js.bind.
    repeat case_match; simpl; try done; simplify_eq/=.
    + apply updateOne_Forall; [|done]. by intros [].
    + apply Forall_app. split; [done|]. by constructor.
  - (* update *)
    unfold UserController.updateUser, UserModel.updateUser, Js.bind.
    repeat case_match; simpl; try done; simplify_eq/=.
    all: match goal with H : Collection.findOneAndUpdate ?q ?u ?c = _ |- _ =>
           pose proof (findOneAndUpdate_Forall canonical q u c) as Hd;
           rewrite H in Hd; apply Hd; [|done] end.
    all: by intros [].
  - (* soft delete *)
    unfold UserController.deleteUser, UserModel.deleteUser, Js.bind.
    repeat case_match; simpl; try done; simplify_eq/=.
    all: match goal with H : Collection.updateOne ?q ?u ?c = _ |- _ =>
           pose proof (updateOne_Forall canonical q u c) as Hd;
           rewrite H in Hd; apply Hd; [|done] end.
    all: by intros [].
  - (* ban *)
    unfold UserController.banUser, UserModel.banUser, Js.bind.
    repeat case_match; simpl; try done; simplify_eq/=.
    all: match goal with H : Collection.updateOne ?q ?u ?c = _ |- _ =>
           pose proof (updateOne_Forall canonical q u c) as Hd;
           rewrite H in Hd; apply Hd; [|done] end.
    all: by intros [].
  - (* permanent delete *)
    unfold UserController.permanentlyDeleteUser, UserModel.permanentlyDeleteUser, Js.bind.
    repeat case_match; simpl; try done; simplify_eq/=.
    all: match goal with H : Collection.deleteOne ?q ?c = _ |- _ =>
           pose proof (deleteOne_Forall canonical q c Hinv) as Hd; by rewrite H in Hd end.
  - (* cleanup *)
    unfold UserController.cleanupTestData, UserModel.deleteAllUsersExceptAdmin.
    repeat case_match; simpl; try done; simplify_eq/=.
    match goal with H : Collection.deleteMany ?q (users db) = _ |- _ =>
      pose proof (deleteMany_Forall canonical q (users db) Hinv) as Hd; by rewrite H in Hd end.
Qed.

Lemma local_ids_registerUser net time rnd userData st :
  local_ids st → local_ids (ApiService.registerUser net time rnd userData st).1.
Proof.
  unfold local_ids, ApiService.registerUser, ApiService.request. intros Hinv.
  repeat case_match; simpl; try done; simplify_eq/=; try done.
  all: apply Forall_app; split; [done|]; by constructor.
Qed.

(** ** The validator of the users collection *)

(** The updates that are not checked against the validator cannot break it:
    they write [isBanned], which the schema does not mention, and a
    [lastSeen] that is a time of the clock. *)
Lemma validator_set_isBanned d :
  UserModel.validator (UserModel.set_isBanned d) = UserModel.validator d.
Proof. done. Qed.

Lemma validator_set_lastSeen now d :
  0 ≤ now → UserModel.validator d = true →
  UserModel.validator (UserModel.set_lastSeen now d) = true.
Proof.
  intros Hnow. unfold UserModel.validator.
  destruct d as [? [u|] [e|] [a|] [s|] [l|] ? ?]; simpl; try done.
  intros [Hrest _]%andb_true_iff. apply andb_true_iff. split; [exact Hrest|].
  by apply Z.leb_le.
Qed.

Lemma findOneAndUpdate_checked {D} (P : D → Prop) (q : D → bool) upd (c : list D) :
  Forall P c →
  match (Collection.findOneAndUpdate q upd c).2 with
  | Some x => P x → Forall P (Collection.findOneAndUpdate q upd c).1
  | None => (Collection.findOneAndUpdate q upd c).1 = c
  end.
Proof.
  induction 1 as [|x c Hx Hc IH]; simpl; [done|].
  destruct (q x); simpl; [by constructor|].
  destruct (Collection.findOneAndUpdate q upd c) as [r [y|]]; simpl in *.
  - intros Hy. constructor; auto.
  - by rewrite IH.
Qed.

(** With a clock that is not negative, every stored user of a store reached
    through the API passes the validator. *)
Lemma validator_step env req db :
  0 ≤ now env →
  Forall (λ d, UserModel.validator d = true) (users db) →
  Forall (λ d, UserModel.validator d = true) (users (Routes.handle env req db).1).
Proof.
  intros Hnow Hinv.
  destruct req; simpl;
    try (unfold_handlers; unfold MessageController.sendMessage,
           MessageController.updateMessageStatus, MessageController.editMessage;
         repeat case_match; simpl; done).
  - (* register *)
    unfold UserController.registerUser, UserModel.updateLastSeen, UserModel.createUser,
      UserModel.insertOne, Collection.insertOne, Js.bind.
    repeat case_match; simpl; try done; simplify_eq/=.
    + apply updateOne_Forall; [|done]. intros d. by apply validator_set_lastSeen.
    + apply Forall_app. split; [done|]. constructor; [|done].
      by apply negb_false_iff.
  - (* update *)
    unfold UserController.updateUser, UserModel.updateUser, Js.bind.
    repeat case_match; simpl; try done; simplify_eq/=.
    all: match goal with H : Collection.findOneAndUpdate ?q ?u ?c = _ |- _ =>
           pose proof (findOneAndUpdate_checked (λ d, UserModel.validator d = true)
                         q u c Hinv) as Hd;
           rewrite H in Hd; simpl in Hd end.
    + by apply Hd.
    + by rewrite Hd.
  - (* soft delete *)
    unfold UserController.deleteUser, UserModel.deleteUser, Js.bind.
    repeat case_match; simpl; try done; simplify_eq/=.
    all: match goal with H : Collection.updateOne ?q ?u ?c = _ |- _ =>
           pose proof (updateOne_Forall (λ d, UserModel.validator d = true) q u c) as Hd;
           rewrite H in Hd; apply Hd; [|done] end.
    all: by intros [].
  - (* ban *)
    unfold UserController.banUser, UserModel.banUser, Js.bind.
    repeat case_match; simpl; try done; simplify_eq/=.
    all: match goal with H : Collection.updateOne ?q ?u ?c = _ |- _ =>
           pose proof (updateOne_Forall (λ d, UserModel.validator d = true) q u c) as Hd;
           rewrite H in Hd; apply Hd; [|done] end.
    all: by intros [].
  - (* permanent delete *)
    unfold UserController.permanentlyDeleteUser, UserModel.permanentlyDeleteUser, Js.bind.
    repeat case_match; simpl; try done; simplify_eq/=.
    all: match goal with H : Collection.deleteOne ?q ?c = _ |- _ =>
           pose proof (deleteOne_Forall (λ d, UserModel.validator d = true) q c Hinv) as Hd;
           by rewrite H in Hd end.
  - (* cleanup *)
    unfold UserController.cleanupTestData, UserModel.deleteAllUsersExceptAdmin.
    repeat case_match; simpl; try done; simplify_eq/=.
    match goal with H : Collection.deleteMany ?q (users db) = _ |- _ =>
      pose proof (deleteMany_Forall (λ d, UserModel.validator d = true) q (users db) Hinv)
        as Hd; by rewrite H in Hd end.
Qed.

Lemma stored_users_pass_the_validator trace :
  Forall (λ step, 0 ≤ now step.1) trace →
  Forall (λ d, UserModel.validator d = true) (users (Routes.run trace Routes.empty_db)).
Proof.
  assert (Hrun : ∀ db, Forall (λ step, 0 ≤ now step.1) trace →
            Forall (λ d, UserModel.validator d = true) (users db) →
            Forall (λ d, UserModel.validator d = true) (users (Routes.run trace db))).
  { induction trace as [|[env req] trace IH]; intros db Hclock Hinv; simpl; [done|].
    apply IH; [by apply Forall_inv_tail in Hclock|].
    apply validator_step; [by apply Forall_inv in Hclock|done]. }
  intros Hclock. apply Hrun; [done|]. constructor.
Qed.

(** A registration the validator refuses is answered 400 and stores nothing;
    the gateway, left without a body, registers the user locally. *)
Lemma registerUser_refused env body db username email :
  nonempty (UserController.rb_username body) = Some username →
  nonempty (UserController.rb_email body) = Some email →
  Collection.findOne (UserModel.by_email (Some email)) (users db) = None →
  UserModel.validator
    (UserModel.userDoc (insertedId env) (UserController.new_user env username email body))
    = false →
  UserController.registerUser env body db = (db, respond 400 (JError "Validation error")).
Proof.
  intros Hu He Hf Hv.
  unfold UserController.registerUser, UserModel.findUserByEmail. rewrite Hu, He, Hf. simpl.
  unfold UserModel.createUser, UserModel.insertOne, Js.bind. by rewrite Hv.
Qed.

Lemma registerUser_refused_is_local env db time rnd userData st username email :
  ApiService.BASE_URL st ≠ "LOCAL_MOCK" →
  nonempty (ApiService.pu_username userData) = Some username →
  nonempty (ApiService.pu_email userData) = Some email →
  Collection.findOne (UserModel.by_email (Some email)) (users db) = None →
  UserModel.validator
    (UserModel.userDoc (insertedId env)
       (UserController.new_user env username email (ApiService.register_body userData)))
    = false →
  List.find (λ u, Js.seq (UserModel.email u) (ApiService.pu_email userData))
    (ApiService.connect_mock_users st) = None →
  ∃ u, returned_user (ApiService.registerUser (ApiService.live env db) time rnd userData st)
       = Some u
       ∧ UserModel.id u = "u-" +:+ rnd.
Proof.
  intros Hm Hu He Hf Hv Hlocal.
  unfold ApiService.registerUser, ApiService.request, ApiService.live.
  rewrite bool_decide_eq_false_2 by done. simpl.
  rewrite (registerUser_refused env (ApiService.register_body userData) db username email
             Hu He Hf Hv).
  simpl. rewrite Hlocal. by eexists.
Qed.

(** * More of the backend *)

(** ** What updates and deletions leave alone *)

Section collection_frames.
Context {D : Type} `{EqDecision D}.
Implicit Types (q : D → bool) (upd : D → D) (c : list D).

Lemma updateOne_fmap {B} (f : D → B) q upd c :
  (∀ d, f (upd d) = f d) → f <$> (Collection.updateOne q upd c).1 = f <$> c.
Proof.
  intros Hf. induction c as [|x c IH]; csimpl; [done|].
  destruct (q x); csimpl.
  - by rewrite Hf.
  - destruct (Collection.updateOne q upd c). csimpl in *. by rewrite IH.
Qed.

Lemma findOneAndUpdate_fmap {B} (f : D → B) q upd c :
  (∀ d, f (upd d) = f d) → f <$> (Collection.findOneAndUpdate q upd c).1 = f <$> c.
Proof.
  intros Hf. induction c as [|x c IH]; csimpl; [done|].
  destruct (q x); csimpl.
  - by rewrite Hf.
  - destruct (Collection.findOneAndUpdate q upd c). csimpl in *. by rewrite IH.
Qed.

Lemma updateMany_fmap {B} (f : D → B) q upd c :
  (∀ d, f (upd d) = f d) → f <$> (Collection.updateMany q upd c).1 = f <$> c.
Proof.
  intros Hf. induction c as [|x c IH]; csimpl; [done|].
  destruct (Collection.updateMany q upd c). csimpl in *.
  destruct (q x); csimpl; by rewrite ?Hf, IH.
Qed.

Lemma deleteOne_sublist q c : (Collection.deleteOne q c).1 `sublist_of` c.
Proof.
  induction c as [|x c IH]; simpl; [done|].
  destruct (q x); simpl.
  - by apply sublist_cons.
  - destruct (Collection.deleteOne q c). simpl in *. by apply sublist_skip.
Qed.

Lemma filter_sublist (f : D → bool) c : List.filter f c `sublist_of` c.
Proof.
  induction c as [|x c IH]; simpl; [done|].
  destruct (f x); [by apply sublist_skip|by apply sublist_cons].
Qed.

Lemma deleteMany_sublist q c : (Collection.deleteMany q c).1 `sublist_of` c.
Proof. apply filter_sublist. Qed.

Lemma findOne_None q c : Collection.findOne q c = None → Forall (λ d, q d = false) c.
Proof.
  unfold Collection.findOne. intros Hf. apply Forall_forall. intros d Hd.
  apply list_elem_of_In in Hd. by apply (find_none _ _ Hf).
Qed.

Lemma findOne_Some q c d : Collection.findOne q c = Some d → d ∈ c ∧ q d = true.
Proof.
  unfold Collection.findOne. intros [Hin Hq]%find_some. split; [|done].
  by apply list_elem_of_In.
Qed.

End collection_frames.

(** ** One account per e-mail address *)

Lemma emails_step env req db :
  NoDup (stored_emails db) → NoDup (stored_emails (Routes.handle env req db).1).
Proof.
  unfold stored_emails. intros Hinv.
  destruct req; simpl;
    try (unfold_handlers; unfold MessageController.sendMessage,
           MessageController.updateMessageStatus, MessageController.editMessage;
         repeat case_match; simpl; done).
  - (* register *)
    unfold UserController.registerUser, UserModel.findUserByEmail,
      UserModel.updateLastSeen, UserModel.createUser, UserModel.insertOne,
      Collection.insertOne, Js.bind.
    destruct (nonempty (UserController.rb_username body)) as [username|]; [|done].
    destruct (nonempty (UserController.rb_email body)) as [email|]; [|done].
    destruct (Collection.findOne (UserModel.by_email (Some email)) (users db))
      as [d|] eqn:Hf; simpl.
    + repeat case_match; simpl; try done; simplify_eq/=.
      by rewrite updateOne_fmap.
    + destruct (UserModel.validator _); simpl; [|done].
      rewrite Hf. simpl.
      rewrite fmap_app. simpl. apply NoDup_app. split; [done|].
      split; [|apply NoDup_singleton].
      intros e He ->%list_elem_of_singleton.
      apply list_elem_of_fmap in He as (d & Hd & Hin).
      apply findOne_None in Hf. rewrite Forall_forall in Hf.
      specialize (Hf d Hin). unfold UserModel.by_email in Hf.
      apply bool_decide_eq_false in Hf. congruence.
  - (* update *)
    unfold UserController.updateUser, UserModel.updateUser, Js.bind.
    repeat case_match; simpl; try done; simplify_eq/=.
    all: match goal with H : Collection.findOneAndUpdate ?q ?u ?c = _ |- _ =>
           pose proof (findOneAndUpdate_fmap UserModel.Doc.email q u c) as Hd;
           rewrite H in Hd; simpl in Hd; rewrite Hd; [done|] end.
    all: by intros [].
  - (* soft delete *)
    unfold UserController.deleteUser, UserModel.deleteUser, Js.bind.
    repeat case_match; simpl; try done; simplify_eq/=.
    all: match goal with H : Collection.updateOne ?q ?u ?c = _ |- _ =>
           pose proof (updateOne_fmap UserModel.Doc.email q u c) as Hd;
           rewrite H in Hd; simpl in Hd; rewrite Hd; [done|] end.
    all: by intros [].
  - (* ban *)
    unfold UserController.banUser, UserModel.banUser, Js.bind.
    repeat case_match; simpl; try done; simplify_eq/=.
    all: match goal with H : Collection.updateOne ?q ?u ?c = _ |- _ =>
           pose proof (updateOne_fmap UserModel.Doc.email q u c) as Hd;
           rewrite H in Hd; simpl in Hd; rewrite Hd; [done|] end.
    all: by intros [].
  - (* permanent delete *)
    unfold UserController.permanentlyDeleteUser, UserModel.permanentlyDeleteUser, Js.bind.
    repeat case_match; simpl; try done; simplify_eq/=.
    all: match goal with H : Collection.deleteOne ?q ?c = _ |- _ =>
           pose proof (deleteOne_sublist q c) as Hd; rewrite H in Hd; simpl in Hd end.
    all: eapply sublist_NoDup; [exact Hinv|by apply fmap_sublist].
  - (* cleanup *)
    unfold UserController.cleanupTestData, UserModel.deleteAllUsersExceptAdmin.
    repeat case_match; simpl; try done; simplify_eq/=.
    match goal with H : Collection.deleteMany ?q (users db) = _ |- _ =>
      pose proof (deleteMany_sublist q (users db)) as Hd; rewrite H in Hd; simpl in Hd end.
    eapply sublist_NoDup; [exact Hinv|by apply fmap_sublist].
Qed.

(** X1. In every store reached from the empty one through the API no two
    users have the same e-mail address: registration inserts only when the
    address is not stored yet, and no update writes the address. *)
Theorem emails_are_unique :
  ∀ (trace : list (Env * Routes.Request)),
    NoDup (stored_emails (Routes.run trace Routes.empty_db)).
Proof.
  intros trace.
  assert (Hgen : ∀ db, NoDup (stored_emails db) → NoDup (stored_emails (Routes.run trace db))).
  { induction trace as [|[env req] trace IH]; intros db Hinv; simpl; [done|].
    by apply IH, emails_step. }
  apply Hgen. constructor.
Qed.

(** ** Banning *)

Lemma updateOne_modified {D} `{EqDecision D} (q : D → bool) upd (c : list D) :
  (∀ d, q (upd d) = q d) →
  (Collection.updateOne q upd c).2 = 1 →
  ∃ d, Collection.findOne q c = Some d
       ∧ Collection.findOne q (Collection.updateOne q upd c).1 = Some (upd d).
Proof.
  intros Hq. unfold Collection.findOne.
  induction c as [|x c IH]; simpl; [done|].
  destruct (q x) eqn:Hx; simpl.
  - intros _. exists x. by rewrite Hq, Hx.
  - destruct (Collection.updateOne q upd c) as [r n]. simpl in *.
    intros Hn. destruct (IH Hn) as (d & Hd & Hd'). exists d. by rewrite Hx.
Qed.

Lemma deleteMany_none {D} (q : D → bool) (c : list D) :
  Forall (λ d, q d = false) (Collection.deleteMany q c).1.
Proof.
  unfold Collection.deleteMany. simpl. apply Forall_forall. intros d Hd.
  apply list_elem_of_In, filter_In in Hd as [_ Hq]. by apply negb_true_iff.
Qed.

Lemma removeUserFromAllGroups_none userId c :
  Forall (λ g, userId ∉ GroupModel.Doc.memberIds g)
    (GroupModel.removeUserFromAllGroups userId c).1.
Proof.
  unfold GroupModel.removeUserFromAllGroups.
  induction c as [|g c IH]; simpl; [done|].
  destruct (Collection.updateMany _ _ c) as [r n]. simpl in *.
  destruct (GroupModel.has_member userId g) eqn:Hm; simpl; constructor; try done.
  - simpl. unfold GroupModel.pull. intros Hin%list_elem_of_In%filter_In.
    destruct Hin as [_ Hne]. by rewrite bool_decide_eq_true_2 in Hne.
  - unfold GroupModel.has_member in Hm. by apply bool_decide_eq_false in Hm.
Qed.

Lemma deleteAllMessagesFromUser_none userId c :
  Forall (λ d, ¬ involves userId d) (MessageModel.deleteAllMessagesFromUser userId c).1.
Proof.
  unfold MessageModel.deleteAllMessagesFromUser.
  eapply Forall_impl; [apply deleteMany_none|].
  intros m Hm [Hs|Hr]; simpl in Hm; apply orb_false_iff in Hm as [H1 H2].
  - by apply bool_decide_eq_false in H1.
  - by apply bool_decide_eq_false in H2.
Qed.

(** A banned sender's message is never stored, whatever else is right or
    wrong about the request. *)
Lemma sendMessage_banned env body db :
  UserModel.isUserBanned (MessageModel.senderId body) (users db) = true →
  (MessageController.sendMessage env body db).1 = db
  ∧ status (MessageController.sendMessage env body db).2 ≠ 201.
Proof.
  intros Hb. unfold MessageController.sendMessage. rewrite Hb.
  repeat case_match; simpl; done.
Qed.

(** What a ban that is answered 200 did to the store. *)
Lemma banUser_done id adminId db :
  status (UserController.banUser id adminId db).2 = 200 →
  ∃ o d,
    ObjectId.new id = Js.Return o
    ∧ Collection.findOne (UserModel.by_id o) (users db) = Some d
    ∧ Collection.findOne (UserModel.by_id o) (users (UserController.banUser id adminId db).1)
      = Some (UserModel.set_isBanned d)
    ∧ UserModel.Doc._id <$> users (UserController.banUser id adminId db).1
      = UserModel.Doc._id <$> users db
    ∧ messages (UserController.banUser id adminId db).1
      = (MessageModel.deleteAllMessagesFromUser id (messages db)).1
    ∧ groups (UserController.banUser id adminId db).1
      = (GroupModel.removeUserFromAllGroups id (groups db)).1
    ∧ users (UserController.banUser id adminId db).1
      = (Collection.updateOne (UserModel.by_id o) UserModel.set_isBanned (users db)).1.
Proof.
  unfold UserController.banUser, UserModel.banUser, Js.bind.
  destruct (UserModel.findUserById adminId (users db)) as [admin|]; [|done].
  destruct (negb (Js.truthy_bool (UserModel.isAdmin admin))); [done|].
  destruct (ObjectId.new id) as [o|] eqn:Ho; [|done].
  pose proof (updateOne_modified (UserModel.by_id o) UserModel.set_isBanned (users db)) as Hm.
  pose proof (updateOne_fmap UserModel.Doc._id (UserModel.by_id o) UserModel.set_isBanned
                (users db)) as Hids.
  destruct (Collection.updateOne _ _ (users db)) as [c n] eqn:Hupd. simpl in *.
  case_bool_decide as Hn; simpl; [|done]. intros _.
  destruct Hm as (d & Hd & Hd'); [done|done|].
  exists o, d. split_and!; simpl; try done; [apply Hids; by intros []|by rewrite Hupd].
Qed.

(** X2. After POST /users/:id/ban is answered 200, the id being written the
    way the API hands it out (the stored id, in lower case), the account
    with that id is banned, no stored message has its id as sender or
    receiver while every other message is still stored, no group lists it
    as a member, and nothing posted under that id, however it is written,
    is stored any more. *)
Theorem ban_removes_the_user_everywhere :
  ∀ (id : string) (adminId : Js.str) (db : Db) (o : ObjectId.t),
    ObjectId.new id = Js.Return o →
    ObjectId.toString o = id →
    status (UserController.banUser id adminId db).2 = 200 →
    let db' := (UserController.banUser id adminId db).1 in
    (∃ d, Collection.findOne (UserModel.by_id o) (users db) = Some d
          ∧ Collection.findOne (UserModel.by_id o) (users db')
            = Some (UserModel.set_isBanned d))
    ∧ UserModel.isUserBanned (Some (ObjectId.toString o)) (users db') = true
    ∧ Forall (λ d, ¬ involves (ObjectId.toString o) d) (messages db')
    ∧ (∀ d, d ∈ messages db → ¬ involves (ObjectId.toString o) d → d ∈ messages db')
    ∧ Forall (λ g, ObjectId.toString o ∉ GroupModel.Doc.memberIds g) (groups db')
    ∧ (∀ env body sender,
         MessageModel.senderId body = Some sender →
         ObjectId.new sender = Js.Return o →
         (MessageController.sendMessage env body db').1 = db'
         ∧ status (MessageController.sendMessage env body db').2 ≠ 201).
Proof.
  intros id adminId db o Ho Hstored Hok db'.
  destruct (banUser_done id adminId db Hok)
    as (o' & d & Ho' & Hd & Hd' & _ & Hmsgs & Hgroups & _).
  rewrite Ho in Ho'. injection Ho' as <-.
  fold db' in Hd', Hmsgs, Hgroups. rewrite Hstored.
  assert (Hbanned : ∀ sender, ObjectId.new sender = Js.Return o →
            UserModel.isUserBanned (Some sender) (users db') = true).
  { intros sender Hs. unfold UserModel.isUserBanned, ObjectId.new_str, Js.bind.
    by rewrite Hs, Hd'. }
  split_and!.
  - by exists d.
  - by apply Hbanned.
  - rewrite Hmsgs. apply deleteAllMessagesFromUser_none.
  - intros m Hin Hno. rewrite Hmsgs.
    unfold MessageModel.deleteAllMessagesFromUser, Collection.deleteMany. simpl.
    apply list_elem_of_In, filter_In. split; [by apply list_elem_of_In|].
    apply negb_true_iff, orb_false_iff. unfold involves in Hno.
    split; apply bool_decide_eq_false; tauto.
  - rewrite Hgroups. apply removeUserFromAllGroups_none.
  - intros env body sender Hs Hsender. apply sendMessage_banned.
    rewrite Hs. by apply Hbanned.
Qed.

Lemma ban_removes_the_user_everywhere_witness :
  let db' := (UserController.banUser (oid "1") (Some (oid "a")) db_read).1 in
  UserModel.isUserBanned (Some (oid "1")) (users db') = true
  ∧ Forall (λ d, ¬ involves (oid "1") d) (messages db')
  ∧ (∀ d, d ∈ messages db_read → ¬ involves (oid "1") d → d ∈ messages db')
  ∧ Forall (λ g, oid "1" ∉ GroupModel.Doc.memberIds g) (groups db').
Proof.
  destruct (ban_removes_the_user_everywhere (oid "1") (Some (oid "a")) db_read (oid "1"))
    as (_ & Hbanned & Hnone & Hkept & Hgroups & _).
  - reflexivity.
  - reflexivity.
  - reflexivity.
  - split; [exact Hbanned|]. split; [exact Hnone|]. split; [exact Hkept|exact Hgroups].
Defined.

(** The id has to be written that way. The route takes it in upper case too:
    the account is banned and the answer is 200, but the messages and the
    groups are searched for the string as it came, and stay as they were. *)
Lemma ban_by_upper_case_id_skips_the_cascade :
  let r := UserController.banUser "00000000000000000000000B" (Some (oid "a")) db_bea in
  status r.2 = 200
  ∧ UserModel.isUserBanned (Some (oid "b")) (users r.1) = true
  ∧ messages r.1 = messages db_bea
  ∧ groups r.1 = groups db_bea
  ∧ Exists (involves (oid "b")) (messages r.1)
  ∧ Exists (λ g, oid "b" ∈ GroupModel.Doc.memberIds g) (groups r.1).
Proof.
  split_and!; try reflexivity.
  - apply Exists_cons_hd. by left.
  - apply Exists_cons_hd. apply (bool_decide_unpack _). vm_compute. exact I.
Qed.

(** ** Listing users *)

Lemma getAllUsers_not_banned c :
  Forall (λ u, UserModel.isBanned u ≠ Some true) (UserModel.getAllUsers c).
Proof.
  unfold UserModel.getAllUsers, Collection.find. apply Forall_fmap, Forall_forall.
  intros d Hd. apply list_elem_of_In, filter_In in Hd as [_ Hq]. simpl.
  apply negb_true_iff in Hq. by apply bool_decide_eq_false in Hq.
Qed.

(** The list every requester who is not an admin gets. *)
Lemma getUsers_regular adminId db :
  (∀ admin, UserModel.findUserById adminId (users db) = Some admin →
            Js.truthy_bool (UserModel.isAdmin admin) = false) →
  UserController.getUsers adminId db = UserController.getUsers None db.
Proof.
  intros Hno. unfold UserController.getUsers. simpl.
  destruct (Js.truthy adminId); [|done].
  destruct (UserModel.findUserById adminId (users db)) as [admin|]; [|done].
  by rewrite (Hno admin eq_refl).
Qed.

(** X3. GET /users never changes the store and always answers 200 with a
    list. For a requester who is not an admin (no adminId, an unknown or
    malformed one, or a regular user's) the list is the same as without an
    adminId and holds no banned user and no admin; for an admin it holds
    every stored user, banned ones included. *)
Theorem user_list_by_requester :
  ∀ (adminId : Js.str) (db : Db),
    (UserController.getUsers adminId db).1 = db
    ∧ status (UserController.getUsers adminId db).2 = 200
    ∧ ((∀ admin, UserModel.findUserById adminId (users db) = Some admin →
                 Js.truthy_bool (UserModel.isAdmin admin) = false) →
       UserController.getUsers adminId db = UserController.getUsers None db
       ∧ ∃ l, listed_users (UserController.getUsers adminId db).2 = Some l
              ∧ Forall (λ u, UserModel.isBanned u ≠ Some true
                             ∧ Js.truthy_bool (UserModel.isAdmin u) = false) l)
    ∧ (∀ admin, Js.truthy adminId = true →
                UserModel.findUserById adminId (users db) = Some admin →
                Js.truthy_bool (UserModel.isAdmin admin) = true →
                listed_users (UserController.getUsers adminId db).2
                = Some (UserModel.transformDocument <$> users db)).
Proof.
  intros adminId db. split_and!.
  - unfold UserController.getUsers. repeat case_match; done.
  - unfold UserController.getUsers. repeat case_match; done.
  - intros Hno. split; [by apply getUsers_regular|].
    rewrite (getUsers_regular adminId db Hno). unfold UserController.getUsers. simpl.
    eexists. split; [done|]. apply Forall_forall. intros u Hu.
    apply list_elem_of_In, filter_In in Hu as [Hin Hadm]. split.
    + pose proof (getAllUsers_not_banned (users db)) as Hb.
      rewrite Forall_forall in Hb. by apply Hb, list_elem_of_In.
    + by apply negb_true_iff.
  - intros admin Ht Hf Ha. unfold UserController.getUsers.
    by rewrite Ht, Hf, Ha.
Qed.

Lemma user_list_by_requester_witness :
  (UserController.getUsers (Some (oid "1")) db_ana_banned).1 = db_ana_banned
  ∧ status (UserController.getUsers (Some (oid "1")) db_ana_banned).2 = 200
  ∧ (UserController.getUsers (Some (oid "1")) db_ana_banned
     = UserController.getUsers None db_ana_banned
     ∧ ∃ l, listed_users (UserController.getUsers (Some (oid "1")) db_ana_banned).2 = Some l
            ∧ Forall (λ u, UserModel.isBanned u ≠ Some true
                           ∧ Js.truthy_bool (UserModel.isAdmin u) = false) l)
  ∧ listed_users (UserController.getUsers (Some (oid "a")) db_ana_banned).2
    = Some (UserModel.transformDocument <$> users db_ana_banned).
Proof.
  destruct (user_list_by_requester (Some (oid "1")) db_ana_banned) as (H1 & H2 & H3 & _).
  destruct (user_list_by_requester (Some (oid "a")) db_ana_banned) as (_ & _ & _ & H4).
  split; [exact H1|]. split; [exact H2|]. split.
  - apply H3. intros admin [= <-]. reflexivity.
  - apply (H4 (UserModel.transformDocument admin_doc)); reflexivity.
Defined.

Lemma filter_none {A} (f : A → bool) (l : list A) :
  Forall (λ x, f x = false) l → List.filter f l = [].
Proof. induction 1 as [|x l Hx _ IH]; simpl; [done|]. by rewrite Hx. Qed.

(** X4. The scenario of a ban, for stores whose user ids are distinct: once
    POST /users/:id/ban is answered 200, the list a regular user gets no
    longer holds the account with that id and, the id having been written
    the way the API hands it out (the stored id, in lower case), the direct
    history of that id with anyone is empty, asked for either way round. *)
Theorem banned_user_disappears :
  ∀ (id : string) (adminId : Js.str) (db : Db) (o : ObjectId.t),
    NoDup (stored_user_ids db) →
    ObjectId.new id = Js.Return o →
    status (UserController.banUser id adminId db).2 = 200 →
    let db' := (UserController.banUser id adminId db).1 in
    (∃ l, listed_users (UserController.getUsers None db').2 = Some l
          ∧ ObjectId.toString o ∉ (UserModel.id <$> l))
    ∧ (ObjectId.toString o = id →
       ∀ peer,
         MessageModel.getMessagesBetweenUsers (ObjectId.toString o) peer (messages db') = []
         ∧ MessageModel.getMessagesBetweenUsers peer (ObjectId.toString o) (messages db')
           = []).
Proof.
  intros id adminId db o Hnd Ho Hok db'.
  destruct (banUser_done id adminId db Hok) as (o' & d & Ho' & Hd & Hd' & Hids & Hdel & _).
  rewrite Ho in Ho'. injection Ho' as <-. fold db' in Hd', Hids, Hdel.
  assert (Hmsgs : Forall (λ d, ¬ involves id d) (messages db')).
  { rewrite Hdel. apply deleteAllMessagesFromUser_none. }
  split.
  - unfold UserController.getUsers. simpl. eexists. split; [done|].
    intros Hin. apply list_elem_of_fmap in Hin as (u & Hu & Hin).
    apply list_elem_of_In, filter_In in Hin as [Hin _]. apply list_elem_of_In in Hin.
    unfold UserModel.getAllUsers, Collection.find in Hin.
    apply list_elem_of_fmap in Hin as (x & -> & Hx).
    apply list_elem_of_In, filter_In in Hx as [Hx Hnb]. apply list_elem_of_In in Hx.
    simpl in Hu. unfold ObjectId.toString in Hu.
    (* [x] has the id of the banned document, so it is that document *)
    assert (Hsame : x = UserModel.set_isBanned d).
    { apply findOne_Some in Hd' as [Hd'in _].
      assert (Hnd' : NoDup (UserModel.Doc._id <$> users db')) by by rewrite Hids.
      apply list_elem_of_lookup in Hx as [i Hi].
      apply list_elem_of_lookup in Hd'in as [j Hj].
      assert (i = j).
      { eapply NoDup_lookup; [exact Hnd'| |].
        - by rewrite list_lookup_fmap, Hi.
        - rewrite list_lookup_fmap, Hj. simpl. apply findOne_Some in Hd as [_ Hq].
          unfold UserModel.by_id in Hq. apply bool_decide_eq_true in Hq.
          by rewrite <- Hu, Hq. }
      subst j. congruence. }
    subst x. apply negb_true_iff, bool_decide_eq_false in Hnb. by apply Hnb.
  - assert (Hnone : ∀ a b, a = id ∨ b = id →
              MessageModel.getMessagesBetweenUsers a b (messages db') = []).
    { intros a b Hab. unfold MessageModel.getMessagesBetweenUsers, Collection.find.
      rewrite filter_none; [done|].
      eapply Forall_impl; [exact Hmsgs|]. intros m Hm. unfold involves in Hm.
      unfold MessageModel.between.
      apply orb_false_iff; split; apply andb_false_iff;
        destruct Hab as [-> | ->];
        [left|right|right|left]; apply bool_decide_eq_false; tauto. }
    intros Hstored peer. rewrite Hstored. split; apply Hnone; auto.
Qed.

Lemma banned_user_disappears_witness :
  let db' := (UserController.banUser (oid "1") (Some (oid "a")) db_read).1 in
  (∃ l, listed_users (UserController.getUsers None db').2 = Some l
        ∧ ObjectId.toString (oid "1") ∉ (UserModel.id <$> l))
  ∧ (∀ peer, MessageModel.getMessagesBetweenUsers (oid "1") peer (messages db') = []
             ∧ MessageModel.getMessagesBetweenUsers peer (oid "1") (messages db') = []).
Proof.
  destruct (banned_user_disappears (oid "1") (Some (oid "a")) db_read (oid "1"))
    as [Hlist Hhist].
  - apply (bool_decide_unpack _). vm_compute. exact I.
  - reflexivity.
  - reflexivity.
  - split; [exact Hlist|]. apply Hhist. reflexivity.
Defined.

(** ** Which messages a history holds *)

Lemma sorted_cut (n : nat) (l : list MessageModel.MessageDocument) :
  let sorted := merge_sort MessageModel.doc_le l in
  take n sorted ++ drop n sorted ≡ₚ l
  ∧ length (take n sorted) = min n (length l)
  ∧ ∀ x y, x ∈ take n sorted → y ∈ drop n sorted → MessageModel.doc_le x y.
Proof.
  intros sorted. split_and!.
  - rewrite take_drop. apply merge_sort_Permutation.
  - rewrite length_take. f_equal. subst sorted.
    by rewrite (Permutation_length (merge_sort_Permutation MessageModel.doc_le l)).
  - intros x y Hx Hy.
    assert (Hs : StronglySorted MessageModel.doc_le (take n sorted ++ drop n sorted)).
    { rewrite take_drop. apply Sorted_StronglySorted; [apply _|].
      apply Sorted_merge_sort. apply _. }
    by apply (StronglySorted_app_1_elem_of _ _ _ x y Hs).
Qed.

(** X5. The direct history between two users holds only messages between
    the two, each stored one at most once, in ascending order of time stamp;
    when more than 500 qualify it holds the 500 with the smallest time
    stamps, so the newest ones are the ones left out. *)
Theorem direct_history_is_the_oldest_500 :
  ∀ (a b : string) (c : list MessageModel.MessageDocument),
    ∃ kept dropped,
      MessageModel.getMessagesBetweenUsers a b c = MessageModel.transformDocument <$> kept
      ∧ kept ++ dropped ≡ₚ List.filter (MessageModel.between a b) c
      ∧ length kept = min 500 (length (List.filter (MessageModel.between a b) c))
      ∧ Forall (λ d, MessageModel.between a b d = true) kept
      ∧ Sorted msg_le (MessageModel.getMessagesBetweenUsers a b c)
      ∧ ∀ x y, x ∈ kept → y ∈ dropped → MessageModel.doc_le x y.
Proof.
  intros a b c.
  destruct (sorted_cut 500 (List.filter (MessageModel.between a b) c)) as (Hp & Hl & Ho).
  eexists _, _. split_and!; [done|exact Hp|exact Hl| | |exact Ho].
  2:{ apply getMessagesBetweenUsers_sorted. }
  apply Forall_forall. intros d Hd.
  assert (Hin : d ∈ List.filter (MessageModel.between a b) c).
  { rewrite <- Hp. apply elem_of_app. by left. }
  by apply list_elem_of_In, filter_In in Hin as [_ ?].
Qed.

(** X6. The history of a group holds only messages that carry that groupId,
    each stored one at most once, in ascending order of time stamp: all of
    them when at most 500 qualify, and the 500 with the smallest time stamps
    when more do. *)
Theorem group_history_is_the_oldest_500 :
  ∀ (groupId : string) (c : list MessageModel.MessageDocument),
    ∃ kept dropped,
      MessageModel.getGroupMessages groupId c = MessageModel.transformDocument <$> kept
      ∧ kept ++ dropped
        ≡ₚ List.filter (λ d, bool_decide (MessageModel.Doc.groupId d = Some groupId)) c
      ∧ length kept
        = min 500 (length (List.filter
                             (λ d, bool_decide (MessageModel.Doc.groupId d = Some groupId))
                             c))
      ∧ Forall (λ d, MessageModel.Doc.groupId d = Some groupId) kept
      ∧ Sorted msg_le (MessageModel.getGroupMessages groupId c)
      ∧ ∀ x y, x ∈ kept → y ∈ dropped → MessageModel.doc_le x y.
Proof.
  intros groupId c.
  destruct (sorted_cut 500
    (List.filter (λ d, bool_decide (MessageModel.Doc.groupId d = Some groupId)) c))
    as (Hp & Hl & Ho).
  eexists _, _. split_and!; [done|exact Hp|exact Hl| | |exact Ho].
  - apply Forall_forall. intros d Hd.
    assert (Hin : d ∈ List.filter
              (λ d, bool_decide (MessageModel.Doc.groupId d = Some groupId)) c).
    { rewrite <- Hp. apply elem_of_app. by left. }
    apply list_elem_of_In, filter_In in Hin as [_ Hg]. by apply bool_decide_eq_true in Hg.
  - unfold MessageModel.getGroupMessages.
    apply (Sorted_fmap _ MessageModel.doc_le); [done|].
    apply Sorted_take; [apply _|]. apply Sorted_merge_sort. apply _.
Qed.

(** ** Deleting a group *)

Lemma NoDup_fmap_same {A B} (f : A → B) (l : list A) x y :
  NoDup (f <$> l) → x ∈ l → y ∈ l → f x = f y → x = y.
Proof.
  intros Hnd Hx Hy Hf.
  apply list_elem_of_lookup in Hx as [i Hi]. apply list_elem_of_lookup in Hy as [j Hj].
  assert (i = j).
  { eapply NoDup_lookup; [exact Hnd| |].
    - by rewrite list_lookup_fmap, Hi.
    - by rewrite list_lookup_fmap, Hj, Hf. }
  subst j. congruence.
Qed.

(** With distinct keys, deleting the first match of a key leaves no match. *)
Lemma deleteOne_gone {D K} `{EqDecision K} (key : D → K) (k : K) (c : list D) :
  NoDup (key <$> c) →
  Collection.findOne (λ d, bool_decide (key d = k))
    (Collection.deleteOne (λ d, bool_decide (key d = k)) c).1 = None.
Proof.
  unfold Collection.findOne.
  induction c as [|x c IH]; csimpl; [done|].
  intros Hnd. apply NoDup_cons in Hnd as [Hx Hnd].
  case_bool_decide as Hk; simpl.
  - apply find_none_filter, filter_none, Forall_forall. intros d Hd.
    apply bool_decide_eq_false. intros Hd'. apply Hx. rewrite Hk, <- Hd'.
    by apply list_elem_of_fmap_2.
  - specialize (IH Hnd). destruct (Collection.deleteOne _ c) as [r n]. simpl in *.
    by rewrite bool_decide_eq_false_2.
Qed.

Lemma deleteOne_keeps {D} (q : D → bool) (c : list D) d :
  d ∈ c → q d = false → d ∈ (Collection.deleteOne q c).1.
Proof.
  induction c as [|x c IH]; simpl; [done|].
  intros Hin Hq. apply elem_of_cons in Hin as [->|Hin].
  - rewrite Hq. destruct (Collection.deleteOne q c). simpl. by left.
  - destruct (q x); simpl; [done|].
    specialize (IH Hin Hq). destruct (Collection.deleteOne q c). simpl in *. by right.
Qed.

(** X7. DELETE /groups/:id is answered 200 exactly when a userId is given, the
    group exists and the requester is the group's admin or one of the site's
    admins. Any other answer leaves the store as it was. After a 200 the users
    are untouched, the other groups are all still stored, the history of the
    deleted group is empty when the id was written the way the API hands it
    out (the group's stored id, in lower case) and, ids being distinct, the
    group is not found any more. *)
Theorem deleteGroup_outcome :
  ∀ (id : string) (userId : Js.str) (db : Db),
    let r := GroupController.deleteGroup id userId db in
    (status r.2 = 200 ↔
       ∃ u group, nonempty userId = Some u
                  ∧ GroupModel.getGroup id (groups db) = Some group
                  ∧ (GroupModel.adminId group = u ∨ is_site_admin u db))
    ∧ (status r.2 ≠ 200 → r.1 = db)
    ∧ (status r.2 = 200 →
         users r.1 = users db
         ∧ (∀ group, GroupModel.getGroup id (groups db) = Some group →
                     GroupModel.id group = id →
                     MessageModel.getGroupMessages (GroupModel.id group) (messages r.1) = [])
         ∧ (∀ g, g ∈ groups db → GroupModel.getGroup id [g] = None → g ∈ groups r.1)
         ∧ (NoDup (stored_group_ids db) → GroupModel.getGroup id (groups r.1) = None)).
Proof.
  intros id userId db r. subst r.
  unfold GroupController.deleteGroup, is_site_admin.
  destruct (nonempty userId) as [u|] eqn:Hu.
  2:{ simpl. split_and!; [|done|done]. split; [done|]. by intros (? & ? & ? & _). }
  destruct (GroupModel.getGroup id (groups db)) as [group|] eqn:Hg.
  2:{ simpl. split_and!; [|done|done]. split; [done|]. by intros (? & ? & _ & ? & _). }
  assert (Hadmin :
    match UserModel.findUserById (Some u) (users db) with
    | Some requestingUser =>
        Js.truthy_bool (UserModel.isAdmin requestingUser)
        || Js.seq (UserModel.email requestingUser) (Some UserModel.ADMIN_EMAIL)
    | None => false
    end = true
    ↔ ∃ x, UserModel.findUserById (Some u) (users db) = Some x
           ∧ Js.truthy_bool (UserModel.isAdmin x) = true).
  { unfold UserModel.findUserById.
    destruct (ObjectId.new_str (Some u)) as [[o|]|]; simpl;
      try (split; [done|by intros (? & ? & _)]).
    destruct (Collection.findOne (UserModel.by_id o) (users db)) as [d|]; simpl.
    - split.
      + intros Ht. eexists. split; [done|]. simpl in *.
        by destruct (Js.truthy_bool (UserModel.Doc.isAdmin d)),
             (Js.seq (UserModel.Doc.email d) (Some UserModel.ADMIN_EMAIL)).
      + intros (x & [= <-] & Hx). simpl in *.
        by destruct (Js.truthy_bool (UserModel.Doc.isAdmin d)),
             (Js.seq (UserModel.Doc.email d) (Some UserModel.ADMIN_EMAIL)).
    - split; [done|by intros (? & ? & _)]. }
  destruct (match UserModel.findUserById (Some u) (users db) with
            | Some _ => _ | None => _ end) eqn:Hsuper.
  - (* a site admin *)
    pose proof (proj1 Hadmin eq_refl) as Hsite. clear Hadmin.
    rewrite andb_false_r.
    pose proof Hg as Hg'. unfold GroupModel.getGroup in Hg'.
    unfold GroupModel.deleteGroup, Js.bind.
    destruct (ObjectId.new id) as [o|] eqn:Ho; [|done].
    pose proof (deleteOne_gone GroupModel.Doc._id o (groups db)) as Hgone.
    pose proof (λ g, deleteOne_keeps (GroupModel.by_id o) (groups db) g) as Hkeep.
    fold (GroupModel.by_id o) in Hgone.
    destruct (Collection.deleteOne (GroupModel.by_id o) (groups db)) as [c n]. simpl in *.
    split_and!; [|done|].
    + split; [|done]. intros _. exists u, group. auto.
    + intros _. split_and!; [done| | |].
      * intros group' _ ->.
        unfold MessageModel.getGroupMessages, MessageModel.deleteAllMessagesInGroup,
          Collection.find.
        rewrite filter_none; [done|]. apply Forall_forall. intros d Hd.
        apply list_elem_of_In, filter_In in Hd as [_ Hd]. by apply negb_true_iff.
      * intros g Hin Hno. apply Hkeep; [done|].
        unfold GroupModel.getGroup in Hno. rewrite Ho in Hno. simpl in Hno.
        unfold Collection.findOne in Hno. simpl in Hno.
        by destruct (GroupModel.by_id o g).
      * intros Hnd. unfold GroupModel.getGroup. rewrite Ho.
        unfold stored_group_ids in Hnd. by rewrite (Hgone Hnd).
  - (* not a site admin *)
    assert (Hno : ¬ ∃ x, UserModel.findUserById (Some u) (users db) = Some x
                         ∧ Js.truthy_bool (UserModel.isAdmin x) = true).
    { intros Hx. apply Hadmin in Hx. done. }
    clear Hadmin. rewrite andb_true_r.
    case_bool_decide as Hga; simpl.
    + pose proof Hg as Hg'. unfold GroupModel.getGroup in Hg'.
      unfold GroupModel.deleteGroup, Js.bind.
      destruct (ObjectId.new id) as [o|] eqn:Ho; [|done].
      pose proof (deleteOne_gone GroupModel.Doc._id o (groups db)) as Hgone.
      pose proof (λ g, deleteOne_keeps (GroupModel.by_id o) (groups db) g) as Hkeep.
      fold (GroupModel.by_id o) in Hgone.
      destruct (Collection.deleteOne (GroupModel.by_id o) (groups db)) as [c n]. simpl in *.
      split_and!; [|done|].
      * split; [|done]. intros _. exists u, group. auto.
      * intros _. split_and!; [done| | |].
        -- intros group' _ ->.
           unfold MessageModel.getGroupMessages, MessageModel.deleteAllMessagesInGroup,
             Collection.find.
           rewrite filter_none; [done|]. apply Forall_forall. intros d Hd.
           apply list_elem_of_In, filter_In in Hd as [_ Hd]. by apply negb_true_iff.
        -- intros g Hin Hnog. apply Hkeep; [done|].
           unfold GroupModel.getGroup in Hnog. rewrite Ho in Hnog. simpl in Hnog.
           unfold Collection.findOne in Hnog. simpl in Hnog.
           by destruct (GroupModel.by_id o g).
        -- intros Hnd. unfold GroupModel.getGroup. rewrite Ho.
           unfold stored_group_ids in Hnd. by rewrite (Hgone Hnd).
    + split_and!; [|done|done]. split; [done|].
      intros (u' & group' & [= <-] & [= <-] & [?|?]); done.
Qed.

Lemma deleteGroup_outcome_witness :
  let r := GroupController.deleteGroup (oid "9") (Some (oid "1")) db_ana_admin in
  status r.2 = 200
  ∧ MessageModel.getGroupMessages (oid "9") (messages r.1) = []
  ∧ GroupModel.getGroup (oid "9") (groups r.1) = None.
Proof.
  destruct (deleteGroup_outcome (oid "9") (Some (oid "1")) db_ana_admin) as (Hiff & _ & Hok).
  assert (H200 : status (GroupController.deleteGroup (oid "9") (Some (oid "1")) db_ana_admin).2
                 = 200).
  { apply Hiff. eexists _, _. split; [reflexivity|]. split; [reflexivity|]. by left. }
  destruct (Hok H200) as (_ & Hhist & _ & Hgone).
  split; [exact H200|]. split; [exact (Hhist _ eq_refl eq_refl)|].
  apply Hgone. apply (bool_decide_unpack _). vm_compute. exact I.
Defined.

(** ** Adding and removing members *)

Lemma updateOne_count {D} `{EqDecision D} (q : D → bool) upd (c : list D) d :
  Collection.findOne q c = Some d →
  (Collection.updateOne q upd c).2 = if decide (upd d = d) then 0 else 1.
Proof.
  unfold Collection.findOne.
  induction c as [|x c IH]; simpl; [done|].
  destruct (q x); simpl.
  - by intros [= ->].
  - intros Hf. specialize (IH Hf). by destruct (Collection.updateOne q upd c).
Qed.

Lemma updateOne_found {D} `{EqDecision D} (q : D → bool) upd (c : list D) d :
  Collection.findOne q c = Some d → q (upd d) = true →
  Collection.findOne q (Collection.updateOne q upd c).1 = Some (upd d).
Proof.
  unfold Collection.findOne.
  induction c as [|x c IH]; simpl; [done|].
  destruct (q x) eqn:Hx; simpl.
  - intros [= ->] Hq. by rewrite Hq.
  - intros Hf Hq. specialize (IH Hf Hq).
    destruct (Collection.updateOne q upd c). simpl in *. by rewrite Hx.
Qed.

(** Undoing the update of the first match gives the collection back. *)
Lemma updateOne_undo {D} `{EqDecision D} (q : D → bool) f g (c : list D) d :
  Collection.findOne q c = Some d → q (f d) = true → g (f d) = d →
  (Collection.updateOne q g (Collection.updateOne q f c).1).1 = c.
Proof.
  unfold Collection.findOne.
  induction c as [|x c IH]; simpl; [done|].
  destruct (q x) eqn:Hx; simpl.
  - intros [= ->] Hq Hg. by rewrite Hq, Hg.
  - intros Hf Hq Hg. specialize (IH Hf Hq Hg).
    destruct (Collection.updateOne q f c) as [r n]. simpl in *. rewrite Hx.
    destruct (Collection.updateOne q g r). simpl in *. by rewrite IH.
Qed.

Lemma pull_app_new (u : string) l : u ∉ l → GroupModel.pull u (l ++ [u])%list = l.
Proof.
  intros Hu. unfold GroupModel.pull. rewrite List.filter_app. simpl.
  rewrite bool_decide_eq_true_2 by done. simpl. rewrite app_nil_r.
  induction l as [|x l IH]; simpl; [done|].
  apply not_elem_of_cons in Hu as [Hx Hl].
  rewrite bool_decide_eq_false_2 by done. simpl. by rewrite IH.
Qed.

Lemma getGroup_found groupId o c d :
  ObjectId.new groupId = Js.Return o →
  Collection.findOne (GroupModel.by_id o) c = Some d →
  GroupModel.getGroup groupId c = Some (GroupModel.transformDocument d).
Proof. intros Ho Hd. unfold GroupModel.getGroup. by rewrite Ho, Hd. Qed.

(** X8. For the admin of a stored group and a user id: adding someone who is
    a member already is answered 400 and changes nothing; adding someone who
    is not puts them last in the group's members and is answered 200; and
    removing them again (they not being the admin) is answered 200 and gives
    back the store as it was before the addition. *)
Theorem add_then_remove_member :
  ∀ (groupId u : string) (o : ObjectId.t) (d : GroupModel.GroupDocument) (db : Db),
    ObjectId.new groupId = Js.Return o →
    Collection.findOne (GroupModel.by_id o) (groups db) = Some d →
    u ≠ "" → GroupModel.Doc.adminId d ≠ "" →
    let admin := Some (GroupModel.Doc.adminId d) in
    (u ∈ GroupModel.Doc.memberIds d →
       GroupController.addMember groupId (Some u) admin db
       = (db, respond 400 (JError "User already in group or failed to add")))
    ∧ (u ∉ GroupModel.Doc.memberIds d →
       let added := GroupController.addMember groupId (Some u) admin db in
       status added.2 = 200
       ∧ Collection.findOne (GroupModel.by_id o) (groups added.1)
         = Some (GroupModel.with_memberIds (λ l, (l ++ [u])%list) d)
       ∧ (u ≠ GroupModel.Doc.adminId d →
          GroupController.removeMember groupId (Some u) admin added.1
          = (db, respond 200 (JInfo "Member removed successfully")))).
Proof.
  intros groupId u o d db Ho Hd Hu Ha admin.
  pose proof (findOne_Some _ _ _ Hd) as [_ Hq].
  assert (Hget : GroupModel.getGroup groupId (groups db)
                 = Some (GroupModel.transformDocument d)) by by apply getGroup_found with o.
  split.
  - intros Hin. unfold GroupController.addMember. subst admin.
    rewrite (nonempty_Some u Hu), (nonempty_Some _ Ha), Hget. simpl.
    rewrite bool_decide_eq_true_2 by done. simpl.
    unfold GroupModel.addMemberToGroup. rewrite Ho. simpl.
    assert (Hsame : GroupModel.with_memberIds (GroupModel.addToSet u) d = d).
    { unfold GroupModel.with_memberIds, GroupModel.addToSet.
      rewrite bool_decide_eq_true_2 by done. by destruct d. }
    rewrite (updateOne_unchanged _ _ _ _ Hd Hsame). simpl.
    by rewrite with_groups_same.
  - intros Hnew added.
    assert (Hupd : GroupModel.with_memberIds (GroupModel.addToSet u) d
                   = GroupModel.with_memberIds (λ l, (l ++ [u])%list) d).
    { unfold GroupModel.with_memberIds, GroupModel.addToSet.
      by rewrite bool_decide_eq_false_2. }
    assert (Hdiff : GroupModel.with_memberIds (GroupModel.addToSet u) d ≠ d).
    { rewrite Hupd. intros Heq. apply (f_equal GroupModel.Doc.memberIds) in Heq.
      simpl in Heq. apply (f_equal length) in Heq. rewrite length_app in Heq.
      simpl in Heq. lia. }
    assert (Hadded : added =
      (with_groups (Collection.updateOne (GroupModel.by_id o)
                      (GroupModel.with_memberIds (GroupModel.addToSet u)) (groups db)).1 db,
       respond 200 (JInfo "Member added successfully"))).
    { subst added admin. unfold GroupController.addMember.
      rewrite (nonempty_Some u Hu), (nonempty_Some _ Ha), Hget. simpl.
      rewrite bool_decide_eq_true_2 by done. simpl.
      unfold GroupModel.addMemberToGroup. rewrite Ho. simpl.
      pose proof (updateOne_count (GroupModel.by_id o)
                    (GroupModel.with_memberIds (GroupModel.addToSet u)) _ _ Hd) as Hn.
      rewrite decide_False in Hn by done.
      destruct (Collection.updateOne _ _ _) as [c n]. simpl in *. by subst n. }
    assert (Hfound : Collection.findOne (GroupModel.by_id o) (groups added.1)
                     = Some (GroupModel.with_memberIds (λ l, (l ++ [u])%list) d)).
    { rewrite Hadded. simpl. rewrite <- Hupd. by apply updateOne_found. }
    split; [by rewrite Hadded|]. split; [done|].
    intros Hne. unfold GroupController.removeMember. subst admin.
    rewrite (nonempty_Some u Hu), (nonempty_Some _ Ha).
    rewrite (getGroup_found groupId o _ _ Ho Hfound). simpl.
    rewrite bool_decide_eq_true_2 by done. simpl.
    rewrite bool_decide_eq_false_2 by done.
    unfold GroupModel.removeMemberFromGroup. rewrite Ho. simpl.
    assert (Hback : GroupModel.with_memberIds (GroupModel.pull u)
                      (GroupModel.with_memberIds (λ l, (l ++ [u])%list) d) = d).
    { unfold GroupModel.with_memberIds. simpl. rewrite pull_app_new by done. by destruct d. }
    pose proof (updateOne_count (GroupModel.by_id o)
                  (GroupModel.with_memberIds (GroupModel.pull u)) _ _ Hfound) as Hn.
    rewrite Hback in Hn. rewrite decide_False in Hn.
    2:{ intros Heq. apply Hdiff. by rewrite Hupd, <- Heq. }
    pose proof (updateOne_undo (GroupModel.by_id o)
                  (GroupModel.with_memberIds (GroupModel.addToSet u))
                  (GroupModel.with_memberIds (GroupModel.pull u)) (groups db) d Hd) as Hundo.
    rewrite Hupd in Hundo. specialize (Hundo Hq Hback).
    rewrite Hadded in Hn |- *. simpl in *.
    destruct (Collection.updateOne (GroupModel.by_id o)
                (GroupModel.with_memberIds (GroupModel.pull u)) _) as [c n].
    simpl in *. subst n c. simpl. by destruct db.
Qed.

Lemma add_then_remove_member_witness :
  let added :=
    GroupController.addMember (oid "9") (Some (oid "4")) (Some (oid "1")) db_ana_admin in
  status added.2 = 200
  ∧ GroupController.removeMember (oid "9") (Some (oid "4")) (Some (oid "1")) added.1
    = (db_ana_admin, respond 200 (JInfo "Member removed successfully")).
Proof.
  destruct (add_then_remove_member (oid "9") (oid "4") (oid "9")
              (team_doc (oid "1") [oid "1"; oid "2"; oid "3"]) db_ana_admin)
    as [_ Hnew]; [reflexivity | reflexivity | discriminate | discriminate |].
  destruct Hnew as (H200 & _ & Hback).
  { intros Hin%list_elem_of_In. simpl in Hin. intuition discriminate. }
  split; [exact H200|]. apply Hback. discriminate.
Defined.

(** ** Listing groups *)

(** X9. A group that POST /groups answered with (201) has at least two
    members and the id the driver gave it, and GET /groups?userId= lists it
    to each of its members; whatever that route lists to a user has the user
    among its members. *)
Theorem new_group_is_listed_to_its_members :
  ∀ (env : Env) (body : GroupController.CreateBody) (db : Db) (g : GroupModel.Group),
    (GroupController.createGroup env body db).2 = respond 201 (JGroup g) →
    let db' := (GroupController.createGroup env body db).1 in
    GroupModel.id g = ObjectId.toString (insertedId env)
    ∧ (2 ≤ length (GroupModel.memberIds g))%nat
    ∧ ∀ m, m ≠ "" →
        ∃ l, GroupController.getUserGroups (Some m) db' = (db', respond 200 (JGroups l))
             ∧ Forall (λ g', m ∈ GroupModel.memberIds g') l
             ∧ (m ∈ GroupModel.memberIds g → g ∈ l).
Proof.
  intros env body db g. unfold GroupController.createGroup, GroupModel.createGroup,
    Collection.insertOne.
  destruct (nonempty (GroupController.cb_name body)) as [name|]; [|done].
  destruct (nonempty (GroupController.cb_adminId body)) as [adminId|]; [|done].
  destruct (GroupController.cb_memberIds body) as [memberIds|]; [|done].
  case_bool_decide as Hlen; [done|]. simpl. intros [= <-]. simpl.
  split; [done|]. split; [lia|]. intros m Hm.
  unfold GroupController.getUserGroups. rewrite (nonempty_Some m Hm).
  eexists. split; [done|]. split.
  - unfold GroupModel.getGroupsForUser, Collection.find.
    apply Forall_fmap, Forall_forall. intros d Hd.
    apply list_elem_of_In, filter_In in Hd as [_ Hd]. simpl.
    unfold GroupModel.has_member in Hd. by apply bool_decide_eq_true in Hd.
  - intros Hin. unfold GroupModel.getGroupsForUser, Collection.find. simpl.
    rewrite List.filter_app, fmap_app. apply elem_of_app. right. simpl.
    unfold GroupModel.has_member. simpl. rewrite bool_decide_eq_true_2 by done.
    simpl. by left.
Qed.

Lemma new_group_is_listed_to_its_members_witness :
  let db' := (GroupController.createGroup env0 outsider_admin Routes.empty_db).1 in
  ∃ l, GroupController.getUserGroups (Some (oid "2")) db' = (db', respond 200 (JGroups l))
       ∧ GroupModel.transformDocument outsider_group ∈ l.
Proof.
  destruct (new_group_is_listed_to_its_members env0 outsider_admin Routes.empty_db
              (GroupModel.transformDocument outsider_group)) as (_ & _ & Hlist);
    [reflexivity|].
  destruct (Hlist (oid "2")) as (l & Hl & _ & Hin); [discriminate|].
  exists l. split; [exact Hl|]. apply Hin.
  apply list_elem_of_In. simpl. auto.
Defined.

(** ** Cleaning up *)

(** X10. POST /users/cleanup from an admin empties the messages and the
    groups and keeps exactly the users with the well-known admin address, in
    their order; the three counts it answers with are the numbers of
    documents it removed. From anyone else it is answered 403 and changes
    nothing. *)
Theorem cleanup_outcome :
  ∀ (adminId : Js.str) (db : Db),
    let r := UserController.cleanupTestData adminId db in
    ((∃ admin, UserModel.findUserById adminId (users db) = Some admin
               ∧ Js.truthy_bool (UserModel.isAdmin admin) = true) →
       ∃ nu nm ng,
         r.2 = respond 200 (JCleanup nu nm ng)
         ∧ messages r.1 = [] ∧ groups r.1 = []
         ∧ users r.1
           = List.filter (λ d, bool_decide (UserModel.Doc.email d = Some UserModel.ADMIN_EMAIL))
               (users db)
         ∧ nu + Z.of_nat (length (users r.1)) = Z.of_nat (length (users db))
         ∧ nm = Z.of_nat (length (messages db))
         ∧ ng = Z.of_nat (length (groups db)))
    ∧ ((∀ admin, UserModel.findUserById adminId (users db) = Some admin →
                 Js.truthy_bool (UserModel.isAdmin admin) = false) →
       r = (db, respond 403 (JError "Unauthorized"))).
Proof.
  intros adminId db r. subst r. unfold UserController.cleanupTestData. split.
  - intros (admin & -> & ->). simpl.
    unfold UserModel.deleteAllUsersExceptAdmin, MessageModel.deleteAllMessages,
      GroupModel.deleteAllGroups, Collection.deleteMany. simpl.
    eexists _, _, _. split; [done|]. simpl.
    assert (Hall : ∀ A (l : list A), List.filter (λ _, true) l = l).
    { intros A l. induction l as [|x l IH]; simpl; [done|by rewrite IH]. }
    assert (Hnone : ∀ A (l : list A), List.filter (λ _, negb true) l = []).
    { intros A l. induction l as [|x l IH]; simpl; [done|exact IH]. }
    rewrite !Hall, !Hnone. split_and!; try done.
    + apply List.filter_ext. intros d. apply negb_involutive.
    + rewrite <- Nat2Z.inj_add. f_equal. apply List.filter_length.
  - intros Hno. destruct (UserModel.findUserById adminId (users db)) as [admin|]; [|done].
    by rewrite (Hno admin eq_refl).
Qed.

Lemma cleanup_outcome_witness :
  let r := UserController.cleanupTestData (Some (oid "a")) db_three in
  ∃ nu nm ng,
    r.2 = respond 200 (JCleanup nu nm ng)
    ∧ messages r.1 = [] ∧ groups r.1 = []
    ∧ users r.1
      = List.filter (λ d, bool_decide (UserModel.Doc.email d = Some UserModel.ADMIN_EMAIL))
          (users db_three)
    ∧ nu + Z.of_nat (length (users r.1)) = Z.of_nat (length (users db_three))
    ∧ nm = Z.of_nat (length (messages db_three))
    ∧ ng = Z.of_nat (length (groups db_three)).
Proof.
  apply (cleanup_outcome (Some (oid "a")) db_three).
  exists (UserModel.transformDocument admin_doc). split; reflexivity.
Defined.

(** ** Registering after a ban and after a deletion *)

Lemma findOne_unique {D K} (key : D → K) `{EqDecision K} (k : K) (c : list D) d :
  NoDup (key <$> c) → d ∈ c → key d = k →
  Collection.findOne (λ x, bool_decide (key x = k)) c = Some d.
Proof.
  intros Hnd Hin Hk.
  destruct (Collection.findOne (λ x, bool_decide (key x = k)) c) as [x|] eqn:Hf.
  - apply findOne_Some in Hf as [Hx Hq]. apply bool_decide_eq_true in Hq.
    f_equal. apply (NoDup_fmap_same key c); [done|done|done|congruence].
  - apply findOne_None in Hf. rewrite Forall_forall in Hf. specialize (Hf d Hin).
    by apply bool_decide_eq_false in Hf.
Qed.

(** X11. A banned user who registers again is given their banned account:
    after POST /users/:id/ban is answered 200, POST /users with the target's
    e-mail address is answered 200 with the same id and the banned flag set,
    and stores no second account. *)
Theorem banned_user_registers_into_the_banned_account :
  ∀ (env : Env) (id : string) (adminId : Js.str) (db : Db) (o : ObjectId.t)
    (d : UserModel.UserDocument) (body : UserController.RegisterBody)
    (username email : string),
    NoDup (stored_emails db) → canonical_ids (users db) →
    ObjectId.new id = Js.Return o →
    Collection.findOne (UserModel.by_id o) (users db) = Some d →
    UserModel.Doc.email d = Some email →
    nonempty (UserController.rb_username body) = Some username →
    nonempty (UserController.rb_email body) = Some email →
    status (UserController.banUser id adminId db).2 = 200 →
    let db' := (UserController.banUser id adminId db).1 in
    ∃ u, (UserController.registerUser env body db').2 = respond 200 (JUser u)
         ∧ UserModel.id u = ObjectId.toString o
         ∧ UserModel.email u = Some email
         ∧ UserModel.isBanned u = Some true
         ∧ length (users (UserController.registerUser env body db').1) = length (users db).
Proof.
  intros env id adminId db o d body username email Hnd Hcan Ho Hd Hmail Hu He Hok db'.
  destruct (banUser_done id adminId db Hok)
    as (o' & d' & Ho' & Hd0 & Hd' & _ & _ & _ & Husers).
  rewrite Ho in Ho'. injection Ho' as <-. rewrite Hd in Hd0. injection Hd0 as <-.
  fold db' in Hd', Husers.
  assert (Hemails : UserModel.Doc.email <$> users db' = UserModel.Doc.email <$> users db).
  { rewrite Husers. apply updateOne_fmap. by intros []. }
  assert (Hcan' : canonical_ids (users db')).
  { rewrite Husers. apply updateOne_Forall; [|done]. by intros []. }
  assert (Hfind : Collection.findOne (UserModel.by_email (Some email)) (users db')
                  = Some (UserModel.set_isBanned d)).
  { apply (findOne_unique UserModel.Doc.email (Some email)).
    - by rewrite Hemails.
    - by apply findOne_Some in Hd' as [? _].
    - done. }
  assert (Hid : UserModel.Doc._id d = o).
  { apply findOne_Some in Hd as [_ Hq]. by apply bool_decide_eq_true in Hq. }
  assert (Hnew : ObjectId.new o = Js.Return o).
  { unfold canonical_ids in Hcan. rewrite Forall_forall in Hcan.
    apply findOne_Some in Hd as [Hin _]. specialize (Hcan d Hin).
    unfold canonical in Hcan. by rewrite Hid in Hcan. }
  exists (UserModel.transformDocument (UserModel.set_isBanned d)).
  unfold UserController.registerUser, UserModel.findUserByEmail.
  rewrite Hu, He, Hfind. simpl.
  unfold UserModel.updateLastSeen, ObjectId.toString. simpl. rewrite Hid, Hnew. simpl.
  split_and!; try done.
  rewrite <- (length_fmap UserModel.Doc._id), updateOne_fmap by (by intros []).
  rewrite length_fmap, Husers.
  rewrite <- (length_fmap UserModel.Doc._id), updateOne_fmap by (by intros []).
  by rewrite length_fmap.
Qed.

Lemma banned_user_registers_into_the_banned_account_witness :
  let db' := (UserController.banUser (oid "1") (Some (oid "a")) db_read).1 in
  ∃ u, (UserController.registerUser env0 (ApiService.register_body ana) db').2
       = respond 200 (JUser u)
       ∧ UserModel.id u = ObjectId.toString (oid "1")
       ∧ UserModel.email u = Some "ana@x.com"
       ∧ UserModel.isBanned u = Some true
       ∧ length (users (UserController.registerUser env0 (ApiService.register_body ana)
                          db').1) = length (users db_read).
Proof.
  apply (banned_user_registers_into_the_banned_account env0 (oid "1") (Some (oid "a"))
           db_read (oid "1") (ana_doc None) (ApiService.register_body ana) "Ana" "ana@x.com").
  - apply (bool_decide_unpack _). vm_compute. exact I.
  - repeat constructor.
  - reflexivity.
  - reflexivity.
  - reflexivity.
  - reflexivity.
  - reflexivity.
  - reflexivity.
Defined.

Lemma deleteOne_deleted {D} (q : D → bool) (c : list D) :
  (Collection.deleteOne q c).2 = 1 → ∃ d, Collection.findOne q c = Some d.
Proof.
  unfold Collection.findOne. induction c as [|x c IH]; simpl; [done|].
  destruct (q x); simpl; [by eexists|].
  destruct (Collection.deleteOne q c). simpl in *. apply IH.
Qed.

(** With distinct keys, deleting the first match leaves no document with the
    key of the deleted one. *)
Lemma deleteOne_key_gone {D K} (key : D → K) (q : D → bool) (c : list D) d :
  NoDup (key <$> c) → Collection.findOne q c = Some d →
  Forall (λ x, key x ≠ key d) (Collection.deleteOne q c).1.
Proof.
  unfold Collection.findOne.
  induction c as [|y c IH]; csimpl; [done|].
  intros Hnd Hf. apply NoDup_cons in Hnd as [Hy Hnd].
  destruct (q y); simpl.
  - injection Hf as <-. apply Forall_forall. intros x Hx Heq. apply Hy.
    rewrite <- Heq. by apply list_elem_of_fmap_2.
  - specialize (IH Hnd Hf). destruct (Collection.deleteOne q c). simpl in *.
    constructor; [|done]. intros Heq. apply Hy. rewrite Heq.
    apply list_elem_of_fmap_2. apply find_some in Hf as [Hin _].
    by apply list_elem_of_In.
Qed.

(** X12. DELETE /users/:id/permanent removes the account and nothing else:
    when it is answered 200 the user's messages and group memberships are
    all still stored, and a later POST /users with the same e-mail address,
    and a payload the validator of the users collection lets through,
    creates a new account (201) under the id the driver mints. *)
Theorem permanent_delete_frees_the_address :
  ∀ (env : Env) (id : string) (adminId : Js.str) (db : Db)
    (body : UserController.RegisterBody) (username email : string),
    NoDup (stored_emails db) →
    nonempty (UserController.rb_username body) = Some username →
    nonempty (UserController.rb_email body) = Some email →
    UserModel.validator
      (UserModel.userDoc (insertedId env)
         (UserController.new_user env username email body)) = true →
    status (UserController.permanentlyDeleteUser id adminId db).2 = 200 →
    let db' := (UserController.permanentlyDeleteUser id adminId db).1 in
    messages db' = messages db
    ∧ groups db' = groups db
    ∧ (length (users db') + 1 = length (users db))%nat
    ∧ ∃ o d, ObjectId.new id = Js.Return o
             ∧ Collection.findOne (UserModel.by_id o) (users db) = Some d
             ∧ (UserModel.Doc.email d = Some email →
                ∃ u, (UserController.registerUser env body db').2 = respond 201 (JUser u)
                     ∧ UserModel.id u = ObjectId.toString (insertedId env)
                     ∧ UserModel.email u = Some email).
Proof.
  intros env id adminId db body username email Hnd Hu He Hvalid.
  unfold UserController.permanentlyDeleteUser, UserModel.permanentlyDeleteUser, Js.bind.
  destruct (UserModel.findUserById adminId (users db)) as [admin|]; [|done].
  destruct (negb (Js.truthy_bool (UserModel.isAdmin admin))); [done|].
  destruct (ObjectId.new id) as [o|] eqn:Ho; [|done].
  pose proof (deleteOne_deleted (UserModel.by_id o) (users db)) as Hdel.
  pose proof (deleteOne_key_gone UserModel.Doc.email (UserModel.by_id o) (users db)) as Hgone.
  pose proof (deleteOne_sublist (UserModel.by_id o) (users db)) as Hsub.
  assert (Hlen : (Collection.deleteOne (UserModel.by_id o) (users db)).2 = 1 →
                 (length (Collection.deleteOne (UserModel.by_id o) (users db)).1 + 1
                  = length (users db))%nat).
  { clear. induction (users db) as [|x c IH]; simpl; [done|].
    destruct (UserModel.by_id o x); simpl; [lia|].
    destruct (Collection.deleteOne _ c). simpl in *. intros Hn. specialize (IH Hn). lia. }
  destruct (Collection.deleteOne (UserModel.by_id o) (users db)) as [c n]. simpl in *.
  case_bool_decide as Hn; simpl; [|done]. intros _.
  destruct (Hdel Hn) as [d Hd].
  split; [done|]. split; [done|]. split; [by apply Hlen|].
  exists o, d. split; [done|]. split; [done|]. intros Hmail.
  unfold UserController.registerUser, UserModel.findUserByEmail. rewrite Hu, He. simpl.
  assert (Hnone : Collection.findOne (UserModel.by_email (Some email)) c = None).
  { apply find_none_filter, filter_none.
    eapply Forall_impl; [by apply Hgone|]. intros x Hx. simpl in Hx.
    unfold UserModel.by_email. apply bool_decide_eq_false. congruence. }
  rewrite Hnone. simpl.
  unfold UserModel.createUser, UserModel.insertOne, Js.bind.
  rewrite Hvalid. simpl. rewrite Hnone. simpl. by eexists.
Qed.

Lemma permanent_delete_frees_the_address_witness :
  let db' := (UserController.permanentlyDeleteUser (oid "1") (Some (oid "a")) db_read).1 in
  messages db' = messages db_read
  ∧ ∃ u, (UserController.registerUser env0 (ApiService.register_body ana) db').2
         = respond 201 (JUser u)
         ∧ UserModel.id u = ObjectId.toString (insertedId env0)
         ∧ UserModel.email u = Some "ana@x.com".
Proof.
  destruct (permanent_delete_frees_the_address env0 (oid "1") (Some (oid "a")) db_read
              (ApiService.register_body ana) "Ana" "ana@x.com")
    as (Hm & _ & _ & o & d & Ho & Hd & Hreg).
  - apply (bool_decide_unpack _). vm_compute. exact I.
  - reflexivity.
  - reflexivity.
  - reflexivity.
  - reflexivity.
  - split; [exact Hm|]. apply Hreg.
    assert (Hd' : Collection.findOne (UserModel.by_id (oid "1")) (users db_read)
                  = Some (ana_doc None)) by reflexivity.
    assert (Ho' : ObjectId.new (oid "1") = Js.Return (oid "1")) by reflexivity.
    rewrite Ho' in Ho. injection Ho as <-. rewrite Hd' in Hd. injection Hd as <-.
    reflexivity.
Defined.

(** ** Updating a profile *)

Lemma given_or_stored (v old : Js.str) :
  from_option Some old (UserController.if_truthy v) = if Js.truthy v then v else old.
Proof.
  unfold UserController.if_truthy. destruct v as [s|]; simpl; [|done].
  by destruct (negb (bool_decide (s = ""))).
Qed.

Lemma findOneAndUpdate_none {D} (q : D → bool) upd (c : list D) :
  Collection.findOne q c = None → Collection.findOneAndUpdate q upd c = (c, None).
Proof.
  unfold Collection.findOne. induction c as [|x c IH]; simpl; [done|].
  destruct (q x); [done|]. intros Hf. by rewrite (IH Hf).
Qed.

(** X13. PUT /users/:id never touches an account's id, e-mail address, admin
    flag or banned flag, nor any message or group. With none of username,
    avatar and status given (an empty string counts as not given) it is
    answered 400 and changes nothing. When it is answered 200 the user it
    returns has the given fields, the stored value where a field was not
    given, and the time of the request as lastSeen. *)
Theorem updateUser_outcome :
  ∀ (env : Env) (id : string) (body : UserController.UpdateBody) (db : Db),
    let r := UserController.updateUser env id body db in
    messages r.1 = messages db
    ∧ groups r.1 = groups db
    ∧ account_identity <$> users r.1 = account_identity <$> users db
    ∧ (Js.truthy (UserController.ub_username body) = false →
       Js.truthy (UserController.ub_avatar body) = false →
       Js.truthy (UserController.ub_status body) = false →
       r = (db, respond 400 (JError "Missing update fields")))
    ∧ (status r.2 = 200 →
       ∃ o d u,
         ObjectId.new id = Js.Return o
         ∧ Collection.findOne (UserModel.by_id o) (users db) = Some d
         ∧ json r.2 = JUser u
         ∧ UserModel.id u = ObjectId.toString o
         ∧ UserModel.email u = UserModel.Doc.email d
         ∧ UserModel.username u
           = (if Js.truthy (UserController.ub_username body)
              then UserController.ub_username body else UserModel.Doc.username d)
         ∧ UserModel.avatar u
           = (if Js.truthy (UserController.ub_avatar body)
              then UserController.ub_avatar body else UserModel.Doc.avatar d)
         ∧ UserModel.status u
           = (if Js.truthy (UserController.ub_status body)
              then UserController.ub_status body else UserModel.Doc.status d)
         ∧ UserModel.lastSeen u = Some (now env)).
Proof.
  intros env id body db r. subst r.
  unfold UserController.updateUser, UserModel.updateUser, Js.bind.
  destruct (negb (Js.truthy (UserController.ub_username body))
            && negb (Js.truthy (UserController.ub_avatar body))
            && negb (Js.truthy (UserController.ub_status body))) eqn:Hnone.
  { split_and!; try done. }
  destruct (ObjectId.new id) as [o|] eqn:Ho.
  2:{ simpl. case_bool_decide; simpl; split_and!; try done;
        intros H1 H2 H3; by rewrite H1, H2, H3 in Hnone. }
  set (updates := {| UserModel.up_username := _ |}).
  pose proof (findOneAndUpdate_fmap account_identity (UserModel.by_id o)
                (UserModel.set_updates updates) (users db)) as Hids.
  destruct (Collection.findOne (UserModel.by_id o) (users db)) as [d|] eqn:Hd.
  - pose proof (findOneAndUpdate_found _ (UserModel.set_updates updates) _ _ Hd) as Hres.
    destruct (Collection.findOneAndUpdate _ _ _) as [c res]. simpl in *. subst res. simpl.
    destruct (UserModel.validator (UserModel.set_updates updates d)) eqn:Hvalid; simpl.
    2:{ split_and!; try done. intros H1 H2 H3. by rewrite H1, H2, H3 in Hnone. }
    split_and!; try done.
    + apply Hids. by intros [].
    + intros H1 H2 H3. by rewrite H1, H2, H3 in Hnone.
    + intros _. exists o, d. eexists. split_and!; try done.
      * simpl. apply findOne_Some in Hd as [_ Hq]. by apply bool_decide_eq_true in Hq.
      * simpl. apply given_or_stored.
      * simpl. apply given_or_stored.
      * simpl. apply given_or_stored.
  - rewrite (findOneAndUpdate_none _ (UserModel.set_updates updates) _ Hd). simpl.
    split_and!; try done.
    intros H1 H2 H3. by rewrite H1, H2, H3 in Hnone.
Qed.

Lemma updateUser_outcome_witness :
  let r := UserController.updateUser env0 (oid "1") rename db_read in
  ∃ o d u,
    ObjectId.new (oid "1") = Js.Return o
    ∧ Collection.findOne (UserModel.by_id o) (users db_read) = Some d
    ∧ json r.2 = JUser u
    ∧ UserModel.id u = ObjectId.toString o
    ∧ UserModel.email u = UserModel.Doc.email d
    ∧ UserModel.username u
      = (if Js.truthy (UserController.ub_username rename)
         then UserController.ub_username rename else UserModel.Doc.username d)
    ∧ UserModel.avatar u
      = (if Js.truthy (UserController.ub_avatar rename)
         then UserController.ub_avatar rename else UserModel.Doc.avatar d)
    ∧ UserModel.status u
      = (if Js.truthy (UserController.ub_status rename)
         then UserController.ub_status rename else UserModel.Doc.status d)
    ∧ UserModel.lastSeen u = Some (now env0).
Proof.
  destruct (updateUser_outcome env0 (oid "1") rename db_read) as (_ & _ & _ & _ & H200).
  apply H200. reflexivity.
Defined.

(** ** Deleting and editing one message *)

Lemma deleteOne_length {D} (q : D → bool) (c : list D) d :
  Collection.findOne q c = Some d →
  (Collection.deleteOne q c).2 = 1
  ∧ (length (Collection.deleteOne q c).1 + 1 = length c)%nat.
Proof.
  unfold Collection.findOne. induction c as [|x c IH]; simpl; [done|].
  destruct (q x); simpl; [intros _; split; [done|lia]|].
  intros Hf. specialize (IH Hf). destruct (Collection.deleteOne q c). simpl in *.
  split; [tauto|lia].
Qed.

(** X14. DELETE /messages/:id deletes a stored message for whoever asks: with
    any non-empty userId, the sender's or not, it is answered 200, exactly
    one message is removed, the others are all still stored and, ids being
    distinct, the message is not found any more. *)
Theorem anyone_can_delete_a_message :
  ∀ (id : string) (userId : Js.str) (db : Db) (o : ObjectId.t)
    (d : MessageModel.MessageDocument),
    ObjectId.new id = Js.Return o →
    Collection.findOne (MessageModel.by_id o) (messages db) = Some d →
    Js.truthy userId = true →
    let r := MessageController.deleteMessage id userId db in
    r.2 = respond 200 (JInfo "Message deleted successfully")
    ∧ users r.1 = users db ∧ groups r.1 = groups db
    ∧ (length (messages r.1) + 1 = length (messages db))%nat
    ∧ (∀ x, x ∈ messages db → MessageModel.by_id o x = false → x ∈ messages r.1)
    ∧ (NoDup (stored_message_ids db) →
       Collection.findOne (MessageModel.by_id o) (messages r.1) = None).
Proof.
  intros id userId db o d Ho Hd Hu r. subst r.
  unfold MessageController.deleteMessage, MessageModel.deleteMessage, Js.bind.
  rewrite Hu, Ho. simpl.
  destruct (deleteOne_length _ _ _ Hd) as [Hn Hlen].
  pose proof (deleteOne_gone MessageModel.Doc._id o (messages db)) as Hgone.
  pose proof (λ x, deleteOne_keeps (MessageModel.by_id o) (messages db) x) as Hkeep.
  fold (MessageModel.by_id o) in Hgone.
  destruct (Collection.deleteOne (MessageModel.by_id o) (messages db)) as [c n].
  simpl in *. subst n. simpl. split_and!; try done.
Qed.

Lemma anyone_can_delete_a_message_witness :
  let r := MessageController.deleteMessage (oid "2") (Some "someone else") db_read in
  r.2 = respond 200 (JInfo "Message deleted successfully")
  ∧ users r.1 = users db_read ∧ groups r.1 = groups db_read
  ∧ (length (messages r.1) + 1 = length (messages db_read))%nat
  ∧ (∀ x, x ∈ messages db_read → MessageModel.by_id (oid "2") x = false → x ∈ messages r.1)
  ∧ (NoDup (stored_message_ids db_read) →
     Collection.findOne (MessageModel.by_id (oid "2")) (messages r.1) = None).
Proof.
  apply (anyone_can_delete_a_message (oid "2") (Some "someone else") db_read (oid "2")
           (text_doc "2" (oid "1") (oid "a") "hi" 100 "read")); reflexivity.
Defined.

Lemma findOneAndUpdate_keeps {D} (q : D → bool) upd (c : list D) x :
  x ∈ c → q x = false → x ∈ (Collection.findOneAndUpdate q upd c).1.
Proof.
  induction c as [|y c IH]; simpl; [done|].
  intros Hin Hq. apply elem_of_cons in Hin as [->|Hin].
  - rewrite Hq. destruct (Collection.findOneAndUpdate q upd c). simpl. by left.
  - destruct (q y); simpl; [by right|].
    specialize (IH Hin Hq). destruct (Collection.findOneAndUpdate q upd c). simpl in *.
    by right.
Qed.

(** X15. PATCH /messages/:id from the sender of a stored message, with a
    non-empty text, is answered 200 with the message carrying the new text;
    in the store that message has the new text and nothing else has changed:
    not its type, status, time stamp or media, not any other message, user
    or group. *)
Theorem sender_edits_only_the_text :
  ∀ (id : string) (text userId : Js.str) (db : Db) (o : ObjectId.t)
    (d : MessageModel.MessageDocument),
    ObjectId.new id = Js.Return o →
    Collection.findOne (MessageModel.by_id o) (messages db) = Some d →
    Js.truthy text = true → Js.truthy userId = true →
    MessageModel.Doc.senderId d = userId →
    let r := MessageController.editMessage id text userId db in
    r.2 = respond 200 (JMessage (MessageModel.transformDocument (MessageModel.set_text text d)))
    ∧ users r.1 = users db ∧ groups r.1 = groups db
    ∧ Collection.findOne (MessageModel.by_id o) (messages r.1)
      = Some (MessageModel.set_text text d)
    ∧ MessageModel.set_text None <$> messages r.1
      = MessageModel.set_text None <$> messages db
    ∧ (∀ x, x ∈ messages db → MessageModel.by_id o x = false → x ∈ messages r.1).
Proof.
  intros id text userId db o d Ho Hd Ht Hu Hs r. subst r.
  unfold MessageController.editMessage, MessageModel.updateMessageText, Js.bind.
  rewrite Ht, Hu, Ho. simpl.
  pose proof (findOneAndUpdate_found _ (MessageModel.set_text text) _ _ Hd) as Hres.
  pose proof (findOneAndUpdate_findOne _ (MessageModel.set_text text) _ _ Hd) as Hnew.
  rewrite by_id_set_text in Hnew. specialize (Hnew (findOne_by_id _ _ _ Hd)).
  pose proof (findOneAndUpdate_fmap (MessageModel.set_text None) (MessageModel.by_id o)
                (MessageModel.set_text text) (messages db)) as Hrest.
  pose proof (λ x, findOneAndUpdate_keeps (MessageModel.by_id o)
                     (MessageModel.set_text text) (messages db) x) as Hkeep.
  destruct (Collection.findOneAndUpdate _ _ _) as [c res]. simpl in *. subst res. simpl.
  unfold Js.seq. rewrite bool_decide_eq_true_2 by done. simpl.
  split_and!; try done. by apply Hrest.
Qed.

Lemma sender_edits_only_the_text_witness :
  let r := MessageController.editMessage (oid "2") (Some "hi!") (Some (oid "1")) db_read in
  r.2 = respond 200 (JMessage (MessageModel.transformDocument
          (MessageModel.set_text (Some "hi!")
             (text_doc "2" (oid "1") (oid "a") "hi" 100 "read"))))
  ∧ users r.1 = users db_read ∧ groups r.1 = groups db_read
  ∧ Collection.findOne (MessageModel.by_id (oid "2")) (messages r.1)
    = Some (MessageModel.set_text (Some "hi!")
              (text_doc "2" (oid "1") (oid "a") "hi" 100 "read"))
  ∧ MessageModel.set_text None <$> messages r.1
    = MessageModel.set_text None <$> messages db_read
  ∧ (∀ x, x ∈ messages db_read → MessageModel.by_id (oid "2") x = false → x ∈ messages r.1).
Proof.
  apply (sender_edits_only_the_text (oid "2") (Some "hi!") (Some (oid "1")) db_read
           (oid "2") (text_doc "2" (oid "1") (oid "a") "hi" 100 "read")); reflexivity.
Defined.

(** ** What every stored message has *)





(** * More of the gateway *)

(** X17. What a call does to the gateway's state. It never changes the base
    URL or the local lists. In mock mode it does not consult the network and
    leaves the connection flags as they are. Otherwise it marks an attempt,
    and afterwards [checkConnection] is true exactly when the server answered
    2xx with a JSON body, which is then the result whatever it is ([null]
    included), and false exactly when the call failed, the result then being
    [null]. *)
Theorem connection_flag_follows_the_last_call :
  ∀ (net : ApiService.Network) (req : Routes.Request) (st : ApiService.Client),
    let r := ApiService.request net req st in
    ApiService.getBaseUrl r.1 = ApiService.getBaseUrl st
    ∧ ApiService.connect_mock_users r.1 = ApiService.connect_mock_users st
    ∧ ApiService.connect_temp_msgs r.1 = ApiService.connect_temp_msgs st
    ∧ (ApiService.BASE_URL st = "LOCAL_MOCK" → r = (st, Js.Return None))
    ∧ (ApiService.BASE_URL st ≠ "LOCAL_MOCK" →
       ApiService.connectionAttempted r.1 = true
       ∧ (ApiService.checkConnection r.1 = true ↔
            ∃ status v, net req = ApiService.Responded status (Some v)
                        ∧ Http.ok status = true ∧ r.2 = Js.Return v)
       ∧ (ApiService.checkConnection r.1 = false ↔ ApiService.fails (net req))
       ∧ (ApiService.fails (net req) → r.2 = Js.Return None)).
Proof.
  intros net req st r. subst r. unfold ApiService.request, ApiService.fails.
  case_bool_decide as Hm.
  { split_and!; done. }
  destruct (net req) as [|status [v|]]; simpl.
  - split_and!; try done. intros _. split_and!; try done.
    split; [done|]. by intros (? & ? & ? & _).
  - destruct (Http.ok status) eqn:Hok; simpl.
    + split_and!; try done. intros _. split_and!; try done.
      * split; [by eexists _, _|done].
      * split; [done|]. by intros [?|?].
      * by intros [?|?].
    + split_and!; try done. intros _. split_and!; try done.
      * split; [done|]. intros (? & ? & [= -> ->] & ? & _). congruence.
      * split; [auto|done].
  - destruct (Http.ok status) eqn:Hok; simpl.
    + split_and!; try done. intros _. split_and!; try done.
      * split; [done|]. by intros (? & ? & ? & _).
      * split; [auto|done].
    + split_and!; try done. intros _. split_and!; try done.
      * split; [done|]. by intros (? & ? & ? & _).
      * split; [auto|done].
Qed.

Lemma connection_flag_follows_the_last_call_witness :
  let r := ApiService.request (ApiService.live env0 db_read)
             (Routes.GET_users None) fresh_client in
  ApiService.connectionAttempted r.1 = true
  ∧ (ApiService.checkConnection r.1 = true ↔
       ∃ status v,
         ApiService.live env0 db_read (Routes.GET_users None)
           = ApiService.Responded status (Some v)
         ∧ Http.ok status = true ∧ r.2 = Js.Return v)
  ∧ (ApiService.checkConnection r.1 = false
     ↔ ApiService.fails (ApiService.live env0 db_read (Routes.GET_users None)))
  ∧ (ApiService.fails (ApiService.live env0 db_read (Routes.GET_users None)) →
     r.2 = Js.Return None).
Proof.
  destruct (connection_flag_follows_the_last_call (ApiService.live env0 db_read)
              (Routes.GET_users None) fresh_client) as (_ & _ & _ & _ & Hlive).
  apply Hlive. discriminate.
Defined.

(** How a call ends: with a value, the state's lists and base URL as they
    were; the value is [null] in mock mode and when the call fails. *)
Lemma request_result net req st :
  ∃ st' v,
    ApiService.request net req st = (st', Js.Return v)
    ∧ ApiService.connect_mock_users st' = ApiService.connect_mock_users st
    ∧ ApiService.connect_temp_msgs st' = ApiService.connect_temp_msgs st
    ∧ ApiService.BASE_URL st' = ApiService.BASE_URL st
    ∧ (ApiService.BASE_URL st = "LOCAL_MOCK" ∨ ApiService.fails (net req) → v = None).
Proof.
  unfold ApiService.request, ApiService.fails.
  case_bool_decide as Hm; [eexists _, _; split_and!; done|].
  destruct (net req) as [|status [v|]]; simpl.
  - eexists _, _. split_and!; done.
  - destruct (Http.ok status) eqn:Hok; simpl; eexists _, _; split_and!; try done.
    by intros [?|[?|?]].
  - destruct (Http.ok status) eqn:Hok; simpl; eexists _, _; split_and!; done.
Qed.

Lemma local_between_ends a b m :
  MessageModel.senderId m = Some a → MessageModel.receiverId m = Some b →
  ApiService.local_between a b m = true.
Proof.
  intros Hs Hr. unfold ApiService.local_between, Js.seq. rewrite Hs, Hr.
  rewrite (bool_decide_eq_true_2 (Some a = Some a)) by done.
  by rewrite (bool_decide_eq_true_2 (Some b = Some b)) by done.
Qed.

(** X18. [sendMessage] completes with [true] whatever the network does. The
    message is appended to the local list, and nothing else changes, exactly
    when the call yields nothing truthy: in mock mode, without a connection,
    when the backend refuses the message, and when the body of a 2xx answer
    is [null], [false], [0] or empty. With the remote out of reach it is
    then the last message of the local direct history of its sender and
    receiver, asked for either way round. *)
Theorem unsent_message_is_kept_locally :
  ∀ (net : ApiService.Network) (m : MessageModel.Message) (st : ApiService.Client),
    let sent := ApiService.sendMessage net m st in
    sent.2 = Js.Return true
    ∧ ApiService.connect_mock_users sent.1 = ApiService.connect_mock_users st
    ∧ ∃ response,
        (ApiService.request net (Routes.POST_messages m) st).2 = Js.Return response
        ∧ (ApiService.BASE_URL st = "LOCAL_MOCK"
           ∨ ApiService.fails (net (Routes.POST_messages m)) → response = None)
        ∧ (ApiService.truthy response = true →
           ApiService.connect_temp_msgs sent.1 = ApiService.connect_temp_msgs st)
        ∧ (ApiService.truthy response = false →
           ApiService.connect_temp_msgs sent.1
             = (ApiService.connect_temp_msgs st ++ [m])%list
           ∧ ∀ net' a b,
               unreachable net' st →
               MessageModel.senderId m = Some a → MessageModel.receiverId m = Some b →
               ∃ l, returned_messages (ApiService.getMessages net' a b sent.1)
                      = Some (l ++ [m])%list
                    ∧ returned_messages (ApiService.getMessages net' b a sent.1)
                      = Some (l ++ [m])%list).
Proof.
  intros net m st sent. subst sent. unfold ApiService.sendMessage.
  destruct (request_result net (Routes.POST_messages m) st)
    as (st1 & v & -> & Husers & Hmsgs & Hurl & Hnull).
  simpl. destruct (ApiService.truthy v) eqn:Hv; simpl.
  - (* something truthy came back *)
    split_and!; try done. exists v. split_and!; try done; try exact Hnull.
    intros Hfalse. by rewrite Hfalse in Hv.
  - (* nothing truthy *)
    split_and!; try done. exists v.
    split_and!; [done|exact Hnull|intros Htrue; by rewrite Htrue in Hv|].
    intros _. split; [by rewrite Hmsgs|].
    intros net' a b Hu Hs Hrcv.
    assert (Hu' : unreachable net'
              (ApiService.with_temp_msgs (ApiService.connect_temp_msgs st1 ++ [m]) st1)).
    { destruct Hu as [Hu|Hu]; [left|by right]. simpl. congruence. }
    exists (List.filter (ApiService.local_between a b) (ApiService.connect_temp_msgs st1)).
    rewrite !getMessages_local by done. simpl.
    rewrite (List.filter_ext _ _ (local_between_sym b a)).
    rewrite !List.filter_app. simpl.
    by rewrite (local_between_ends a b m Hs Hrcv).
Qed.

Lemma unsent_message_is_kept_locally_witness :
  let sent := ApiService.sendMessage offline hello fresh_client in
  ApiService.connect_temp_msgs sent.1 = (ApiService.connect_temp_msgs fresh_client ++ [hello])%list
  ∧ ∃ l, returned_messages (ApiService.getMessages offline (oid "1") (oid "a") sent.1)
         = Some (l ++ [hello])%list
         ∧ returned_messages (ApiService.getMessages offline (oid "a") (oid "1") sent.1)
           = Some (l ++ [hello])%list.
Proof.
  destruct (unsent_message_is_kept_locally offline hello fresh_client)
    as (_ & _ & response & _ & Hnull & _ & Hlocal).
  destruct Hlocal as [Hkept Hseen].
  { rewrite Hnull; [reflexivity|]. right. exact I. }
  split; [exact Hkept|].
  apply (Hseen offline (oid "1") (oid "a")); [right; intros req; exact I | reflexivity..].
Defined.

(** X19. With the remote out of reach the user lists come from the local
    store, the same list for a regular user and for an admin, and a user who
    has just registered locally is on it. *)
Theorem local_registration_is_listed :
  ∀ (net net' : ApiService.Network) (time : Z) (rnd adminId : string)
    (userData : ApiService.PartialUser) (st : ApiService.Client),
    unreachable net st → unreachable net' st →
    let registered := ApiService.registerUser net time rnd userData st in
    ∃ u,
      returned_user registered = Some u
      ∧ (ApiService.getUniverse net' registered.1).2
        = Js.Return (Some (JUsers (ApiService.connect_mock_users registered.1)))
      ∧ (ApiService.getUniverseForAdmin net' adminId registered.1).2
        = Js.Return (Some (JUsers (ApiService.connect_mock_users registered.1)))
      ∧ u ∈ ApiService.connect_mock_users registered.1.
Proof.
  intros net net' time rnd adminId userData st Hu Hu' registered.
  destruct (registerUser_local net time rnd userData st Hu)
    as (st1 & u & Hreg & _ & Hurl & Hfind & _).
  fold registered in Hreg. rewrite Hreg. simpl.
  assert (Hu1 : unreachable net' st1).
  { destruct Hu' as [?|?]; [left; congruence|by right]. }
  exists u. split; [done|].
  unfold ApiService.getUniverse, ApiService.getUniverseForAdmin.
  destruct (request_unreachable net' (Routes.GET_users None) st1 Hu1)
    as (st2 & -> & Husers & _).
  destruct (request_unreachable net' (Routes.GET_users (Some adminId)) st1 Hu1)
    as (st3 & -> & Husers3 & _).
  simpl. rewrite Husers, Husers3. split_and!; try done.
  apply find_some in Hfind as [Hin _]. by apply list_elem_of_In.
Qed.

Lemma local_registration_is_listed_witness :
  let registered := ApiService.registerUser offline 10 "k3j9x0q1z" ana fresh_client in
  ∃ u,
    returned_user registered = Some u
    ∧ (ApiService.getUniverse offline registered.1).2
      = Js.Return (Some (JUsers (ApiService.connect_mock_users registered.1)))
    ∧ (ApiService.getUniverseForAdmin offline (oid "a") registered.1).2
      = Js.Return (Some (JUsers (ApiService.connect_mock_users registered.1)))
    ∧ u ∈ ApiService.connect_mock_users registered.1.
Proof.
  apply (local_registration_is_listed offline offline 10 "k3j9x0q1z" (oid "a") ana
           fresh_client); right; intros req; exact I.
Defined.

(** X20. [getAllGroupsForAdmin] never returns [null], nor anything else that
    is falsy: it returns what the call yields when that is truthy, and an
    empty list otherwise, as when the call failed or the gateway runs in
    mock mode. *)
Theorem admin_group_list_is_never_null :
  ∀ (net : ApiService.Network) (adminId : string) (st : ApiService.Client),
    let r := ApiService.getAllGroupsForAdmin net adminId st in
    r.2 ≠ None
    ∧ ApiService.truthy r.2 = true
    ∧ (unreachable net st → r.2 = Some (JGroups []))
    ∧ (∀ v, (ApiService.request net (Routes.GET_groups_all (Some adminId)) st).2
            = Js.Return v →
            (ApiService.truthy v = true → r.2 = v)
            ∧ (ApiService.truthy v = false → r.2 = Some (JGroups []))).
Proof.
  intros net adminId st r. subst r. unfold ApiService.getAllGroupsForAdmin.
  split_and!.
  - destruct (request_result net (Routes.GET_groups_all (Some adminId)) st)
      as (st' & v & -> & _). simpl.
    destruct (ApiService.truthy v) eqn:Hv; [|done]. by destruct v.
  - destruct (request_result net (Routes.GET_groups_all (Some adminId)) st)
      as (st' & v & -> & _). simpl.
    by destruct (ApiService.truthy v) eqn:Hv.
  - intros Hu.
    by destruct (request_unreachable net (Routes.GET_groups_all (Some adminId)) st Hu)
      as (st' & -> & _).
  - intros v Hv.
    destruct (ApiService.request net (Routes.GET_groups_all (Some adminId)) st) as [st' r].
    simpl in Hv. subst r. simpl. split; by intros ->.
Qed.

Lemma admin_group_list_is_never_null_witness :
  (ApiService.getAllGroupsForAdmin offline (oid "a") fresh_client).2 = Some (JGroups []).
Proof.
  destruct (admin_group_list_is_never_null offline (oid "a") fresh_client)
    as (_ & _ & Hoff & _).
  apply Hoff. right. intros req. exact I.
Defined.

(** ** The client's message builder against the backend's checks *)

(** X21. The message [App.handleSendMessage] builds for a signed-in user and
    an open chat passes the checks of POST /messages exactly when some text,
    image, audio or file came with it; its receiver is already the one the
    handler stores, the group for a group chat. *)
Theorem built_message_passes_validation :
  ∀ s text imageUrl audioUrl fileUrl fileName fileType t_id t_stamp m,
    App.newMessage s text imageUrl audioUrl fileUrl fileName fileType t_id t_stamp
      = Some m →
    (∀ u, App.currentUser s = Some u → UserModel.id u ≠ "") →
    (∀ u, App.selectedUser s = Some u → UserModel.id u ≠ "") →
    (∀ g, App.selectedGroup s = Some g → GroupModel.id g ≠ "") →
    t_stamp ≠ 0 →
    (MessageController.validation_error m = None ↔
       Js.truthy text || Js.truthy imageUrl || Js.truthy audioUrl || Js.truthy fileUrl
         = true)
    ∧ MessageModel.receiverId (MessageController.message_data m)
        = MessageModel.receiverId m
    ∧ MessageModel.id m = pretty t_id.
Proof.
  intros [cu su sg] text imageUrl audioUrl fileUrl fileName fileType t_id t_stamp m
    Hm Hcu Hsu Hsg Ht.
  unfold App.newMessage in Hm. simpl in *.
  destruct cu as [cu|]; [|done].
  specialize (Hcu cu eq_refl).
  assert (∃ r g, r ≠ "" ∧ (∀ x, g = Some x → x = r ∧ x ≠ "") ∧
            m = {| MessageModel.id := pretty t_id;
                   MessageModel.senderId := Some (UserModel.id cu);
                   MessageModel.receiverId := Some r;
                   MessageModel.text := text;
                   MessageModel.imageUrl := imageUrl;
                   MessageModel.audioUrl := audioUrl;
                   MessageModel.fileUrl := fileUrl;
                   MessageModel.fileName := fileName;
                   MessageModel.fileType := fileType;
                   MessageModel.type := Some (App.type_of imageUrl audioUrl fileUrl);
                   MessageModel.timestamp := Some t_stamp;
                   MessageModel.status := Some "sent";
                   MessageModel.groupId := g |}) as (r & g & Hr & Hg & ->).
  { destruct sg as [grp|].
    - exists (GroupModel.id grp), (Some (GroupModel.id grp)).
      split_and!; [by apply Hsg| |destruct su; by simplify_eq/=].
      intros x [= <-]. split; [done|by apply Hsg].
    - destruct su as [u|]; [|done].
      exists (UserModel.id u), None. split_and!; [by apply Hsu|done|by simplify_eq/=]. }
  split_and!; [|simpl|done].
  - unfold MessageController.validation_error, MessageController.is_type,
      App.type_of, Js.seq, Js.truthy_num. simpl.
    rewrite (bool_decide_eq_false_2 (UserModel.id cu = "")) by done.
    rewrite (bool_decide_eq_false_2 (r = "")) by done.
    rewrite (bool_decide_eq_false_2 (t_stamp = 0)) by done. simpl.
    destruct (Js.truthy fileUrl), (Js.truthy audioUrl), (Js.truthy imageUrl),
      (Js.truthy text); vm_compute; split; congruence.
  - unfold Js.or. destruct g as [x|]; simpl; [|done].
    destruct (Hg x eq_refl) as [-> Hx].
    by rewrite (bool_decide_eq_false_2 (r = "")).
Qed.

Lemma built_message_passes_validation_witness :
  ∃ m, App.newMessage chat_with_admin (Some "hello") None None None None None
         1700000000200 1700000000200 = Some m
       ∧ MessageController.validation_error m = None.
Proof.
  eexists. split; [reflexivity|].
  edestruct (built_message_passes_validation chat_with_admin (Some "hello") None None
               None None None 1700000000200 1700000000200) as [H _];
    [reflexivity|..|apply H; reflexivity].
  - intros u [= <-]. by vm_compute.
  - intros u [= <-]. by vm_compute.
  - intros g [=].
  - done.
Defined.

(** ** The group creation modal *)

Lemma toggle_members cu userId s :
  userId ≠ UserModel.id cu →
  NoDup (GroupCreationModal.selectedMemberIds s) →
  let s' := GroupCreationModal.handleMemberToggle cu userId s in
  NoDup (GroupCreationModal.selectedMemberIds s')
  ∧ (userId ∈ GroupCreationModal.selectedMemberIds s'
       ↔ userId ∉ GroupCreationModal.selectedMemberIds s)
  ∧ ∀ u, u ≠ userId →
      (u ∈ GroupCreationModal.selectedMemberIds s'
         ↔ u ∈ GroupCreationModal.selectedMemberIds s).
Proof.
  intros Hne Hnd. unfold GroupCreationModal.handleMemberToggle.
  rewrite bool_decide_eq_false_2 by done. simpl.
  case_bool_decide as Hin; split_and!.
  - eapply sublist_NoDup; [exact Hnd|apply filter_sublist].
  - rewrite list_elem_of_In, List.filter_In. split; [intros [_ H]|done].
    by rewrite bool_decide_eq_true_2 in H.
  - intros u Hu. rewrite !list_elem_of_In, List.filter_In.
    rewrite (bool_decide_eq_false_2 (u = userId)) by done. simpl. tauto.
  - apply NoDup_app. split_and!; [done| |apply NoDup_singleton].
    intros x Hx ->%list_elem_of_singleton. done.
  - rewrite elem_of_app, list_elem_of_singleton. split; [by intros _|by right].
  - intros u Hu. rewrite elem_of_app, list_elem_of_singleton.
    split; [by intros [?|?]|by left].
Qed.

(** X22. Whatever the sequence of clicks on members in the group creation
    modal, no id is selected twice, the current user stays selected, another
    user is selected exactly when clicked an odd number of times, and the
    clicks leave the choice of admin alone. *)
Theorem modal_selection_after_any_clicks :
  ∀ (currentUser : UserModel.User) (clicks : list string),
    let s := foldl (λ s userId, GroupCreationModal.handleMemberToggle currentUser userId s)
               (GroupCreationModal.initial currentUser) clicks in
    NoDup (GroupCreationModal.selectedMemberIds s)
    ∧ UserModel.id currentUser ∈ GroupCreationModal.selectedMemberIds s
    ∧ (∀ u, u ≠ UserModel.id currentUser →
         (u ∈ GroupCreationModal.selectedMemberIds s
            ↔ Nat.odd (length (List.filter (λ c, bool_decide (c = u)) clicks)) = true))
    ∧ GroupCreationModal.groupAdminId s = UserModel.id currentUser.
Proof.
  intros cu clicks. induction clicks as [|c clicks IH] using rev_ind; simpl.
  - split_and!; [apply NoDup_singleton|apply list_elem_of_singleton; done| |done].
    intros u Hu. rewrite list_elem_of_singleton. split; [done|discriminate].
  - rewrite foldl_app. simpl. destruct IH as (Hnd & Hself & Hodd & Hadm).
    set (s := foldl _ _ clicks) in *.
    destruct (decide (c = UserModel.id cu)) as [->|Hc].
    + unfold GroupCreationModal.handleMemberToggle at 1 2 3 4.
      rewrite bool_decide_eq_true_2 by done. split_and!; try done.
      intros u Hu. rewrite (Hodd u Hu), List.filter_app, length_app. simpl.
      rewrite (bool_decide_eq_false_2 (UserModel.id cu = u)) by done.
      simpl. by rewrite Nat.add_0_r.
    + destruct (toggle_members cu c s Hc Hnd) as (Hnd' & Hc' & Hother).
      split_and!; [done|by apply Hother| |].
      * intros u Hu. rewrite List.filter_app, length_app. simpl.
        destruct (decide (c = u)) as [->|Hcu].
        -- rewrite bool_decide_eq_true_2 by done. simpl.
           rewrite Hc', (Hodd u Hu), Nat.add_1_r, Nat.odd_succ, <- Nat.negb_odd.
           destruct (Nat.odd _); simpl; split; done.
        -- rewrite (bool_decide_eq_false_2 (c = u)) by done. simpl.
           rewrite Nat.add_0_r, <- (Hodd u Hu). by apply Hother.
      * unfold GroupCreationModal.handleMemberToggle.
        by rewrite bool_decide_eq_false_2.
Qed.

(** X23. A group the modal lets through is created: when [handleCreate] calls
    [onCreate] and somebody is signed in, POST /groups answers 201 with a
    group that has the modal's name, admin and members, at least three of
    them, provided the admin id is not empty. *)
Theorem modal_group_is_created :
  ∀ trim s sess name avatar adminId memberIds body env db,
    GroupCreationModal.handleCreate trim s = Some (name, avatar, adminId, memberIds) →
    App.handleCreateGroup sess name avatar adminId memberIds = Some body →
    trim "" = "" →
    GroupCreationModal.groupAdminId s ≠ "" →
    ∃ g, (GroupController.createGroup env body db).2 = respond 201 (JGroup g)
         ∧ GroupModel.name g = GroupCreationModal.name s
         ∧ GroupModel.adminId g = GroupCreationModal.groupAdminId s
         ∧ GroupModel.memberIds g = GroupCreationModal.selectedMemberIds s
         ∧ (3 ≤ length (GroupModel.memberIds g))%nat
         ∧ GroupModel.id g = ObjectId.toString (insertedId env).
Proof.
  intros trim s sess name avatar adminId memberIds body env db Hc Hb Htrim Hadm.
  unfold GroupCreationModal.handleCreate in Hc.
  case_bool_decide as Hlen; [done|]. case_bool_decide as Hname; [done|].
  simplify_eq/=.
  unfold App.handleCreateGroup in Hb. destruct (App.currentUser sess); [|done].
  simplify_eq/=.
  assert (GroupCreationModal.name s ≠ "") as Hn by (intros E; by rewrite E in Hname).
  unfold GroupController.createGroup, nonempty, Js.truthy. simpl.
  rewrite (bool_decide_eq_false_2 (GroupCreationModal.name s = "")) by done.
  rewrite (bool_decide_eq_false_2 (GroupCreationModal.groupAdminId s = "")) by done.
  simpl. rewrite bool_decide_eq_false_2 by lia. simpl.
  eexists. split_and!; try done. simpl. lia.
Qed.

Lemma modal_group_is_created_witness :
  ∃ g, (GroupController.createGroup env0
          {| GroupController.cb_name := Some "team";
             GroupController.cb_avatar := None;
             GroupController.cb_adminId := Some (oid "b");
             GroupController.cb_memberIds := Some [oid "1"; oid "b"; oid "c"] |}
          Routes.empty_db).2 = respond 201 (JGroup g)
       ∧ GroupModel.memberIds g = [oid "1"; oid "b"; oid "c"].
Proof.
  destruct (modal_group_is_created (λ x, x) three_picked chat_with_admin "team" None
              (oid "b") [oid "1"; oid "b"; oid "c"]
              {| GroupController.cb_name := Some "team";
                 GroupController.cb_avatar := None;
                 GroupController.cb_adminId := Some (oid "b");
                 GroupController.cb_memberIds := Some [oid "1"; oid "b"; oid "c"] |}
              env0 Routes.empty_db) as (g & Hr & _ & _ & Hm & _).
  - reflexivity.
  - reflexivity.
  - reflexivity.
  - by vm_compute.
  - exists g. split; [exact Hr|exact Hm].
Defined.
